(** * The IPMI BMC emulator of OpenIPMI's lanserv (emu.c): SEL, SDR and sensors

    A shallow embedding of the command handlers of [src/lanserv/serv.c]
    (the part that begins with the header of emu.c) and the properties the
    specification states about them.

    Conventions of the embedding.
    - C integers are [Z]; a store into a [uint8_t], [uint16_t] or [uint32_t]
      object is written out with [u8], [u16] and [u32].  Byte buffers are
      [list Z].
    - A handler receives the response buffer [rdata] and [*rdata_len] as a
      value of [rsp_t] and returns the updated one: the C handlers write
      single bytes of the caller's buffer and leave the rest alone, and two
      of them read it.
    - [gettimeofday] is the argument [now] (the [tv_sec] it returns).
    - A result of type [option] is [None] where the C program has no defined
      behaviour (it follows a pointer to freed memory or a null pointer) or
      where a loop of the program does not come to an end.
    - [malloc] is taken to succeed. *)

From stdpp Require Import base numbers option list gmap.

Local Open Scope Z_scope.

(** ** Integers and byte buffers *)

Definition u8 (v : Z) : Z := v mod 256.
Definition u16 (v : Z) : Z := v mod 65536.
Definition u32 (v : Z) : Z := v mod 4294967296.

(** [buf[i]].  A read past the end of the list stands for a read of memory
    the model does not describe; it gives 0. *)
Definition byte_at (buf : list Z) (i : Z) : Z :=
  if decide (i < 0) then 0 else default 0 (buf !! Z.to_nat i).

(** [buf[i] = v].  A write past the end of the list is dropped. *)
Definition set_byte (buf : list Z) (i : Z) (v : Z) : list Z :=
  if decide (i < 0) then buf else <[Z.to_nat i := v]> buf.

(** The [n] bytes at [src + off]. *)
Definition read_bytes (src : list Z) (off n : Z) : list Z :=
  (fun k => byte_at src (off + k)) <$> seqZ 0 n.

(** [memcpy(dst + doff, src + soff, n)]. *)
Definition memcpy (dst : list Z) (doff : Z) (src : list Z) (soff n : Z) : list Z :=
  list_inserts (Z.to_nat doff) (read_bytes src soff n) dst.

(** [memset(dst + off, v, n)]. *)
Definition memset (dst : list Z) (off v n : Z) : list Z :=
  list_inserts (Z.to_nat off) (replicate (Z.to_nat n) v) dst.

(** The bytes of a block that [malloc] returns are indeterminate; the model
    fills the block with zeros.  Every handler overwrites the bytes of a
    record before the record can be read back. *)
Definition malloc (n : Z) : list Z := replicate (Z.to_nat n) 0.

(** Deal with multi-byte data, IPMI (little-endian) style. *)
Definition ipmi_get_uint16 (data : list Z) (off : Z) : Z :=
  Z.lor (byte_at data off) (Z.shiftl (byte_at data (off + 1)) 8).

Definition ipmi_set_uint16 (data : list Z) (off val : Z) : list Z :=
  let data := set_byte data off (Z.land val 255) in
  set_byte data (off + 1) (Z.land (Z.shiftr val 8) 255).

Definition ipmi_get_uint32 (data : list Z) (off : Z) : Z :=
  Z.lor (Z.lor (Z.lor (byte_at data off)
                      (Z.shiftl (byte_at data (off + 1)) 8))
               (Z.shiftl (byte_at data (off + 2)) 16))
        (Z.shiftl (byte_at data (off + 3)) 24).

Definition ipmi_set_uint32 (data : list Z) (off val : Z) : list Z :=
  let data := set_byte data off (Z.land val 255) in
  let data := set_byte data (off + 1) (Z.land (Z.shiftr val 8) 255) in
  let data := set_byte data (off + 2) (Z.land (Z.shiftr val 16) 255) in
  set_byte data (off + 3) (Z.land (Z.shiftr val 24) 255).

(** ** Constants *)

(** Device ID support bits *)
Definition IPMI_DEVID_CHASSIS_DEVICE : Z := 128.
Definition IPMI_DEVID_BRIDGE : Z := 64.
Definition IPMI_DEVID_IPMB_EVENT_GEN : Z := 32.
Definition IPMI_DEVID_IPMB_EVENT_RCV : Z := 16.
Definition IPMI_DEVID_FRU_INVENTORY_DEV : Z := 8.
Definition IPMI_DEVID_SEL_DEVICE : Z := 4.
Definition IPMI_DEVID_SDR_REPOSITORY_DEV : Z := 2.
Definition IPMI_DEVID_SENSOR_DEV : Z := 1.

Definition IPMI_SEL_SUPPORTS_DELETE : Z := 8.
Definition IPMI_SEL_SUPPORTS_RESERVE : Z := 2.
Definition IPMI_SEL_SUPPORTS_GET_ALLOC_INFO : Z := 1.

Definition IPMI_SDR_OVERFLOW_FLAG : Z := 128.
Definition IPMI_SDR_GET_MODAL (v : Z) : Z := Z.land (Z.shiftr v 5) 3.
Definition IPMI_SDR_MODAL_UNSPECIFIED : Z := 0.
Definition IPMI_SDR_NON_MODAL_ONLY : Z := 1.
Definition IPMI_SDR_MODAL_ONLY : Z := 2.
Definition IPMI_SDR_MODAL_BOTH : Z := 3.
Definition IPMI_SDR_DELETE_SDR_SUPPORTED : Z := 8.
Definition IPMI_SDR_PARTIAL_ADD_SDR_SUPPORTED : Z := 4.
Definition IPMI_SDR_RESERVE_SDR_SUPPORTED : Z := 2.
Definition IPMI_SDR_GET_SDR_ALLOC_INFO_SDR_SUPPORTED : Z := 1.

Definition MAX_SDR_LENGTH : Z := 261.
Definition MAX_NUM_SDRS : Z := 1024.

(** Modelled from the spec: the completion codes of OpenIPMI/ipmi_msgbits.h,
    a header that is not part of the sources; the values are those of the
    failure taxonomy and of the error handling design. *)
Definition IPMI_INVALID_CMD_CC : Z := 0xC1.
Definition IPMI_OUT_OF_SPACE_CC : Z := 0xC4.
Definition IPMI_INVALID_RESERVATION_CC : Z := 0xC5.
Definition IPMI_REQUEST_DATA_LENGTH_INVALID_CC : Z := 0xC7.
Definition IPMI_PARAMETER_OUT_OF_RANGE_CC : Z := 0xC9.
Definition IPMI_REQUESTED_DATA_LENGTH_EXCEEDED_CC : Z := 0xCA.
Definition IPMI_NOT_PRESENT_CC : Z := 0xCB.
Definition IPMI_INVALID_DATA_FIELD_CC : Z := 0xCC.
Definition IPMI_NOT_SUPPORTED_IN_PRESENT_STATE_CC : Z := 0xD5.
Definition IPMI_UNKNOWN_ERR_CC : Z := 0xFF.

(** Modelled from the spec: the direction of an event, of
    OpenIPMI/ipmi_bits.h (0 = assert, 1 = deassert). *)
Definition IPMI_ASSERTION : Z := 0.
Definition IPMI_DEASSERTION : Z := 1.

(** The values the functions return: 0 and the errno names the source uses. *)
Inductive errno : Type :=
| E_OK | ENOTSUP | EAGAIN | ENOMEM | EINVAL | ENOSYS.

Global Instance errno_eq_dec : EqDecision errno.
Proof. solve_decision. Defined.

(** ** Data model *)

(** A singly linked list as the value of its head pointer: the nodes it
    reaches, or a pointer to nodes that were freed. *)
Inductive chain (A : Type) : Type :=
| Live (l : list A)
| Dangling.
Arguments Live {A} l.
Arguments Dangling {A}.

(** Following the head pointer. *)
Definition nodes {A} (c : chain A) : option (list A) :=
  match c with Live l => Some l | Dangling => None end.

(** [sel_entry_t]: [record_id] and [data[16]]. *)
Record sel_entry_t := mk_sel_entry {
  se_record_id : Z;
  se_data : list Z
}.

(** [sel_t]. *)
Record sel_t := mk_sel {
  sel_entries : chain sel_entry_t;
  sel_count : Z;
  sel_max_count : Z;
  sel_last_add_time : Z;
  sel_last_erase_time : Z;
  sel_flags : Z;
  sel_reservation : Z;
  sel_next_entry : Z;
  sel_time_offset : Z
}.

(** [sdr_t]: [record_id], [length] and the [length] bytes at [data]. *)
Record sdr_t := mk_sdr {
  sdr_record_id : Z;
  sdr_length : Z;
  sdr_data : list Z
}.

(** [sdrs_t]. *)
Record sdrs_t := mk_sdrs {
  sdrs_reservation : Z;
  sdrs_sdr_count : Z;
  sdrs_sensor_count : Z;
  sdrs_last_add_time : Z;
  sdrs_last_erase_time : Z;
  sdrs_time_offset : Z;
  sdrs_flags : Z;
  sdrs_next_entry : Z;
  sdrs_sdrs_length : Z;
  sdrs_sdrs : chain sdr_t
}.

(** [sensor_t].  [event_supported] and [event_enabled] are the two rows
    (0 for assertion, 1 for deassertion) of 15 bytes. *)
Record sensor_t := mk_sensor {
  s_num : Z;
  s_lun : Z;
  s_scanning_enabled : Z;
  s_events_enabled : Z;
  s_sensor_type : Z;
  s_event_reading_code : Z;
  s_value : Z;
  s_hysteresis_support : Z;
  s_positive_hysteresis : Z;
  s_negative_hysteresis : Z;
  s_threshold_support : Z;
  s_threshold_supported : list Z;
  s_thresholds : list Z;
  s_event_support : Z;
  s_event_supported : list Z * list Z;
  s_event_enabled : list Z * list Z;
  s_event_status : list Z
}.

(** [struct lmc_data_s].  The back pointer [emu] is the emulator the
    functions take as an argument; [sensors[lun][num]] is a map from
    [(lun, num)], a null pointer being an absent key.  The FRU table and
    the per-LUN sensor counters, which no function below reads, are left
    out. *)
Record lmc_data_t := mk_lmc {
  mc_ipmb : Z;
  mc_device_id : Z;
  mc_has_device_sdrs : Z;
  mc_device_revision : Z;
  mc_major_fw_rev : Z;
  mc_minor_fw_rev : Z;
  mc_device_support : Z;
  mc_mfg_id : list Z;
  mc_product_id : list Z;
  mc_sel : sel_t;
  mc_main_sdrs : sdrs_t;
  mc_part_add_sdr : option sdr_t;
  mc_part_add_next : Z;
  mc_in_update_mode : Z;
  mc_event_receiver : Z;
  mc_event_receiver_lun : Z;
  mc_device_sdrs : list sdrs_t;
  mc_dynamic_sensor_population : Z;
  mc_sensors : gmap (Z * Z) sensor_t;
  mc_power_value : Z
}.

(** [struct emu_data_s]: [ipmb[128]] is a map from the slot [slave >> 1]. *)
Record emu_data_t := mk_emu {
  emu_bmc_mc : Z;
  emu_ipmb : gmap Z lmc_data_t
}.

(** [ipmi_msg_t] as the handlers use it. *)
Record ipmi_msg_t := mk_msg {
  msg_netfn : Z;
  msg_cmd : Z;
  msg_data : list Z;
  msg_data_len : Z
}.

(** The response buffer and [*rdata_len]. *)
Record rsp_t := mk_rsp {
  rdata : list Z;
  rdata_len : Z
}.

(** The bytes a handler hands back: the first [rdata_len] of [rdata]. *)
Definition response (r : rsp_t) : list Z := take (Z.to_nat (rdata_len r)) (rdata r).

(** [rdata[0] = cc; *rdata_len = 1;] *)
Definition rsp_cc (cc : Z) (r : rsp_t) : rsp_t :=
  {| rdata := set_byte (rdata r) 0 cc; rdata_len := 1 |}.

(** Field updates. *)
Definition set_mc_sel (mc : lmc_data_t) (s : sel_t) : lmc_data_t :=
  {| mc_ipmb := mc_ipmb mc; mc_device_id := mc_device_id mc;
     mc_has_device_sdrs := mc_has_device_sdrs mc;
     mc_device_revision := mc_device_revision mc;
     mc_major_fw_rev := mc_major_fw_rev mc; mc_minor_fw_rev := mc_minor_fw_rev mc;
     mc_device_support := mc_device_support mc;
     mc_mfg_id := mc_mfg_id mc; mc_product_id := mc_product_id mc;
     mc_sel := s;
     mc_main_sdrs := mc_main_sdrs mc;
     mc_part_add_sdr := mc_part_add_sdr mc; mc_part_add_next := mc_part_add_next mc;
     mc_in_update_mode := mc_in_update_mode mc;
     mc_event_receiver := mc_event_receiver mc;
     mc_event_receiver_lun := mc_event_receiver_lun mc;
     mc_device_sdrs := mc_device_sdrs mc;
     mc_dynamic_sensor_population := mc_dynamic_sensor_population mc;
     mc_sensors := mc_sensors mc; mc_power_value := mc_power_value mc |}.

Definition set_mc_main_sdrs (mc : lmc_data_t) (s : sdrs_t) : lmc_data_t :=
  {| mc_ipmb := mc_ipmb mc; mc_device_id := mc_device_id mc;
     mc_has_device_sdrs := mc_has_device_sdrs mc;
     mc_device_revision := mc_device_revision mc;
     mc_major_fw_rev := mc_major_fw_rev mc; mc_minor_fw_rev := mc_minor_fw_rev mc;
     mc_device_support := mc_device_support mc;
     mc_mfg_id := mc_mfg_id mc; mc_product_id := mc_product_id mc;
     mc_sel := mc_sel mc;
     mc_main_sdrs := s;
     mc_part_add_sdr := mc_part_add_sdr mc; mc_part_add_next := mc_part_add_next mc;
     mc_in_update_mode := mc_in_update_mode mc;
     mc_event_receiver := mc_event_receiver mc;
     mc_event_receiver_lun := mc_event_receiver_lun mc;
     mc_device_sdrs := mc_device_sdrs mc;
     mc_dynamic_sensor_population := mc_dynamic_sensor_population mc;
     mc_sensors := mc_sensors mc; mc_power_value := mc_power_value mc |}.

Definition set_mc_part_add_sdr (mc : lmc_data_t) (p : option sdr_t) : lmc_data_t :=
  {| mc_ipmb := mc_ipmb mc; mc_device_id := mc_device_id mc;
     mc_has_device_sdrs := mc_has_device_sdrs mc;
     mc_device_revision := mc_device_revision mc;
     mc_major_fw_rev := mc_major_fw_rev mc; mc_minor_fw_rev := mc_minor_fw_rev mc;
     mc_device_support := mc_device_support mc;
     mc_mfg_id := mc_mfg_id mc; mc_product_id := mc_product_id mc;
     mc_sel := mc_sel mc;
     mc_main_sdrs := mc_main_sdrs mc;
     mc_part_add_sdr := p; mc_part_add_next := mc_part_add_next mc;
     mc_in_update_mode := mc_in_update_mode mc;
     mc_event_receiver := mc_event_receiver mc;
     mc_event_receiver_lun := mc_event_receiver_lun mc;
     mc_device_sdrs := mc_device_sdrs mc;
     mc_dynamic_sensor_population := mc_dynamic_sensor_population mc;
     mc_sensors := mc_sensors mc; mc_power_value := mc_power_value mc |}.

Definition set_mc_part_add_next (mc : lmc_data_t) (n : Z) : lmc_data_t :=
  {| mc_ipmb := mc_ipmb mc; mc_device_id := mc_device_id mc;
     mc_has_device_sdrs := mc_has_device_sdrs mc;
     mc_device_revision := mc_device_revision mc;
     mc_major_fw_rev := mc_major_fw_rev mc; mc_minor_fw_rev := mc_minor_fw_rev mc;
     mc_device_support := mc_device_support mc;
     mc_mfg_id := mc_mfg_id mc; mc_product_id := mc_product_id mc;
     mc_sel := mc_sel mc;
     mc_main_sdrs := mc_main_sdrs mc;
     mc_part_add_sdr := mc_part_add_sdr mc; mc_part_add_next := n;
     mc_in_update_mode := mc_in_update_mode mc;
     mc_event_receiver := mc_event_receiver mc;
     mc_event_receiver_lun := mc_event_receiver_lun mc;
     mc_device_sdrs := mc_device_sdrs mc;
     mc_dynamic_sensor_population := mc_dynamic_sensor_population mc;
     mc_sensors := mc_sensors mc; mc_power_value := mc_power_value mc |}.

Definition set_mc_sensors (mc : lmc_data_t) (m : gmap (Z * Z) sensor_t) : lmc_data_t :=
  {| mc_ipmb := mc_ipmb mc; mc_device_id := mc_device_id mc;
     mc_has_device_sdrs := mc_has_device_sdrs mc;
     mc_device_revision := mc_device_revision mc;
     mc_major_fw_rev := mc_major_fw_rev mc; mc_minor_fw_rev := mc_minor_fw_rev mc;
     mc_device_support := mc_device_support mc;
     mc_mfg_id := mc_mfg_id mc; mc_product_id := mc_product_id mc;
     mc_sel := mc_sel mc;
     mc_main_sdrs := mc_main_sdrs mc;
     mc_part_add_sdr := mc_part_add_sdr mc; mc_part_add_next := mc_part_add_next mc;
     mc_in_update_mode := mc_in_update_mode mc;
     mc_event_receiver := mc_event_receiver mc;
     mc_event_receiver_lun := mc_event_receiver_lun mc;
     mc_device_sdrs := mc_device_sdrs mc;
     mc_dynamic_sensor_population := mc_dynamic_sensor_population mc;
     mc_sensors := m; mc_power_value := mc_power_value mc |}.

(** [handle_invalid_cmd]. *)
Definition handle_invalid_cmd (r : rsp_t) : rsp_t := rsp_cc IPMI_INVALID_CMD_CC r.

(** [check_msg_length]: the message is shorter than [len]. *)
Definition check_msg_length (msg : ipmi_msg_t) (len : Z) : bool :=
  bool_decide (msg_data_len msg < len).

(** [mc->device_support & bit]. *)
Definition has_bit (v bit : Z) : bool := negb (Z.land v bit =? 0).

(** ** SEL handling commands *)

(** [find_sel_event_by_recid]: the first entry with the record id, with its
    position in the list (the entry before it is [*prev]). *)
Definition find_sel_event_by_recid (l : list sel_entry_t) (record_id : Z)
  : option (nat * sel_entry_t) :=
  list_find (fun e => se_record_id e = record_id) l.

Definition set_sel_flags (s : sel_t) (f : Z) : sel_t :=
  {| sel_entries := sel_entries s; sel_count := sel_count s;
     sel_max_count := sel_max_count s;
     sel_last_add_time := sel_last_add_time s;
     sel_last_erase_time := sel_last_erase_time s;
     sel_flags := f; sel_reservation := sel_reservation s;
     sel_next_entry := sel_next_entry s; sel_time_offset := sel_time_offset s |}.

Definition set_sel_reservation (s : sel_t) (v : Z) : sel_t :=
  {| sel_entries := sel_entries s; sel_count := sel_count s;
     sel_max_count := sel_max_count s;
     sel_last_add_time := sel_last_add_time s;
     sel_last_erase_time := sel_last_erase_time s;
     sel_flags := sel_flags s; sel_reservation := v;
     sel_next_entry := sel_next_entry s; sel_time_offset := sel_time_offset s |}.

Definition set_sel_next_entry (s : sel_t) (v : Z) : sel_t :=
  {| sel_entries := sel_entries s; sel_count := sel_count s;
     sel_max_count := sel_max_count s;
     sel_last_add_time := sel_last_add_time s;
     sel_last_erase_time := sel_last_erase_time s;
     sel_flags := sel_flags s; sel_reservation := sel_reservation s;
     sel_next_entry := v; sel_time_offset := sel_time_offset s |}.

Definition set_sel_entries (s : sel_t) (c : chain sel_entry_t) : sel_t :=
  {| sel_entries := c; sel_count := sel_count s;
     sel_max_count := sel_max_count s;
     sel_last_add_time := sel_last_add_time s;
     sel_last_erase_time := sel_last_erase_time s;
     sel_flags := sel_flags s; sel_reservation := sel_reservation s;
     sel_next_entry := sel_next_entry s; sel_time_offset := sel_time_offset s |}.

Definition set_sel_last_erase_time (s : sel_t) (v : Z) : sel_t :=
  {| sel_entries := sel_entries s; sel_count := sel_count s;
     sel_max_count := sel_max_count s;
     sel_last_add_time := sel_last_add_time s;
     sel_last_erase_time := v;
     sel_flags := sel_flags s; sel_reservation := sel_reservation s;
     sel_next_entry := sel_next_entry s; sel_time_offset := sel_time_offset s |}.

(** [ipmi_mc_enable_sel].  [time_offset] keeps its value. *)
Definition ipmi_mc_enable_sel (mc : lmc_data_t) (max_entries flags : Z) : lmc_data_t :=
  set_mc_sel mc
    {| sel_entries := Live []; sel_count := 0; sel_max_count := max_entries;
       sel_last_add_time := 0; sel_last_erase_time := 0;
       sel_flags := Z.land flags 0xb; sel_reservation := 0;
       sel_next_entry := 1; sel_time_offset := sel_time_offset (mc_sel mc) |}.

(** What the record id loop of [ipmi_mc_add_to_sel] ends with: the loop is
    left with a record id, or the record id came back to where it started
    (the function returns [EAGAIN]).  Both carry [mc->sel.next_entry]. *)
Inductive sel_alloc_t : Type :=
| Assigned (record_id next_entry : Z)
| Wrapped (next_entry : Z).

(** [[
    while ((mc->sel.next_entry == 0)
	   || find_sel_event_by_recid(mc, e->record_id, NULL))
    {
	e->record_id++;
	if (e->record_id == start_record_id)
	    return EAGAIN;
	mc->sel.next_entry++;
    }
    ]]
    [fuel] bounds the number of times the body runs. *)
Fixpoint sel_alloc_loop (fuel : nat) (l : list sel_entry_t)
    (start_record_id record_id next_entry : Z) {struct fuel} : option sel_alloc_t :=
  if bool_decide (next_entry = 0)
     || bool_decide (is_Some (find_sel_event_by_recid l record_id))
  then
    match fuel with
    | O => None
    | S fuel' =>
        let record_id := u16 (record_id + 1) in
        if bool_decide (record_id = start_record_id) then Some (Wrapped next_entry)
        else sel_alloc_loop fuel' l start_record_id record_id (u16 (next_entry + 1))
    end
  else Some (Assigned record_id next_entry).

(** The body runs at most 65536 times: the record id is back at its start
    by then. *)
Definition sel_alloc_fuel : nat := Z.to_nat 65536.

(** [ipmi_mc_add_to_sel].  [t_stack] is what the automatic variable [t]
    holds in [tv_sec] when the function is entered: the function stamps the
    record from [t] and calls [gettimeofday(&t, NULL)] only after the entry
    is linked in.  [event] is the 13 bytes the caller points at. *)
Definition ipmi_mc_add_to_sel (t_stack now : Z) (mc : lmc_data_t)
    (record_type : Z) (event : list Z) : option (lmc_data_t * errno) :=
  let sel := mc_sel mc in
  if negb (has_bit (mc_device_support mc) IPMI_DEVID_SEL_DEVICE) then Some (mc, ENOTSUP)
  else if bool_decide (sel_count sel >= sel_max_count sel) then Some (mc, EAGAIN)
  else
    l ← nodes (sel_entries sel);
    let record_id := sel_next_entry sel in
    let next_entry := u16 (sel_next_entry sel + 1) in
    a ← sel_alloc_loop sel_alloc_fuel l record_id record_id next_entry;
    match a with
    | Wrapped next_entry => Some (set_mc_sel mc (set_sel_next_entry sel next_entry), EAGAIN)
    | Assigned record_id next_entry =>
        let data := ipmi_set_uint16 (malloc 16) 0 record_id in
        let data := set_byte data 2 record_type in
        let data :=
          if bool_decide (record_type < 0xe0) then
            memcpy (ipmi_set_uint32 data 3 t_stack) 7 event 4 9
          else
            memcpy data 3 event 0 13 in
        let e := {| se_record_id := record_id; se_data := data |} in
        Some (set_mc_sel mc
                {| sel_entries := Live (l ++ [e]);
                   sel_count := sel_count sel + 1;
                   sel_max_count := sel_max_count sel;
                   sel_last_add_time := u32 (now + sel_time_offset sel);
                   sel_last_erase_time := sel_last_erase_time sel;
                   sel_flags := sel_flags sel;
                   sel_reservation := sel_reservation sel;
                   sel_next_entry := next_entry;
                   sel_time_offset := sel_time_offset sel |},
              E_OK)
    end.

(** [handle_get_sel_info]. *)
Definition handle_get_sel_info (mc : lmc_data_t) (msg : ipmi_msg_t) (r : rsp_t)
  : lmc_data_t * rsp_t :=
  if negb (has_bit (mc_device_support mc) IPMI_DEVID_SEL_DEVICE) then
    (mc, handle_invalid_cmd r)
  else
    let sel := mc_sel mc in
    let d := memset (rdata r) 0 0 15 in
    let d := set_byte d 1 0x51 in
    let d := ipmi_set_uint16 d 2 (sel_count sel) in
    let d := ipmi_set_uint16 d 4 ((sel_max_count sel - sel_count sel) * 16) in
    let d := ipmi_set_uint32 d 6 (sel_last_add_time sel) in
    let d := ipmi_set_uint32 d 10 (sel_last_erase_time sel) in
    let d := set_byte d 14 (sel_flags sel) in
    (* Clear the overflow flag. *)
    (set_mc_sel mc (set_sel_flags sel (Z.land (sel_flags sel) 0x7f)),
     {| rdata := d; rdata_len := 15 |}).

(** [handle_reserve_sel]. *)
Definition handle_reserve_sel (mc : lmc_data_t) (msg : ipmi_msg_t) (r : rsp_t)
  : lmc_data_t * rsp_t :=
  if negb (has_bit (mc_device_support mc) IPMI_DEVID_SEL_DEVICE) then
    (mc, handle_invalid_cmd r)
  else if negb (has_bit (sel_flags (mc_sel mc)) IPMI_SEL_SUPPORTS_RESERVE) then
    (mc, handle_invalid_cmd r)
  else
    let res := u16 (sel_reservation (mc_sel mc) + 1) in
    let res := if bool_decide (res = 0) then u16 (res + 1) else res in
    (set_mc_sel mc (set_sel_reservation (mc_sel mc) res),
     {| rdata := ipmi_set_uint16 (set_byte (rdata r) 0 0) 1 res; rdata_len := 3 |}).

(** The reservation check the handlers share:
    [[
	uint16_t reservation = ipmi_get_uint16(msg->data+0);
	if ((reservation != 0) && (reservation != current)) ...
    ]] *)
Definition supplied_reservation (msg : ipmi_msg_t) : Z :=
  u16 (ipmi_get_uint16 (msg_data msg) 0).

Definition bad_reservation (msg : ipmi_msg_t) (current : Z) : bool :=
  let reservation := supplied_reservation msg in
  negb (reservation =? 0) && negb (reservation =? current).

(** [handle_add_sel_entry]. *)
Definition handle_add_sel_entry (t_stack now : Z) (mc : lmc_data_t)
    (msg : ipmi_msg_t) (r : rsp_t) : option (lmc_data_t * rsp_t) :=
  if negb (has_bit (mc_device_support mc) IPMI_DEVID_SEL_DEVICE) then
    Some (mc, handle_invalid_cmd r)
  else if check_msg_length msg 16 then
    Some (mc, rsp_cc IPMI_REQUEST_DATA_LENGTH_INVALID_CC r)
  else
    '(mc, rv) ←
      (if bool_decide (byte_at (msg_data msg) 2 < 0xe0) then
         ipmi_mc_add_to_sel t_stack now mc (byte_at (msg_data msg) 2)
           (drop 6 (msg_data msg))
       else
         ipmi_mc_add_to_sel t_stack now mc (byte_at (msg_data msg) 2)
           (drop 3 (msg_data msg)));
    let cc := match rv with
              | EAGAIN => IPMI_OUT_OF_SPACE_CC
              | E_OK => 0
              | _ => IPMI_UNKNOWN_ERR_CC
              end in
    Some (mc, {| rdata := set_byte (rdata r) 0 cc; rdata_len := 1 |}).

(** The entry a delete (or a get) addresses: 0 is the first entry, 0xffff
    the last one, another value the entry with that record id. *)
Definition sel_locate (l : list sel_entry_t) (record_id : Z)
  : option (nat * sel_entry_t) :=
  if bool_decide (record_id = 0) then
    match l with [] => None | e :: _ => Some (0%nat, e) end
  else if bool_decide (record_id = 0xffff) then
    match last l with None => None | Some e => Some (pred (length l), e) end
  else find_sel_event_by_recid l record_id.

(** [handle_delete_sel_entry].  The entry is unlinked and freed;
    [mc->sel.count] is not written. *)
Definition handle_delete_sel_entry (mc : lmc_data_t) (msg : ipmi_msg_t) (r : rsp_t)
  : option (lmc_data_t * rsp_t) :=
  let sel := mc_sel mc in
  if negb (has_bit (mc_device_support mc) IPMI_DEVID_SEL_DEVICE) then
    Some (mc, handle_invalid_cmd r)
  else if negb (has_bit (sel_flags sel) IPMI_SEL_SUPPORTS_DELETE) then
    Some (mc, handle_invalid_cmd r)
  else if check_msg_length msg 4 then
    Some (mc, rsp_cc IPMI_REQUEST_DATA_LENGTH_INVALID_CC r)
  else if has_bit (sel_flags sel) IPMI_SEL_SUPPORTS_RESERVE
          && bad_reservation msg (sel_reservation sel) then
    Some (mc, rsp_cc IPMI_INVALID_RESERVATION_CC r)
  else
    let record_id := u16 (ipmi_get_uint16 (msg_data msg) 2) in
    l ← nodes (sel_entries sel);
    match sel_locate l record_id with
    | None => Some (mc, rsp_cc IPMI_NOT_PRESENT_CC r)
    | Some (i, entry) =>
        Some (set_mc_sel mc (set_sel_entries sel (Live (delete i l))),
              {| rdata := ipmi_set_uint16 (set_byte (rdata r) 0 0) 1 (se_record_id entry);
                 rdata_len := 3 |})
    end.

(** Freeing every node of a list from its head pointer, which keeps its
    value: a null pointer stays null, another one is left dangling. *)
Definition free_chain {A} (c : chain A) : option (chain A) :=
  l ← nodes c;
  Some (match l with [] => Live [] | _ :: _ => Dangling end).

(** [handle_clear_sel].  With op 0 the entries are freed; [mc->sel.entries]
    and [mc->sel.count] are not written. *)
Definition handle_clear_sel (now : Z) (mc : lmc_data_t) (msg : ipmi_msg_t) (r : rsp_t)
  : option (lmc_data_t * rsp_t) :=
  let sel := mc_sel mc in
  let d := msg_data msg in
  if negb (has_bit (mc_device_support mc) IPMI_DEVID_SEL_DEVICE) then
    Some (mc, handle_invalid_cmd r)
  else if check_msg_length msg 6 then
    Some (mc, rsp_cc IPMI_REQUEST_DATA_LENGTH_INVALID_CC r)
  else if has_bit (sel_flags sel) IPMI_SEL_SUPPORTS_RESERVE
          && bad_reservation msg (sel_reservation sel) then
    Some (mc, rsp_cc IPMI_INVALID_RESERVATION_CC r)
  else if negb (byte_at d 2 =? 67) || negb (byte_at d 3 =? 76)
          || negb (byte_at d 4 =? 82) then
    Some (mc, rsp_cc IPMI_INVALID_DATA_FIELD_CC r)
  else
    let op := byte_at d 5 in
    if negb (op =? 0) && negb (op =? 0xaa) then
      Some (mc, rsp_cc IPMI_INVALID_DATA_FIELD_CC r)
    else
      let rd := set_byte (rdata r) 1 1 in
      entries ← (if op =? 0 then free_chain (sel_entries sel)
                 else Some (sel_entries sel));
      let sel := set_sel_entries sel entries in
      let sel := set_sel_last_erase_time sel (u32 (now + sel_time_offset sel)) in
      Some (set_mc_sel mc sel, {| rdata := set_byte rd 0 0; rdata_len := 2 |}).

(** ** SDR handling commands *)

(** [find_sdr_by_recid]. *)
Definition find_sdr_by_recid (l : list sdr_t) (record_id : Z) : option (nat * sdr_t) :=
  list_find (fun e => sdr_record_id e = record_id) l.

Definition set_sdrs_next_entry (s : sdrs_t) (v : Z) : sdrs_t :=
  {| sdrs_reservation := sdrs_reservation s; sdrs_sdr_count := sdrs_sdr_count s;
     sdrs_sensor_count := sdrs_sensor_count s;
     sdrs_last_add_time := sdrs_last_add_time s;
     sdrs_last_erase_time := sdrs_last_erase_time s;
     sdrs_time_offset := sdrs_time_offset s; sdrs_flags := sdrs_flags s;
     sdrs_next_entry := v; sdrs_sdrs_length := sdrs_sdrs_length s;
     sdrs_sdrs := sdrs_sdrs s |}.

Definition set_sdrs_reservation (s : sdrs_t) (v : Z) : sdrs_t :=
  {| sdrs_reservation := v; sdrs_sdr_count := sdrs_sdr_count s;
     sdrs_sensor_count := sdrs_sensor_count s;
     sdrs_last_add_time := sdrs_last_add_time s;
     sdrs_last_erase_time := sdrs_last_erase_time s;
     sdrs_time_offset := sdrs_time_offset s; sdrs_flags := sdrs_flags s;
     sdrs_next_entry := sdrs_next_entry s; sdrs_sdrs_length := sdrs_sdrs_length s;
     sdrs_sdrs := sdrs_sdrs s |}.

Definition set_sdrs_time_offset (s : sdrs_t) (v : Z) : sdrs_t :=
  {| sdrs_reservation := sdrs_reservation s; sdrs_sdr_count := sdrs_sdr_count s;
     sdrs_sensor_count := sdrs_sensor_count s;
     sdrs_last_add_time := sdrs_last_add_time s;
     sdrs_last_erase_time := sdrs_last_erase_time s;
     sdrs_time_offset := v; sdrs_flags := sdrs_flags s;
     sdrs_next_entry := sdrs_next_entry s; sdrs_sdrs_length := sdrs_sdrs_length s;
     sdrs_sdrs := sdrs_sdrs s |}.

(** [[
    while (find_sdr_by_recid(mc, sdrs, sdrs->next_entry, NULL)) {
	sdrs->next_entry++;
	if (sdrs->next_entry == 0xffff)
	    sdrs->next_entry = 1;
	if (sdrs->next_entry == start_recid)
	    return NULL;
    }
    ]]
    [Assigned id next] is the loop left at [sdrs->next_entry = id], with
    [next] the value after the [sdrs->next_entry++] that follows it. *)
Fixpoint sdr_alloc_loop (fuel : nat) (l : list sdr_t) (start_recid next_entry : Z)
    {struct fuel} : option sel_alloc_t :=
  if bool_decide (is_Some (find_sdr_by_recid l next_entry)) then
    match fuel with
    | O => None
    | S fuel' =>
        let next_entry := u16 (next_entry + 1) in
        let next_entry := if bool_decide (next_entry = 0xffff) then 1 else next_entry in
        if bool_decide (next_entry = start_recid) then Some (Wrapped next_entry)
        else sdr_alloc_loop fuel' l start_recid next_entry
    end
  else Some (Assigned next_entry (u16 (next_entry + 1))).

(** A run of the loop that ends does so within 65536 rounds; with a start
    outside 1..0xfffe and every id of 1..0xfffe in use the C loop never
    ends, and the model gives [None]. *)
Definition sdr_alloc_fuel : nat := Z.to_nat 65536.

(** [new_sdr_entry]: the repository with its [next_entry], and the new
    entry or a null pointer.  [length] is an [unsigned char]. *)
Definition new_sdr_entry (sdrs : sdrs_t) (length : Z) : option (sdrs_t * option sdr_t) :=
  let length := u8 length in
  l ← nodes (sdrs_sdrs sdrs);
  a ← sdr_alloc_loop sdr_alloc_fuel l (sdrs_next_entry sdrs) (sdrs_next_entry sdrs);
  match a with
  | Wrapped next_entry => Some (set_sdrs_next_entry sdrs next_entry, None)
  | Assigned record_id next_entry =>
      Some (set_sdrs_next_entry sdrs next_entry,
            Some {| sdr_record_id := record_id;
                    sdr_length := length + 6;
                    sdr_data := ipmi_set_uint16 (malloc (length + 6)) 0 record_id |})
  end.

(** [add_sdr_entry]: the time offset is the one of [mc->main_sdrs],
    whatever repository [sdrs] is. *)
Definition add_sdr_entry (now : Z) (mc : lmc_data_t) (sdrs : sdrs_t) (entry : sdr_t)
  : option sdrs_t :=
  l ← nodes (sdrs_sdrs sdrs);
  Some {| sdrs_reservation := sdrs_reservation sdrs;
          sdrs_sdr_count := u16 (sdrs_sdr_count sdrs + 1);
          sdrs_sensor_count := sdrs_sensor_count sdrs;
          sdrs_last_add_time := u32 (now + sdrs_time_offset (mc_main_sdrs mc));
          sdrs_last_erase_time := sdrs_last_erase_time sdrs;
          sdrs_time_offset := sdrs_time_offset sdrs;
          sdrs_flags := sdrs_flags sdrs;
          sdrs_next_entry := sdrs_next_entry sdrs;
          sdrs_sdrs_length := sdrs_sdrs_length sdrs;
          sdrs_sdrs := Live (l ++ [entry]) |}.

Definition set_sdr_data (e : sdr_t) (d : list Z) : sdr_t :=
  {| sdr_record_id := sdr_record_id e; sdr_length := sdr_length e; sdr_data := d |}.

(** [ipmi_mc_add_main_sdr].  The bytes are copied into the entry after it
    is linked in; the entry in the list is that same object. *)
Definition ipmi_mc_add_main_sdr (now : Z) (mc : lmc_data_t) (data : list Z) (data_len : Z)
  : option (lmc_data_t * errno) :=
  if negb (has_bit (mc_device_support mc) IPMI_DEVID_SDR_REPOSITORY_DEV) then
    Some (mc, ENOSYS)
  else
    '(sdrs, e) ← new_sdr_entry (mc_main_sdrs mc) data_len;
    let mc := set_mc_main_sdrs mc sdrs in
    match e with
    | None => Some (mc, ENOMEM)
    | Some entry =>
        let entry := set_sdr_data entry (memcpy (sdr_data entry) 2 data 2 (data_len - 2)) in
        sdrs ← add_sdr_entry now mc sdrs entry;
        Some (set_mc_main_sdrs mc sdrs, E_OK)
    end.

(** [handle_reserve_sdr_repository]. *)
Definition handle_reserve_sdr_repository (mc : lmc_data_t) (msg : ipmi_msg_t) (r : rsp_t)
  : lmc_data_t * rsp_t :=
  if negb (has_bit (mc_device_support mc) IPMI_DEVID_SDR_REPOSITORY_DEV) then
    (mc, handle_invalid_cmd r)
  else if negb (has_bit (sdrs_flags (mc_main_sdrs mc)) IPMI_SDR_RESERVE_SDR_SUPPORTED) then
    (mc, handle_invalid_cmd r)
  else
    let res := u16 (sdrs_reservation (mc_main_sdrs mc) + 1) in
    let res := if bool_decide (res = 0) then u16 (res + 1) else res in
    (* If adding an SDR and the reservation changes, we have to
       destroy the working SDR addition. *)
    (set_mc_part_add_sdr
       (set_mc_main_sdrs mc (set_sdrs_reservation (mc_main_sdrs mc) res)) None,
     {| rdata := ipmi_set_uint16 (set_byte (rdata r) 0 0) 1 res; rdata_len := 3 |}).

(** The modal check of the two add handlers. *)
Definition modal_refused (mc : lmc_data_t) : bool :=
  (IPMI_SDR_GET_MODAL (sdrs_flags (mc_main_sdrs mc)) =? IPMI_SDR_NON_MODAL_ONLY)
  && (mc_in_update_mode mc =? 0).

(** [handle_add_sdr]. *)
Definition handle_add_sdr (now : Z) (mc : lmc_data_t) (msg : ipmi_msg_t) (r : rsp_t)
  : option (lmc_data_t * rsp_t) :=
  let d := msg_data msg in
  if negb (has_bit (mc_device_support mc) IPMI_DEVID_SDR_REPOSITORY_DEV) then
    Some (mc, handle_invalid_cmd r)
  else if modal_refused mc then
    Some (mc, rsp_cc IPMI_NOT_SUPPORTED_IN_PRESENT_STATE_CC r)
  else if check_msg_length msg 6 then
    Some (mc, rsp_cc IPMI_REQUEST_DATA_LENGTH_INVALID_CC r)
  else if negb (msg_data_len msg =? byte_at d 5 + 6) then
    Some (mc, rsp_cc 0x80 r) (* Length is invalid. *)
  else
    '(sdrs, e) ← new_sdr_entry (mc_main_sdrs mc) (byte_at d 5);
    let mc := set_mc_main_sdrs mc sdrs in
    match e with
    | None => Some (mc, rsp_cc IPMI_OUT_OF_SPACE_CC r)
    | Some entry =>
        let entry := set_sdr_data entry
                       (memcpy (sdr_data entry) 2 d 2 (sdr_length entry - 2)) in
        sdrs ← add_sdr_entry now mc sdrs entry;
        Some (set_mc_main_sdrs mc sdrs,
              {| rdata := ipmi_set_uint16 (set_byte (rdata r) 0 0) 1 (sdr_record_id entry);
                 rdata_len := 3 |})
    end.

(** The end of [handle_partial_add_sdr], from
    [if ((msg->data[5] & 0xf) == 1)] on. *)
Definition partial_add_end (now : Z) (mc : lmc_data_t) (msg : ipmi_msg_t) (r : rsp_t)
  : option (lmc_data_t * rsp_t) :=
  if Z.land (byte_at (msg_data msg) 5) 0xf =? 1 then
    (* End of the operation. *)
    p ← mc_part_add_sdr mc;
    if negb (u32 (mc_part_add_next mc) =? sdr_length p) then
      Some (set_mc_part_add_sdr mc None, rsp_cc 0x80 r) (* Invalid data length *)
    else
      sdrs ← add_sdr_entry now mc (mc_main_sdrs mc) p;
      Some (set_mc_part_add_sdr (set_mc_main_sdrs mc sdrs) None, rsp_cc 0 r)
  else Some (mc, rsp_cc 0 r).

(** [handle_partial_add_sdr].  The record id that selects between a new
    add and a continuation is read from [rdata + 2], the response buffer. *)
Definition handle_partial_add_sdr (now : Z) (mc : lmc_data_t) (msg : ipmi_msg_t) (r : rsp_t)
  : option (lmc_data_t * rsp_t) :=
  let d := msg_data msg in
  let sdrs := mc_main_sdrs mc in
  if negb (has_bit (mc_device_support mc) IPMI_DEVID_SDR_REPOSITORY_DEV) then
    Some (mc, handle_invalid_cmd r)
  else if negb (has_bit (sdrs_flags sdrs) IPMI_SDR_PARTIAL_ADD_SDR_SUPPORTED) then
    Some (mc, handle_invalid_cmd r)
  else if has_bit (sdrs_flags sdrs) IPMI_SDR_RESERVE_SDR_SUPPORTED
          && bad_reservation msg (sdrs_reservation sdrs) then
    Some (mc, rsp_cc IPMI_INVALID_RESERVATION_CC r)
  else if modal_refused mc then
    Some (mc, rsp_cc IPMI_NOT_SUPPORTED_IN_PRESENT_STATE_CC r)
  else
    let offset := byte_at d 4 in
    let record_id := u16 (ipmi_get_uint16 (rdata r) 2) in
    if record_id =? 0 then
      (* New add. *)
      if check_msg_length msg 12 then
        Some (mc, rsp_cc IPMI_REQUEST_DATA_LENGTH_INVALID_CC r)
      else if negb (offset =? 0) then
        Some (mc, rsp_cc IPMI_INVALID_DATA_FIELD_CC r)
      else if bool_decide (msg_data_len msg > byte_at d 11 + 12) then
        Some (mc, rsp_cc 0x80 r) (* Invalid data length *)
      else if bool_decide (is_Some (mc_part_add_sdr mc)) then
        (* Still working on a previous one, return an error and abort. *)
        Some (set_mc_part_add_sdr mc None, rsp_cc IPMI_UNKNOWN_ERR_CC r)
      else
        '(sdrs, e) ← new_sdr_entry sdrs (byte_at d 11);
        entry ← e;
        let entry := set_sdr_data entry
                       (memcpy (sdr_data entry) 2 d 8 (msg_data_len msg - 8)) in
        let mc := set_mc_part_add_sdr (set_mc_main_sdrs mc sdrs) (Some entry) in
        let mc := set_mc_part_add_next mc (msg_data_len msg - 8) in
        partial_add_end now mc msg r
    else
      if mc_part_add_next mc =? 0 then
        Some (mc, rsp_cc IPMI_UNKNOWN_ERR_CC r)
      else
        p ← mc_part_add_sdr mc;
        if negb (offset =? mc_part_add_next mc) then
          Some (set_mc_part_add_sdr mc None, rsp_cc IPMI_INVALID_DATA_FIELD_CC r)
        else if bool_decide (u32 (offset + msg_data_len msg - 6) > sdr_length p) then
          Some (set_mc_part_add_sdr mc None, rsp_cc 0x80 r) (* Invalid data length *)
        else if bool_decide (msg_data_len msg - 6 < 0) then
          None (* memcpy with a negative length *)
        else
          let p := set_sdr_data p (memcpy (sdr_data p) offset d 6 (msg_data_len msg - 6)) in
          let mc := set_mc_part_add_sdr mc (Some p) in
          let mc := set_mc_part_add_next mc (mc_part_add_next mc + (msg_data_len msg - 6)) in
          partial_add_end now mc msg r.

(** The SDR a delete addresses, as [sel_locate]. *)
Definition sdr_locate (l : list sdr_t) (record_id : Z) : option (nat * sdr_t) :=
  if bool_decide (record_id = 0) then
    match l with [] => None | e :: _ => Some (0%nat, e) end
  else if bool_decide (record_id = 0xffff) then
    match last l with None => None | Some e => Some (pred (length l), e) end
  else find_sdr_by_recid l record_id.

(** [handle_delete_sdr].  The record id is read from [rdata + 2]. *)
Definition handle_delete_sdr (now : Z) (mc : lmc_data_t) (msg : ipmi_msg_t) (r : rsp_t)
  : option (lmc_data_t * rsp_t) :=
  let sdrs := mc_main_sdrs mc in
  if negb (has_bit (mc_device_support mc) IPMI_DEVID_SDR_REPOSITORY_DEV) then
    Some (mc, handle_invalid_cmd r)
  else if check_msg_length msg 4 then
    Some (mc, rsp_cc IPMI_REQUEST_DATA_LENGTH_INVALID_CC r)
  else if has_bit (sdrs_flags sdrs) IPMI_SDR_RESERVE_SDR_SUPPORTED
          && bad_reservation msg (sdrs_reservation sdrs) then
    Some (mc, rsp_cc IPMI_INVALID_RESERVATION_CC r)
  else
    let record_id := u16 (ipmi_get_uint16 (rdata r) 2) in
    l ← nodes (sdrs_sdrs sdrs);
    match sdr_locate l record_id with
    | None => Some (mc, rsp_cc IPMI_NOT_PRESENT_CC r)
    | Some (i, entry) =>
        Some (set_mc_main_sdrs mc
                {| sdrs_reservation := sdrs_reservation sdrs;
                   sdrs_sdr_count := u16 (sdrs_sdr_count sdrs - 1);
                   sdrs_sensor_count := sdrs_sensor_count sdrs;
                   sdrs_last_add_time := sdrs_last_add_time sdrs;
                   sdrs_last_erase_time := u32 (now + sdrs_time_offset sdrs);
                   sdrs_time_offset := sdrs_time_offset sdrs;
                   sdrs_flags := sdrs_flags sdrs;
                   sdrs_next_entry := sdrs_next_entry sdrs;
                   sdrs_sdrs_length := sdrs_sdrs_length sdrs;
                   sdrs_sdrs := Live (delete i l) |},
              {| rdata := ipmi_set_uint16 (set_byte (rdata r) 0 0) 1 (sdr_record_id entry);
                 rdata_len := 3 |})
    end.

(** [handle_clear_sdr_repository].  As for the SEL, the freed list keeps
    its head pointer and [sdr_count]. *)
Definition handle_clear_sdr_repository (now : Z) (mc : lmc_data_t) (msg : ipmi_msg_t)
    (r : rsp_t) : option (lmc_data_t * rsp_t) :=
  let sdrs := mc_main_sdrs mc in
  let d := msg_data msg in
  if negb (has_bit (mc_device_support mc) IPMI_DEVID_SDR_REPOSITORY_DEV) then
    Some (mc, handle_invalid_cmd r)
  else if check_msg_length msg 6 then
    Some (mc, rsp_cc IPMI_REQUEST_DATA_LENGTH_INVALID_CC r)
  else if has_bit (sdrs_flags sdrs) IPMI_SDR_RESERVE_SDR_SUPPORTED
          && bad_reservation msg (sdrs_reservation sdrs) then
    Some (mc, rsp_cc IPMI_INVALID_RESERVATION_CC r)
  else if negb (byte_at d 2 =? 67) || negb (byte_at d 3 =? 76)
          || negb (byte_at d 4 =? 82) then
    Some (mc, rsp_cc IPMI_INVALID_DATA_FIELD_CC r)
  else
    let op := byte_at d 5 in
    if negb (op =? 0) && negb (op =? 0xaa) then
      Some (mc, rsp_cc IPMI_INVALID_DATA_FIELD_CC r)
    else
      let rd := set_byte (rdata r) 1 1 in
      entries ← (if op =? 0 then free_chain (sdrs_sdrs sdrs)
                 else Some (sdrs_sdrs sdrs));
      Some (set_mc_main_sdrs mc
              {| sdrs_reservation := sdrs_reservation sdrs;
                 sdrs_sdr_count := sdrs_sdr_count sdrs;
                 sdrs_sensor_count := sdrs_sensor_count sdrs;
                 sdrs_last_add_time := sdrs_last_add_time sdrs;
                 sdrs_last_erase_time := u32 (now + sdrs_time_offset sdrs);
                 sdrs_time_offset := sdrs_time_offset sdrs;
                 sdrs_flags := sdrs_flags sdrs;
                 sdrs_next_entry := sdrs_next_entry sdrs;
                 sdrs_sdrs_length := sdrs_sdrs_length sdrs;
                 sdrs_sdrs := entries |},
            {| rdata := set_byte rd 0 0; rdata_len := 2 |}).

(** ** Sensors *)

Definition set_s_value (s : sensor_t) (v : Z) : sensor_t :=
  {| s_num := s_num s; s_lun := s_lun s;
     s_scanning_enabled := s_scanning_enabled s;
     s_events_enabled := s_events_enabled s;
     s_sensor_type := s_sensor_type s;
     s_event_reading_code := s_event_reading_code s;
     s_value := v;
     s_hysteresis_support := s_hysteresis_support s;
     s_positive_hysteresis := s_positive_hysteresis s;
     s_negative_hysteresis := s_negative_hysteresis s;
     s_threshold_support := s_threshold_support s;
     s_threshold_supported := s_threshold_supported s;
     s_thresholds := s_thresholds s;
     s_event_support := s_event_support s;
     s_event_supported := s_event_supported s;
     s_event_enabled := s_event_enabled s;
     s_event_status := s_event_status s |}.

Definition set_s_event_status (s : sensor_t) (st : list Z) : sensor_t :=
  {| s_num := s_num s; s_lun := s_lun s;
     s_scanning_enabled := s_scanning_enabled s;
     s_events_enabled := s_events_enabled s;
     s_sensor_type := s_sensor_type s;
     s_event_reading_code := s_event_reading_code s;
     s_value := s_value s;
     s_hysteresis_support := s_hysteresis_support s;
     s_positive_hysteresis := s_positive_hysteresis s;
     s_negative_hysteresis := s_negative_hysteresis s;
     s_threshold_support := s_threshold_support s;
     s_threshold_supported := s_threshold_supported s;
     s_thresholds := s_thresholds s;
     s_event_support := s_event_support s;
     s_event_supported := s_event_supported s;
     s_event_enabled := s_event_enabled s;
     s_event_status := st |}.

Definition set_s_enables (s : sensor_t) (events scanning : Z)
    (enabled : list Z * list Z) : sensor_t :=
  {| s_num := s_num s; s_lun := s_lun s;
     s_scanning_enabled := scanning;
     s_events_enabled := events;
     s_sensor_type := s_sensor_type s;
     s_event_reading_code := s_event_reading_code s;
     s_value := s_value s;
     s_hysteresis_support := s_hysteresis_support s;
     s_positive_hysteresis := s_positive_hysteresis s;
     s_negative_hysteresis := s_negative_hysteresis s;
     s_threshold_support := s_threshold_support s;
     s_threshold_supported := s_threshold_supported s;
     s_thresholds := s_thresholds s;
     s_event_support := s_event_support s;
     s_event_supported := s_event_supported s;
     s_event_enabled := enabled;
     s_event_status := s_event_status s |}.

(** A call of [do_event] that [check_thresholds] or [set_bit] makes: the
    direction and the three data bytes.  The functions below return the
    calls in the order the C code makes them; [do_event] reads no field of
    the sensor that they write. *)
Record event_t := mk_event {
  ev_direction : Z;
  ev_byte1 : Z;
  ev_byte2 : Z;
  ev_byte3 : Z
}.

(** The first two loops of [check_thresholds], one round each:
    [acc] is [(bits_to_set, bits_to_clear)]. *)
Definition lower_bits (s : sensor_t) (acc : Z * Z) (i : Z) : Z * Z :=
  if negb (byte_at (s_threshold_supported s) i =? 0) then
    if bool_decide (s_value s <= byte_at (s_thresholds s) i) then
      (Z.lor (fst acc) (Z.shiftl 1 i), snd acc)
    else if bool_decide (s_value s - s_negative_hysteresis s > byte_at (s_thresholds s) i) then
      (fst acc, Z.lor (snd acc) (Z.shiftl 1 i))
    else acc
  else acc.

Definition upper_bits (s : sensor_t) (acc : Z * Z) (i : Z) : Z * Z :=
  if negb (byte_at (s_threshold_supported s) i =? 0) then
    if bool_decide (s_value s >= byte_at (s_thresholds s) i) then
      (Z.lor (fst acc) (Z.shiftl 1 i), snd acc)
    else if bool_decide (s_value s + s_positive_hysteresis s < byte_at (s_thresholds s) i) then
      (fst acc, Z.lor (snd acc) (Z.shiftl 1 i))
    else acc
  else acc.

(** The last two loops, one round each.  [e] is the column of
    [event_enabled] and the low bits of the event offset: [i*2] for a lower
    threshold, [i*2+1] for an upper one. *)
Definition threshold_round (bits : Z * Z) (e : Z -> Z)
    (st : sensor_t * list event_t) (i : Z) : sensor_t * list event_t :=
  let s := fst st in
  if negb (Z.land (Z.shiftr (fst bits) i) 1 =? 0)
     && (byte_at (s_event_status s) i =? 0) then
    (* This bit was not set, but we need to set it. *)
    (set_s_event_status s (set_byte (s_event_status s) i 1),
     if negb (byte_at (fst (s_event_enabled s)) (e i) =? 0) then
       snd st ++ [mk_event IPMI_ASSERTION (Z.lor 0x50 (e i)) (s_value s)
                    (byte_at (s_thresholds s) i)]
     else snd st)
  else if negb (Z.land (Z.shiftr (snd bits) i) 1 =? 0)
          && negb (byte_at (s_event_status s) i =? 0) then
    (* This bit was not clear, but we need to clear it. *)
    (set_s_event_status s (set_byte (s_event_status s) i 0),
     if negb (byte_at (snd (s_event_enabled s)) (e i) =? 0) then
       snd st ++ [mk_event IPMI_DEASSERTION (Z.lor 0x50 (e i)) (s_value s)
                    (byte_at (s_thresholds s) i)]
     else snd st)
  else st.

(** [check_thresholds]: the sensor afterwards and the [do_event] calls. *)
Definition check_thresholds (s : sensor_t) : sensor_t * list event_t :=
  let bits := foldl (lower_bits s) (0, 0) [0; 1; 2] in
  let bits := foldl (upper_bits s) bits [3; 4; 5] in
  (* We don't support lower assertions for high thresholds or higher
     assertions for low thresholds because that's just stupid. *)
  let st := foldl (threshold_round bits (fun i => i * 2)) (s, []) [0; 1; 2] in
  foldl (threshold_round bits (fun i => i * 2 + 1)) st [3; 4; 5].

(** What [ipmi_mc_sensor_set_value] does to the sensor it found:
    [sensor->value = value; check_thresholds(mc, sensor, gen_event);] *)
Definition sensor_set_value (s : sensor_t) (value : Z) : sensor_t * list event_t :=
  check_thresholds (set_s_value s value).

(** [set_bit], on the sensor. *)
Definition set_bit (s : sensor_t) (bit value : Z) : sensor_t * list event_t :=
  if negb (value =? byte_at (s_event_status s) bit) then
    (* The bit value has changed. *)
    (set_s_event_status s (set_byte (s_event_status s) bit value),
     if negb (value =? 0) && negb (byte_at (fst (s_event_enabled s)) bit =? 0) then
       [mk_event IPMI_ASSERTION (Z.lor 0 bit) 0 0]
     else if (value =? 0) && negb (byte_at (snd (s_event_enabled s)) bit =? 0) then
       [mk_event IPMI_DEASSERTION (Z.lor 0 bit) 0 0]
     else [])
  else (s, []).

(** ** The emulator *)

Definition set_emu_ipmb (emu : emu_data_t) (m : gmap Z lmc_data_t) : emu_data_t :=
  {| emu_bmc_mc := emu_bmc_mc emu; emu_ipmb := m |}.

(** [ipmi_emu_alloc]. *)
Definition ipmi_emu_alloc : emu_data_t := {| emu_bmc_mc := 0; emu_ipmb := ∅ |}.

(** [ipmi_emu_get_mc_by_addr]: the slot of the MC, or the error. *)
Definition ipmi_emu_get_mc_by_addr (emu : emu_data_t) (ipmb : Z) : Z + errno :=
  if negb (Z.land ipmb 1 =? 0) then inr EINVAL
  else if bool_decide (emu_ipmb emu !! Z.shiftr ipmb 1 = None) then inr ENOSYS
  else inl (Z.shiftr ipmb 1).

(** [ipmi_emu_set_bmc_mc]. *)
Definition ipmi_emu_set_bmc_mc (emu : emu_data_t) (ipmb : Z) : emu_data_t * errno :=
  if negb (Z.land ipmb 1 =? 0) then (emu, EINVAL)
  else ({| emu_bmc_mc := ipmb; emu_ipmb := emu_ipmb emu |}, E_OK).

(** A repository after the [memset] to 0 of [ipmi_emu_add_mc], with its time offset. *)
Definition zero_sdrs (time_offset : Z) : sdrs_t :=
  {| sdrs_reservation := 0; sdrs_sdr_count := 0; sdrs_sensor_count := 0;
     sdrs_last_add_time := 0; sdrs_last_erase_time := 0;
     sdrs_time_offset := time_offset; sdrs_flags := 0; sdrs_next_entry := 0;
     sdrs_sdrs_length := 0; sdrs_sdrs := Live [] |}.

(** The MC that [ipmi_emu_add_mc] allocates, zeroes and fills in. *)
Definition new_mc (now : Z)
    (ipmb device_id has_device_sdrs device_revision major_fw_rev minor_fw_rev
     device_support : Z) (mfg_id product_id : list Z)
    (dynamic_sensor_population : Z) : lmc_data_t :=
  {| mc_ipmb := ipmb; mc_device_id := device_id;
     mc_has_device_sdrs := has_device_sdrs;
     mc_device_revision := device_revision;
     mc_major_fw_rev := major_fw_rev; mc_minor_fw_rev := minor_fw_rev;
     mc_device_support := device_support;
     mc_mfg_id := read_bytes mfg_id 0 3; mc_product_id := read_bytes product_id 0 2;
     (* Start the time at zero. *)
     mc_sel := {| sel_entries := Live []; sel_count := 0; sel_max_count := 0;
                  sel_last_add_time := 0; sel_last_erase_time := 0;
                  sel_flags := 0; sel_reservation := 0; sel_next_entry := 0;
                  sel_time_offset := now |};
     mc_main_sdrs := zero_sdrs now;
     mc_part_add_sdr := None; mc_part_add_next := 0; mc_in_update_mode := 0;
     mc_event_receiver := 0x20; mc_event_receiver_lun := 0;
     mc_device_sdrs := replicate 4 (zero_sdrs now);
     mc_dynamic_sensor_population := Z.land dynamic_sensor_population 1;
     mc_sensors := ∅; mc_power_value := 0 |}.

(** [ipmi_emu_add_mc].  An MC that was in the slot is destroyed. *)
Definition ipmi_emu_add_mc (now : Z) (emu : emu_data_t)
    (ipmb device_id has_device_sdrs device_revision major_fw_rev minor_fw_rev
     device_support : Z) (mfg_id product_id : list Z)
    (dynamic_sensor_population : Z) : emu_data_t * errno :=
  if negb (Z.land ipmb 1 =? 0) then (emu, EINVAL)
  else
    let mc := new_mc now ipmb device_id has_device_sdrs device_revision
                major_fw_rev minor_fw_rev device_support mfg_id product_id
                dynamic_sensor_population in
    (set_emu_ipmb emu (<[Z.shiftr ipmb 1 := mc]> (emu_ipmb emu)), E_OK).

(** [ipmi_mc_add_sensor]: the sensor is zeroed but for the four fields. *)
Definition ipmi_mc_add_sensor (mc : lmc_data_t) (lun sens_num type event_reading_code : Z)
  : lmc_data_t * errno :=
  if bool_decide (lun >= 4) || bool_decide (sens_num >= 255)
     || bool_decide (is_Some (mc_sensors mc !! (lun, sens_num))) then (mc, EINVAL)
  else
    let sensor :=
      {| s_num := sens_num; s_lun := lun; s_scanning_enabled := 0;
         s_events_enabled := 0; s_sensor_type := type;
         s_event_reading_code := event_reading_code; s_value := 0;
         s_hysteresis_support := 0; s_positive_hysteresis := 0;
         s_negative_hysteresis := 0; s_threshold_support := 0;
         s_threshold_supported := replicate 6 0; s_thresholds := replicate 6 0;
         s_event_support := 0;
         s_event_supported := (replicate 15 0, replicate 15 0);
         s_event_enabled := (replicate 15 0, replicate 15 0);
         s_event_status := replicate 15 0 |} in
    (set_mc_sensors mc (<[(lun, sens_num) := sensor]> (mc_sensors mc)), E_OK).

(** [do_event], for the MC in slot [k] and one of its sensors.  The event
    goes into the SEL of the MC that [event_receiver] names, which may be
    the MC of the sensor. *)
Definition do_event (t_stack now : Z) (gen_event : Z) (k : Z) (sensor : sensor_t)
    (emu : emu_data_t) (ev : event_t) : option emu_data_t :=
  mc ← emu_ipmb emu !! k;
  if (mc_event_receiver mc =? 0) || (s_events_enabled sensor =? 0) || (gen_event =? 0)
  then Some emu
  else
    match ipmi_emu_get_mc_by_addr emu (mc_event_receiver mc) with
    | inr _ => Some emu
    | inl dest =>
        dest_mc ← emu_ipmb emu !! dest;
        (* Timestamp is ignored. *)
        let data :=
          [0; 0; 0; 0; mc_ipmb mc; s_lun sensor;
           0x04 (* Event message revision for IPMI 1.5. *);
           s_sensor_type sensor; s_num sensor;
           u8 (Z.lor (Z.shiftl (ev_direction ev) 7) (s_event_reading_code sensor));
           ev_byte1 ev; ev_byte2 ev; ev_byte3 ev] in
        '(dest_mc, _) ← ipmi_mc_add_to_sel t_stack now dest_mc 0x02 data;
        Some (set_emu_ipmb emu (<[dest := dest_mc]> (emu_ipmb emu)))
    end.

(** The [do_event] calls of one run, in order.  Each call of
    [ipmi_mc_add_to_sel] has its own uninitialised [t]: [t_stack i] is what
    the call for event [i] of the run finds in it, which may be what an
    earlier call left there. *)
Fixpoint do_events (t_stack : nat → Z) (now : Z) (gen_event : Z) (k : Z)
    (sensor : sensor_t) (emu : emu_data_t) (evs : list event_t) : option emu_data_t :=
  match evs with
  | [] => Some emu
  | ev :: evs =>
      emu ← do_event (t_stack 0%nat) now gen_event k sensor emu ev;
      do_events (λ i, t_stack (S i)) now gen_event k sensor emu evs
  end.

(** [ipmi_mc_sensor_set_value], for the MC in slot [k]. *)
Definition ipmi_mc_sensor_set_value (t_stack : nat → Z) (now : Z) (emu : emu_data_t) (k : Z)
    (lun sens_num value gen_event : Z) : option (emu_data_t * errno) :=
  mc ← emu_ipmb emu !! k;
  if bool_decide (lun >= 4) || bool_decide (sens_num >= 255) then Some (emu, EINVAL)
  else
    match mc_sensors mc !! (lun, sens_num) with
    | None => Some (emu, EINVAL)
    | Some sensor =>
        let '(sensor, evs) := sensor_set_value sensor value in
        let mc := set_mc_sensors mc (<[(lun, sens_num) := sensor]> (mc_sensors mc)) in
        let emu := set_emu_ipmb emu (<[k := mc]> (emu_ipmb emu)) in
        emu ← do_events t_stack now gen_event k sensor emu evs;
        Some (emu, E_OK)
    end.

(** [ipmi_mc_sensor_set_bit], for the MC in slot [k]. *)
Definition ipmi_mc_sensor_set_bit (t_stack : nat → Z) (now : Z) (emu : emu_data_t) (k : Z)
    (lun sens_num bit value gen_event : Z) : option (emu_data_t * errno) :=
  mc ← emu_ipmb emu !! k;
  if bool_decide (lun >= 4) || bool_decide (sens_num >= 255) then Some (emu, EINVAL)
  else
    match mc_sensors mc !! (lun, sens_num) with
    | None => Some (emu, EINVAL)
    | Some sensor =>
        if bool_decide (bit >= 15) then Some (emu, EINVAL)
        else
          let '(sensor, evs) := set_bit sensor bit value in
          let mc := set_mc_sensors mc (<[(lun, sens_num) := sensor]> (mc_sensors mc)) in
          let emu := set_emu_ipmb emu (<[k := mc]> (emu_ipmb emu)) in
          emu ← do_events t_stack now gen_event k sensor emu evs;
          Some (emu, E_OK)
    end.

(** ** Set Sensor Event Enable *)

Section SensorEventEnable.

(** The event support codes are those of OpenIPMI/ipmi_bits.h, a header
    that is not part of the sources: the handler is stated for any four
    distinct values. *)
Variables IPMI_EVENT_SUPPORT_PER_STATE IPMI_EVENT_SUPPORT_ENTIRE_SENSOR
          IPMI_EVENT_SUPPORT_GLOBAL_ENABLE IPMI_EVENT_SUPPORT_NONE : Z.

(** The inner loop [for (j=0; j<8; j++, e++)] for the request byte [b],
    with [e] starting at [e0].  A row has the elements 0 to 14: storing
    into element 15 is outside the array. *)
Definition enable_bits (op b e0 : Z) (row : list Z) : option (list Z) :=
  foldl (fun o j =>
           row ← o;
           if negb (Z.land (Z.shiftr b j) 1 =? 0) then
             if bool_decide (e0 + j >= 15) then None
             else Some (set_byte row (e0 + j) op)
           else Some row)
        (Some row) (seqZ 0 8).

(** The outer loop over the request bytes [i] and [i + 1], which stops
    at the end of the message. *)
Definition enable_row (op : Z) (msg : ipmi_msg_t) (i : Z) (row : list Z)
  : option (list Z) :=
  if bool_decide (msg_data_len msg <= i) then Some row
  else
    row ← enable_bits op (byte_at (msg_data msg) i) 0 row;
    if bool_decide (msg_data_len msg <= i + 1) then Some row
    else enable_bits op (byte_at (msg_data msg) (i + 1)) 8 row.

(** [handle_set_sensor_event_enable]. *)
Definition handle_set_sensor_event_enable (mc : lmc_data_t) (lun : Z)
    (msg : ipmi_msg_t) (r : rsp_t) : option (lmc_data_t * rsp_t) :=
  let d := msg_data msg in
  if check_msg_length msg 2 then
    Some (mc, rsp_cc IPMI_REQUEST_DATA_LENGTH_INVALID_CC r)
  else
    let sens_num := byte_at d 0 in
    match (if bool_decide (sens_num >= 255) then None
           else mc_sensors mc !! (lun, sens_num)) with
    | None => Some (mc, rsp_cc IPMI_INVALID_DATA_FIELD_CC r)
    | Some sensor =>
        if (s_event_support sensor =? IPMI_EVENT_SUPPORT_NONE)
           || (s_event_support sensor =? IPMI_EVENT_SUPPORT_GLOBAL_ENABLE) then
          Some (mc, rsp_cc IPMI_INVALID_CMD_CC r)
        else
          let op := Z.land (Z.shiftr (byte_at d 1) 4) 0x3 in
          if (s_event_support sensor =? IPMI_EVENT_SUPPORT_ENTIRE_SENSOR)
             && negb (op =? 0) then
            Some (mc, rsp_cc IPMI_INVALID_DATA_FIELD_CC r)
          else if op =? 3 then
            Some (mc, rsp_cc IPMI_INVALID_DATA_FIELD_CC r)
          else
            let events := Z.land (Z.shiftr (byte_at d 1) 7) 1 in
            let scanning := Z.land (Z.shiftr (byte_at d 1) 6) 1 in
            let store s :=
              set_mc_sensors mc (<[(lun, sens_num) := s]> (mc_sensors mc)) in
            if op =? 0 then
              Some (store (set_s_enables sensor events scanning (s_event_enabled sensor)),
                    r)
            else
              (* 1: Enable selected events, otherwise: Disable selected events *)
              let op := if op =? 1 then 1 else 0 in
              row0 ← enable_row op msg 2 (fst (s_event_enabled sensor));
              row1 ← enable_row op msg 4 (snd (s_event_enabled sensor));
              Some (store (set_s_enables sensor events scanning (row0, row1)),
                    rsp_cc 0 r)
    end.

End SensorEventEnable.

(** ** The reservation-protected mutations *)

(** The five handlers that change a repository and check a reservation. *)
Inductive mutation : Type :=
| SEL_DELETE | SEL_CLEAR | SDR_DELETE | SDR_CLEAR | SDR_PARTIAL_ADD.

Definition run_mutation (op : mutation) (now : Z) (mc : lmc_data_t)
    (msg : ipmi_msg_t) (r : rsp_t) : option (lmc_data_t * rsp_t) :=
  match op with
  | SEL_DELETE => handle_delete_sel_entry mc msg r
  | SEL_CLEAR => handle_clear_sel now mc msg r
  | SDR_DELETE => handle_delete_sdr now mc msg r
  | SDR_CLEAR => handle_clear_sdr_repository now mc msg r
  | SDR_PARTIAL_ADD => handle_partial_add_sdr now mc msg r
  end.

(** The repository of the mutation supports reservations. *)
Definition reserve_supported (op : mutation) (mc : lmc_data_t) : bool :=
  match op with
  | SEL_DELETE | SEL_CLEAR =>
      has_bit (sel_flags (mc_sel mc)) IPMI_SEL_SUPPORTS_RESERVE
  | SDR_DELETE | SDR_CLEAR | SDR_PARTIAL_ADD =>
      has_bit (sdrs_flags (mc_main_sdrs mc)) IPMI_SDR_RESERVE_SDR_SUPPORTED
  end.

Definition current_reservation (op : mutation) (mc : lmc_data_t) : Z :=
  match op with
  | SEL_DELETE | SEL_CLEAR => sel_reservation (mc_sel mc)
  | SDR_DELETE | SDR_CLEAR | SDR_PARTIAL_ADD => sdrs_reservation (mc_main_sdrs mc)
  end.

(** The checks a handler makes before it looks at the reservation: the
    device support bit, the capability bit of the command where there is
    one, and the least length of the request. *)
Definition earlier_checks_pass (op : mutation) (mc : lmc_data_t) (msg : ipmi_msg_t)
  : bool :=
  match op with
  | SEL_DELETE =>
      has_bit (mc_device_support mc) IPMI_DEVID_SEL_DEVICE
      && has_bit (sel_flags (mc_sel mc)) IPMI_SEL_SUPPORTS_DELETE
      && negb (check_msg_length msg 4)
  | SEL_CLEAR =>
      has_bit (mc_device_support mc) IPMI_DEVID_SEL_DEVICE
      && negb (check_msg_length msg 6)
  | SDR_DELETE =>
      has_bit (mc_device_support mc) IPMI_DEVID_SDR_REPOSITORY_DEV
      && negb (check_msg_length msg 4)
  | SDR_CLEAR =>
      has_bit (mc_device_support mc) IPMI_DEVID_SDR_REPOSITORY_DEV
      && negb (check_msg_length msg 6)
  | SDR_PARTIAL_ADD =>
      has_bit (mc_device_support mc) IPMI_DEVID_SDR_REPOSITORY_DEV
      && has_bit (sdrs_flags (mc_main_sdrs mc)) IPMI_SDR_PARTIAL_ADD_SDR_SUPPORTED
  end.

(** ** Scenarios *)

(** The MC of the Get Device ID scenario, created at time 1000: every
    device support bit but the bridge. *)
Definition bmc : lmc_data_t :=
  new_mc 1000 0x20 0x20 1 1 2 0 0xBF [0x12; 0x34; 0x56] [0x78; 0x9A] 0.

(** Its SEL enabled for 16 entries, with delete, reserve and allocation
    info, and with reserve and allocation info only. *)
Definition bmc_sel : lmc_data_t := ipmi_mc_enable_sel bmc 16 0xb.
Definition bmc_sel_no_delete : lmc_data_t := ipmi_mc_enable_sel bmc 16 0x3.

(** A response buffer of 40 bytes whose bytes 2 and 3 hold [id]. *)
Definition rbuf (id : Z) : rsp_t :=
  {| rdata := ipmi_set_uint16 (replicate 40 0xEE) 2 id; rdata_len := 40 |}.

(** Add SEL Entry with a system event record (type 0x02) of 19 bytes, so
    that the bytes 10 to 18 the handler copies are bytes of the request. *)
Definition add_request : ipmi_msg_t :=
  {| msg_netfn := 0x0a; msg_cmd := 0x44;
     msg_data := [0; 0; 0x02; 0; 0; 0; 0; 0x20; 0; 0x04;
                  0x01; 0x05; 0x6f; 0xa1; 0xa2; 0xa3; 0xb1; 0xb2; 0xb3];
     msg_data_len := 19 |}.

(** Clear SEL: reservation 0, 'C', 'L', 'R', op 0x00. *)
Definition clear_request : ipmi_msg_t :=
  {| msg_netfn := 0x0a; msg_cmd := 0x47;
     msg_data := [0; 0; 67; 76; 82; 0]; msg_data_len := 6 |}.

Definition get_info_request : ipmi_msg_t :=
  {| msg_netfn := 0x0a; msg_cmd := 0x40; msg_data := []; msg_data_len := 0 |}.

(** Delete SEL Entry: reservation [res], record id [id]. *)
Definition delete_request (res id : Z) : ipmi_msg_t :=
  {| msg_netfn := 0x0a; msg_cmd := 0x46;
     msg_data := ipmi_set_uint16 (ipmi_set_uint16 [0; 0; 0; 0] 0 res) 2 id;
     msg_data_len := 4 |}.

(** The SEL after one and after two Add SEL Entry commands, at the times
    5000 and 5001, the variable [t] of [ipmi_mc_add_to_sel] holding
    0xDEADBEEF on entry. *)
Definition one_record : option lmc_data_t :=
  fst <$> handle_add_sel_entry 0xDEADBEEF 5000 bmc_sel add_request (rbuf 0).

Definition two_records : option lmc_data_t :=
  mc ← one_record;
  fst <$> handle_add_sel_entry 0xDEADBEEF 5001 mc add_request (rbuf 0).

(** The SDR record of 8 bytes (body length byte 2) of the SDR scenarios. *)
Definition sdr_record : list Z := [0; 0; 0x51; 0x01; 0x00; 0x02; 0xAA; 0xBB].

(** Add SDR with the whole record. *)
Definition add_sdr_request : ipmi_msg_t :=
  {| msg_netfn := 0x0a; msg_cmd := 0x24; msg_data := sdr_record; msg_data_len := 8 |}.

(** Partial Add SDR: reservation 0, record id [id], [offset], [progress]
    and the bytes [body] of the record. *)
Definition partial_add_request (id offset progress : Z) (body : list Z) : ipmi_msg_t :=
  {| msg_netfn := 0x0a; msg_cmd := 0x25;
     msg_data := ipmi_set_uint16 [0; 0; 0; 0; offset; progress] 2 id ++ body;
     msg_data_len := 6 + Z.of_nat (length body) |}.

(** The MC after one Add SDR command at the time 2000: the new MC starts
    with the next record id 0, which the record gets. *)
Definition one_sdr : option lmc_data_t :=
  fst <$> handle_add_sdr 2000 bmc add_sdr_request (rbuf 0).

(** A threshold sensor with all six thresholds supported and no
    hysteresis. *)
Definition demo_sensor : sensor_t :=
  {| s_num := 7; s_lun := 0; s_scanning_enabled := 1; s_events_enabled := 1;
     s_sensor_type := 1; s_event_reading_code := 1; s_value := 50;
     s_hysteresis_support := 0; s_positive_hysteresis := 0;
     s_negative_hysteresis := 0; s_threshold_support := 0;
     s_threshold_supported := [1; 1; 1; 1; 1; 1];
     s_thresholds := [30; 20; 10; 70; 80; 90];
     s_event_support := 0;
     s_event_supported := (replicate 15 1, replicate 15 1);
     s_event_enabled := (replicate 15 1, replicate 15 1);
     s_event_status := replicate 15 0 |}.

(** The MC with that sensor, and a Set Sensor Event Enable request for it
    with flags byte 0xC0: events and scanning on, op 0. *)
Definition bmc_sensor : lmc_data_t :=
  set_mc_sensors bmc (<[(0, 7) := demo_sensor]> (mc_sensors bmc)).

Definition event_enable_request : ipmi_msg_t :=
  {| msg_netfn := 0x04; msg_cmd := 0x28; msg_data := [7; 0xC0]; msg_data_len := 2 |}.

(** [n] system events added one after the other. *)
Definition sel_adds (t_stack now : Z) (n : nat) (mc : lmc_data_t) : option lmc_data_t :=
  Nat.iter n
    (fun o => mc ← o;
              fst <$> ipmi_mc_add_to_sel t_stack now mc 0x02 (replicate 13 0))
    (Some mc).




(** ** Threshold conditions *)

(** The conditions under which the first two loops of [check_thresholds]
    put the bit of threshold [i] into [bits_to_set] and [bits_to_clear]. *)
Definition want_set (s : sensor_t) (i : Z) : bool :=
  negb (byte_at (s_threshold_supported s) i =? 0)
  && (if bool_decide (i < 3) then bool_decide (s_value s <= byte_at (s_thresholds s) i)
      else bool_decide (s_value s >= byte_at (s_thresholds s) i)).

Definition want_clear (s : sensor_t) (i : Z) : bool :=
  negb (byte_at (s_threshold_supported s) i =? 0)
  && (if bool_decide (i < 3) then
        negb (bool_decide (s_value s <= byte_at (s_thresholds s) i))
        && bool_decide (s_value s - s_negative_hysteresis s > byte_at (s_thresholds s) i)
      else
        negb (bool_decide (s_value s >= byte_at (s_thresholds s) i))
        && bool_decide (s_value s + s_positive_hysteresis s < byte_at (s_thresholds s) i)).

Definition bit_if (b : bool) (i : Z) : Z := if b then Z.shiftl 1 i else 0.

(** [bits_to_set] and [bits_to_clear] after the first two loops. *)
Definition threshold_bits (s : sensor_t) : Z * Z :=
  foldl (upper_bits s) (foldl (lower_bits s) (0, 0) [0; 1; 2]) [3; 4; 5].

(** One round of the last two loops on the status byte [old] of the
    threshold; [inrange] tells whether the status array has the byte. *)
Definition round_value (set clear inrange : bool) (old : Z) : Z :=
  if set && (old =? 0) then (if inrange then 1 else old)
  else if clear && negb (old =? 0) then 0
  else old.

(** * Further functions of the emulator *)

(** ** The IPMB checksum *)

(** [ipmb_checksum(data + off, size, start)]: the sum is kept in a
    [uint8_t]. *)
Definition ipmb_checksum (data : list Z) (off size start : Z) : Z :=
  u8 (- foldl (fun csum b => u8 (csum + b)) (u8 start) (read_bytes data off size)).

(** The sum of a list of bytes. *)
Definition byte_sum (l : list Z) : Z := foldr Z.add 0 l.

(** The end of [ipmi_emu_handle_msg], from
    [if (omsg->cmd == IPMI_SEND_MSG_CMD)] on: the response of the addressed
    MC becomes an IPMB frame.  [netfn] is [msg->netfn] and [data] the
    encapsulated request from its slave address on. *)
Definition send_msg_rsp (emu : emu_data_t) (netfn : Z) (data : list Z) (r : rsp_t) : rsp_t :=
  let rd := foldl (fun rd i => set_byte rd (i + 7) (byte_at rd i)) (rdata r)
                  (reverse (seqZ 0 (rdata_len r))) in
  let rd := set_byte rd 0 0 in
  let rd := set_byte rd 1 (emu_bmc_mc emu) in
  let rd := set_byte rd 2 (u8 (Z.lor (Z.shiftl (Z.lor netfn 1) 2)
                                     (Z.land (byte_at data 4) 0x3))) in
  let rd := set_byte rd 3 (ipmb_checksum rd 1 2 0) in
  let rd := set_byte rd 4 (byte_at data 0) in
  let rd := set_byte rd 5 (Z.lor (Z.land (byte_at data 4) 0xfc)
                                 (Z.land (byte_at data 1) 0x03)) in
  let rd := set_byte rd 6 (byte_at data 5) in
  let len := rdata_len r + 7 in
  let rd := set_byte rd len (ipmb_checksum rd 0 len 0) in
  {| rdata := rd; rdata_len := len + 1 |}.

(** ** Reading the SEL *)

(** [handle_get_sel_entry]. *)
Definition handle_get_sel_entry (mc : lmc_data_t) (msg : ipmi_msg_t) (r : rsp_t)
  : option (lmc_data_t * rsp_t) :=
  let sel := mc_sel mc in
  let d := msg_data msg in
  if negb (has_bit (mc_device_support mc) IPMI_DEVID_SEL_DEVICE) then
    Some (mc, handle_invalid_cmd r)
  else if check_msg_length msg 6 then
    Some (mc, rsp_cc IPMI_REQUEST_DATA_LENGTH_INVALID_CC r)
  else if has_bit (sel_flags sel) IPMI_SEL_SUPPORTS_RESERVE
          && bad_reservation msg (sel_reservation sel) then
    Some (mc, rsp_cc IPMI_INVALID_RESERVATION_CC r)
  else
    let record_id := u16 (ipmi_get_uint16 d 2) in
    let offset := byte_at d 4 in
    let count := byte_at d 5 in
    if bool_decide (offset >= 16) then
      Some (mc, rsp_cc IPMI_INVALID_DATA_FIELD_CC r)
    else
      l ← nodes (sel_entries sel);
      match sel_locate l record_id with
      | None => Some (mc, rsp_cc IPMI_NOT_PRESENT_CC r)
      | Some (i, entry) =>
          let rd := set_byte (rdata r) 0 0 in
          let rd := match l !! S i with
                    | Some n => ipmi_set_uint16 rd 1 (se_record_id n)
                    | None => set_byte (set_byte rd 1 0xff) 2 0xff
                    end in
          let count := if bool_decide (offset + count > 16) then 16 - offset
                       else count in
          Some (mc, {| rdata := memcpy rd 3 (se_data entry) offset count;
                       rdata_len := count + 3 |})
      end.

Definition set_sel_time_offset (s : sel_t) (v : Z) : sel_t :=
  {| sel_entries := sel_entries s; sel_count := sel_count s;
     sel_max_count := sel_max_count s;
     sel_last_add_time := sel_last_add_time s;
     sel_last_erase_time := sel_last_erase_time s;
     sel_flags := sel_flags s; sel_reservation := sel_reservation s;
     sel_next_entry := sel_next_entry s; sel_time_offset := v |}.

(** [handle_get_sel_time]. *)
Definition handle_get_sel_time (now : Z) (mc : lmc_data_t) (msg : ipmi_msg_t) (r : rsp_t)
  : lmc_data_t * rsp_t :=
  if negb (has_bit (mc_device_support mc) IPMI_DEVID_SEL_DEVICE) then
    (mc, handle_invalid_cmd r)
  else
    (mc, {| rdata := ipmi_set_uint32 (set_byte (rdata r) 0 0) 1
                       (now + sel_time_offset (mc_sel mc));
            rdata_len := 5 |}).

(** [handle_set_sel_time]: [ipmi_get_uint32] returns an [unsigned int],
    [time_offset] is a [long]. *)
Definition handle_set_sel_time (now : Z) (mc : lmc_data_t) (msg : ipmi_msg_t) (r : rsp_t)
  : lmc_data_t * rsp_t :=
  if negb (has_bit (mc_device_support mc) IPMI_DEVID_SEL_DEVICE) then
    (mc, handle_invalid_cmd r)
  else if check_msg_length msg 4 then
    (mc, rsp_cc IPMI_REQUEST_DATA_LENGTH_INVALID_CC r)
  else
    (set_mc_sel mc
       (set_sel_time_offset (mc_sel mc) (u32 (ipmi_get_uint32 (msg_data msg) 0) - now)),
     rsp_cc 0 r).

(** ** Reading the SDR repository, and its update mode *)

(** [handle_get_sdr]. *)
Definition handle_get_sdr (mc : lmc_data_t) (msg : ipmi_msg_t) (r : rsp_t)
  : option (lmc_data_t * rsp_t) :=
  let sdrs := mc_main_sdrs mc in
  let d := msg_data msg in
  if negb (has_bit (mc_device_support mc) IPMI_DEVID_SDR_REPOSITORY_DEV) then
    Some (mc, handle_invalid_cmd r)
  else if check_msg_length msg 6 then
    Some (mc, rsp_cc IPMI_REQUEST_DATA_LENGTH_INVALID_CC r)
  else if has_bit (sdrs_flags sdrs) IPMI_SDR_RESERVE_SDR_SUPPORTED
          && bad_reservation msg (sdrs_reservation sdrs) then
    Some (mc, rsp_cc IPMI_INVALID_RESERVATION_CC r)
  else
    let record_id := u16 (ipmi_get_uint16 d 2) in
    let offset := byte_at d 4 in
    let count := byte_at d 5 in
    l ← nodes (sdrs_sdrs sdrs);
    match sdr_locate l record_id with
    | None => Some (mc, rsp_cc IPMI_NOT_PRESENT_CC r)
    | Some (i, entry) =>
        if bool_decide (offset >= sdr_length entry) then
          Some (mc, rsp_cc IPMI_PARAMETER_OUT_OF_RANGE_CC r)
        else
          let count := if bool_decide (offset + count > sdr_length entry)
                       then sdr_length entry - offset else count in
          if bool_decide (count + 3 > rdata_len r) then
            (* Too much data to put into response. *)
            Some (mc, rsp_cc IPMI_REQUESTED_DATA_LENGTH_EXCEEDED_CC r)
          else
            let rd := set_byte (rdata r) 0 0 in
            let rd := match l !! S i with
                      | Some n => ipmi_set_uint16 rd 1 (sdr_record_id n)
                      | None => set_byte (set_byte rd 1 0xff) 2 0xff
                      end in
            Some (mc, {| rdata := memcpy rd 3 (sdr_data entry) offset count;
                         rdata_len := count + 3 |})
    end.

Definition set_mc_in_update_mode (mc : lmc_data_t) (v : Z) : lmc_data_t :=
  {| mc_ipmb := mc_ipmb mc; mc_device_id := mc_device_id mc;
     mc_has_device_sdrs := mc_has_device_sdrs mc;
     mc_device_revision := mc_device_revision mc;
     mc_major_fw_rev := mc_major_fw_rev mc; mc_minor_fw_rev := mc_minor_fw_rev mc;
     mc_device_support := mc_device_support mc;
     mc_mfg_id := mc_mfg_id mc; mc_product_id := mc_product_id mc;
     mc_sel := mc_sel mc;
     mc_main_sdrs := mc_main_sdrs mc;
     mc_part_add_sdr := mc_part_add_sdr mc; mc_part_add_next := mc_part_add_next mc;
     mc_in_update_mode := v;
     mc_event_receiver := mc_event_receiver mc;
     mc_event_receiver_lun := mc_event_receiver_lun mc;
     mc_device_sdrs := mc_device_sdrs mc;
     mc_dynamic_sensor_population := mc_dynamic_sensor_population mc;
     mc_sensors := mc_sensors mc; mc_power_value := mc_power_value mc |}.

(** The check of the two update mode handlers: the repository is not
    modal capable. *)
Definition not_modal (mc : lmc_data_t) : bool :=
  (IPMI_SDR_GET_MODAL (sdrs_flags (mc_main_sdrs mc)) =? IPMI_SDR_MODAL_UNSPECIFIED)
  || (IPMI_SDR_GET_MODAL (sdrs_flags (mc_main_sdrs mc)) =? IPMI_SDR_NON_MODAL_ONLY).

(** [handle_enter_sdr_repository_update]. *)
Definition handle_enter_sdr_repository_update (mc : lmc_data_t) (msg : ipmi_msg_t)
    (r : rsp_t) : lmc_data_t * rsp_t :=
  if negb (has_bit (mc_device_support mc) IPMI_DEVID_SDR_REPOSITORY_DEV) then
    (mc, handle_invalid_cmd r)
  else if not_modal mc then (mc, handle_invalid_cmd r)
  else (set_mc_in_update_mode mc 1, rsp_cc 0 r).

(** [handle_exit_sdr_repository_update]. *)
Definition handle_exit_sdr_repository_update (mc : lmc_data_t) (msg : ipmi_msg_t)
    (r : rsp_t) : lmc_data_t * rsp_t :=
  if negb (has_bit (mc_device_support mc) IPMI_DEVID_SDR_REPOSITORY_DEV) then
    (mc, handle_invalid_cmd r)
  else if not_modal mc then (mc, handle_invalid_cmd r)
  else (set_mc_in_update_mode mc 0, rsp_cc 0 r).

(** ** FRU data *)

(** [fru_data_t] with a [data] pointer that is not null: [length] and the
    bytes at [data]. *)
Record fru_data_t := mk_fru {
  fru_length : Z;
  fru_data : list Z
}.

(** The table [frus[255]] of an MC, which [lmc_data_t] above leaves out and
    the FRU functions take beside the MC: a device whose [data] pointer is
    null is an absent key. *)
Definition ipmi_mc_add_fru_data (mc : lmc_data_t) (frus : gmap Z fru_data_t)
    (device_id length : Z) (data : list Z) (data_len : Z)
  : gmap Z fru_data_t * errno :=
  if negb (has_bit (mc_device_support mc) IPMI_DEVID_FRU_INVENTORY_DEV) then (frus, ENOSYS)
  else if bool_decide (device_id >= 255) then (frus, EINVAL)
  else if bool_decide (data_len > length) then (frus, EINVAL)
  else
    (<[device_id := {| fru_length := length;
                       fru_data := memcpy (memset (malloc length) 0 0 length)
                                     0 data 0 data_len |}]> frus,
     E_OK).

(** The device a FRU request names in its first byte. *)
Definition fru_device (frus : gmap Z fru_data_t) (msg : ipmi_msg_t) : option fru_data_t :=
  let devid := byte_at (msg_data msg) 0 in
  if bool_decide (devid >= 255) then None else frus !! devid.

(** [handle_get_fru_inventory_area_info]. *)
Definition handle_get_fru_inventory_area_info (frus : gmap Z fru_data_t)
    (msg : ipmi_msg_t) (r : rsp_t) : rsp_t :=
  if check_msg_length msg 1 then rsp_cc IPMI_REQUEST_DATA_LENGTH_INVALID_CC r
  else
    match fru_device frus msg with
    | None => rsp_cc IPMI_INVALID_DATA_FIELD_CC r
    | Some fru =>
        let rd := ipmi_set_uint16 (set_byte (rdata r) 0 0) 1 (fru_length fru) in
        (* We only support byte access for now. *)
        {| rdata := set_byte rd 3 0; rdata_len := 4 |}
    end.

(** [handle_read_fru_data]. *)
Definition handle_read_fru_data (frus : gmap Z fru_data_t) (msg : ipmi_msg_t) (r : rsp_t)
  : rsp_t :=
  let d := msg_data msg in
  if check_msg_length msg 4 then rsp_cc IPMI_REQUEST_DATA_LENGTH_INVALID_CC r
  else
    match fru_device frus msg with
    | None => rsp_cc IPMI_INVALID_DATA_FIELD_CC r
    | Some fru =>
        let offset := ipmi_get_uint16 d 1 in
        let count := byte_at d 3 in
        if bool_decide (offset >= fru_length fru) then
          rsp_cc IPMI_PARAMETER_OUT_OF_RANGE_CC r
        else
          let count := if bool_decide (offset + count > fru_length fru)
                       then fru_length fru - offset else count in
          if bool_decide (count + 2 > rdata_len r) then
            (* Too much data to put into response. *)
            rsp_cc IPMI_REQUESTED_DATA_LENGTH_EXCEEDED_CC r
          else
            let rd := set_byte (set_byte (rdata r) 0 0) 1 (u8 count) in
            {| rdata := memcpy rd 2 (fru_data fru) offset count;
               rdata_len := 2 + count |}
    end.

(** [handle_write_fru_data]. *)
Definition handle_write_fru_data (frus : gmap Z fru_data_t) (msg : ipmi_msg_t) (r : rsp_t)
  : gmap Z fru_data_t * rsp_t :=
  let d := msg_data msg in
  if check_msg_length msg 3 then (frus, rsp_cc IPMI_REQUEST_DATA_LENGTH_INVALID_CC r)
  else
    match fru_device frus msg with
    | None => (frus, rsp_cc IPMI_INVALID_DATA_FIELD_CC r)
    | Some fru =>
        let offset := ipmi_get_uint16 d 1 in
        let count := msg_data_len msg - 3 in
        if bool_decide (offset >= fru_length fru) then
          (frus, rsp_cc IPMI_PARAMETER_OUT_OF_RANGE_CC r)
        else if bool_decide (offset + count > fru_length fru) then
          (* Too much data to put into FRU. *)
          (frus, rsp_cc IPMI_REQUESTED_DATA_LENGTH_EXCEEDED_CC r)
        else
          (<[byte_at d 0 := {| fru_length := fru_length fru;
                              fru_data := memcpy (fru_data fru) offset d 3 count |}]> frus,
           {| rdata := set_byte (set_byte (rdata r) 0 0) 1 (u8 count); rdata_len := 2 |})
    end.

(** ** Application and sensor/event commands of the MC *)

(** [handle_get_device_id]. *)
Definition handle_get_device_id (mc : lmc_data_t) (msg : ipmi_msg_t) (r : rsp_t) : rsp_t :=
  let rd := memset (rdata r) 0 0 12 in
  let rd := set_byte rd 1 (mc_device_id mc) in
  let rd := set_byte rd 2 (u8 (Z.lor (Z.shiftl (mc_has_device_sdrs mc) 7)
                                     (Z.land (mc_device_revision mc) 0xf))) in
  let rd := set_byte rd 3 (Z.land (mc_major_fw_rev mc) 0x7f) in
  let rd := set_byte rd 4 (mc_minor_fw_rev mc) in
  let rd := set_byte rd 5 0x51 in
  let rd := set_byte rd 6 (mc_device_support mc) in
  let rd := memcpy rd 7 (mc_mfg_id mc) 0 3 in
  let rd := memcpy rd 10 (mc_product_id mc) 0 2 in
  {| rdata := rd; rdata_len := 12 |}.

Definition set_mc_event_receiver (mc : lmc_data_t) (receiver lun : Z) : lmc_data_t :=
  {| mc_ipmb := mc_ipmb mc; mc_device_id := mc_device_id mc;
     mc_has_device_sdrs := mc_has_device_sdrs mc;
     mc_device_revision := mc_device_revision mc;
     mc_major_fw_rev := mc_major_fw_rev mc; mc_minor_fw_rev := mc_minor_fw_rev mc;
     mc_device_support := mc_device_support mc;
     mc_mfg_id := mc_mfg_id mc; mc_product_id := mc_product_id mc;
     mc_sel := mc_sel mc;
     mc_main_sdrs := mc_main_sdrs mc;
     mc_part_add_sdr := mc_part_add_sdr mc; mc_part_add_next := mc_part_add_next mc;
     mc_in_update_mode := mc_in_update_mode mc;
     mc_event_receiver := receiver;
     mc_event_receiver_lun := lun;
     mc_device_sdrs := mc_device_sdrs mc;
     mc_dynamic_sensor_population := mc_dynamic_sensor_population mc;
     mc_sensors := mc_sensors mc; mc_power_value := mc_power_value mc |}.

(** [handle_get_event_receiver]. *)
Definition handle_get_event_receiver (mc : lmc_data_t) (msg : ipmi_msg_t) (r : rsp_t)
  : rsp_t :=
  if negb (has_bit (mc_device_support mc) IPMI_DEVID_IPMB_EVENT_GEN) then
    handle_invalid_cmd r
  else
    {| rdata := set_byte (set_byte (set_byte (rdata r) 0 0) 1 (mc_event_receiver mc))
                  2 (Z.land (mc_event_receiver_lun mc) 0x3);
       rdata_len := 3 |}.

(** [handle_set_event_receiver]. *)
Definition handle_set_event_receiver (mc : lmc_data_t) (msg : ipmi_msg_t) (r : rsp_t)
  : lmc_data_t * rsp_t :=
  if negb (has_bit (mc_device_support mc) IPMI_DEVID_IPMB_EVENT_GEN) then
    (mc, handle_invalid_cmd r)
  else if check_msg_length msg 2 then
    (mc, rsp_cc IPMI_REQUEST_DATA_LENGTH_INVALID_CC r)
  else
    (set_mc_event_receiver mc (Z.land (byte_at (msg_data msg) 0) 0xfe)
       (Z.land (byte_at (msg_data msg) 1) 0x3),
     rsp_cc 0 r).

(** ** Power *)

Definition set_mc_power_value (mc : lmc_data_t) (v : Z) : lmc_data_t :=
  {| mc_ipmb := mc_ipmb mc; mc_device_id := mc_device_id mc;
     mc_has_device_sdrs := mc_has_device_sdrs mc;
     mc_device_revision := mc_device_revision mc;
     mc_major_fw_rev := mc_major_fw_rev mc; mc_minor_fw_rev := mc_minor_fw_rev mc;
     mc_device_support := mc_device_support mc;
     mc_mfg_id := mc_mfg_id mc; mc_product_id := mc_product_id mc;
     mc_sel := mc_sel mc;
     mc_main_sdrs := mc_main_sdrs mc;
     mc_part_add_sdr := mc_part_add_sdr mc; mc_part_add_next := mc_part_add_next mc;
     mc_in_update_mode := mc_in_update_mode mc;
     mc_event_receiver := mc_event_receiver mc;
     mc_event_receiver_lun := mc_event_receiver_lun mc;
     mc_device_sdrs := mc_device_sdrs mc;
     mc_dynamic_sensor_population := mc_dynamic_sensor_population mc;
     mc_sensors := mc_sensors mc; mc_power_value := v |}.

(** [ipmi_mc_set_power], for the MC in slot [k].  The function returns 0
    on every path. *)
Definition ipmi_mc_set_power (t_stack now : Z) (emu : emu_data_t) (k : Z)
    (power gen_event : Z) : option emu_data_t :=
  mc ← emu_ipmb emu !! k;
  if mc_power_value mc =? power then Some emu
  else
    let mc := set_mc_power_value mc power in
    let emu := set_emu_ipmb emu (<[k := mc]> (emu_ipmb emu)) in
    if (mc_event_receiver mc =? 0) || (gen_event =? 0) then Some emu
    else
      match ipmi_emu_get_mc_by_addr emu (mc_event_receiver mc) with
      | inr _ => Some emu
      | inl dest =>
          dest_mc ← emu_ipmb emu !! dest;
          (* Timestamp is ignored. *)
          let data :=
            [0; 0; 0; 0;
             0x20 (* These come from 0x20. *);
             0;
             0x01 (* Version 1. *);
             0;
             0 (* Control number 0. *);
             0; power; 0; 0] in
          '(dest_mc, _) ← ipmi_mc_add_to_sel t_stack now dest_mc 0xc0 data;
          Some (set_emu_ipmb emu (<[dest := dest_mc]> (emu_ipmb emu)))
      end.

(** [handle_set_power], for the MC in slot [k]. *)
Definition handle_set_power (t_stack now : Z) (emu : emu_data_t) (k : Z)
    (msg : ipmi_msg_t) (r : rsp_t) : option (emu_data_t * rsp_t) :=
  if check_msg_length msg 1 then
    Some (emu, rsp_cc IPMI_REQUEST_DATA_LENGTH_INVALID_CC r)
  else
    emu ← ipmi_mc_set_power t_stack now emu k (byte_at (msg_data msg) 0) 1;
    Some (emu, rsp_cc 0 r).

(** [handle_get_power]. *)
Definition handle_get_power (mc : lmc_data_t) (msg : ipmi_msg_t) (r : rsp_t) : rsp_t :=
  {| rdata := set_byte (set_byte (rdata r) 0 0) 1 (mc_power_value mc); rdata_len := 2 |}.

(** [handle_oem0_netfn], for the MC in slot [k]. *)
Definition handle_oem0_netfn (t_stack now : Z) (emu : emu_data_t) (k : Z)
    (msg : ipmi_msg_t) (r : rsp_t) : option (emu_data_t * rsp_t) :=
  if msg_cmd msg =? 0x01 then handle_set_power t_stack now emu k msg r
  else if msg_cmd msg =? 0x02 then
    mc ← emu_ipmb emu !! k;
    Some (emu, handle_get_power mc msg r)
  else Some (emu, handle_invalid_cmd r).

(** ** The SDR repository time *)

(** [handle_get_sdr_repository_time]. *)
Definition handle_get_sdr_repository_time (now : Z) (mc : lmc_data_t) (msg : ipmi_msg_t)
    (r : rsp_t) : lmc_data_t * rsp_t :=
  if negb (has_bit (mc_device_support mc) IPMI_DEVID_SDR_REPOSITORY_DEV) then
    (mc, handle_invalid_cmd r)
  else
    (mc, {| rdata := ipmi_set_uint32 (set_byte (rdata r) 0 0) 1
                       (now + sdrs_time_offset (mc_main_sdrs mc));
            rdata_len := 5 |}).

(** [handle_set_sdr_repository_time]. *)
Definition handle_set_sdr_repository_time (now : Z) (mc : lmc_data_t) (msg : ipmi_msg_t)
    (r : rsp_t) : lmc_data_t * rsp_t :=
  if negb (has_bit (mc_device_support mc) IPMI_DEVID_SDR_REPOSITORY_DEV) then
    (mc, handle_invalid_cmd r)
  else if check_msg_length msg 4 then
    (mc, rsp_cc IPMI_REQUEST_DATA_LENGTH_INVALID_CC r)
  else
    (set_mc_main_sdrs mc
       (set_sdrs_time_offset (mc_main_sdrs mc)
          (u32 (ipmi_get_uint32 (msg_data msg) 0) - now)),
     rsp_cc 0 r).

(** ** Hysteresis and thresholds of a sensor *)

Definition set_s_hysteresis (s : sensor_t) (support positive negative : Z) : sensor_t :=
  {| s_num := s_num s; s_lun := s_lun s;
     s_scanning_enabled := s_scanning_enabled s;
     s_events_enabled := s_events_enabled s;
     s_sensor_type := s_sensor_type s;
     s_event_reading_code := s_event_reading_code s;
     s_value := s_value s;
     s_hysteresis_support := support;
     s_positive_hysteresis := positive;
     s_negative_hysteresis := negative;
     s_threshold_support := s_threshold_support s;
     s_threshold_supported := s_threshold_supported s;
     s_thresholds := s_thresholds s;
     s_event_support := s_event_support s;
     s_event_supported := s_event_supported s;
     s_event_enabled := s_event_enabled s;
     s_event_status := s_event_status s |}.

Definition set_s_thresholds (s : sensor_t) (support : Z) (supported values : list Z)
  : sensor_t :=
  {| s_num := s_num s; s_lun := s_lun s;
     s_scanning_enabled := s_scanning_enabled s;
     s_events_enabled := s_events_enabled s;
     s_sensor_type := s_sensor_type s;
     s_event_reading_code := s_event_reading_code s;
     s_value := s_value s;
     s_hysteresis_support := s_hysteresis_support s;
     s_positive_hysteresis := s_positive_hysteresis s;
     s_negative_hysteresis := s_negative_hysteresis s;
     s_threshold_support := support;
     s_threshold_supported := supported;
     s_thresholds := values;
     s_event_support := s_event_support s;
     s_event_supported := s_event_supported s;
     s_event_enabled := s_event_enabled s;
     s_event_status := s_event_status s |}.

(** The sensor a request names in its first byte:
    [(sens_num >= 255) || (!mc->sensors[lun][sens_num])] gives [None]. *)
Definition msg_sensor (mc : lmc_data_t) (lun : Z) (msg : ipmi_msg_t) : option sensor_t :=
  let sens_num := byte_at (msg_data msg) 0 in
  if bool_decide (sens_num >= 255) then None else mc_sensors mc !! (lun, sens_num).

(** [ipmi_mc_sensor_set_hysteresis]. *)
Definition ipmi_mc_sensor_set_hysteresis (mc : lmc_data_t)
    (lun sens_num support positive negative : Z) : lmc_data_t * errno :=
  if bool_decide (lun >= 4) || bool_decide (sens_num >= 255) then (mc, EINVAL)
  else
    match mc_sensors mc !! (lun, sens_num) with
    | None => (mc, EINVAL)
    | Some sensor =>
        (set_mc_sensors mc
           (<[(lun, sens_num) := set_s_hysteresis sensor support positive negative]>
              (mc_sensors mc)),
         E_OK)
    end.

(** [ipmi_mc_sensor_set_threshold]. *)
Definition ipmi_mc_sensor_set_threshold (mc : lmc_data_t)
    (lun sens_num support : Z) (supported values : list Z) : lmc_data_t * errno :=
  if bool_decide (lun >= 4) || bool_decide (sens_num >= 255) then (mc, EINVAL)
  else
    match mc_sensors mc !! (lun, sens_num) with
    | None => (mc, EINVAL)
    | Some sensor =>
        (set_mc_sensors mc
           (<[(lun, sens_num) :=
                set_s_thresholds sensor support
                  (memcpy (s_threshold_supported sensor) 0 supported 0 6)
                  (memcpy (s_thresholds sensor) 0 values 0 6)]>
              (mc_sensors mc)),
         E_OK)
    end.

(** [[
    for (i=0; i<6; i++) {
	if ((msg->data[1] & (1 << i)) && (!sensor->threshold_supported[i])) {
    ]]
    some selected threshold is not supported. *)
Definition threshold_refused (d supported : list Z) : bool :=
  existsb (fun i => negb (Z.land (byte_at d 1) (Z.shiftl 1 i) =? 0)
                    && (byte_at supported i =? 0))
          (seqZ 0 6).

(** [[
    for (i=0; i<6; i++) {
	if (msg->data[1] & (1 << i)) {
	    sensor->thresholds[i] = msg->data[i+2];
    ]] *)
Definition store_thresholds (d thresholds : list Z) : list Z :=
  foldl (fun ths i => if negb (Z.land (byte_at d 1) (Z.shiftl 1 i) =? 0)
                      then set_byte ths i (byte_at d (i + 2)) else ths)
        thresholds (seqZ 0 6).

(** The loop of [handle_get_sensor_thresholds] over the response buffer. *)
Definition report_thresholds (s : sensor_t) (rd : list Z) : list Z :=
  foldl (fun rd i =>
           if negb (byte_at (s_threshold_supported s) i =? 0) then
             set_byte (set_byte rd 1 (u8 (Z.lor (byte_at rd 1) (Z.shiftl 1 i))))
                      (2 + i) (byte_at (s_thresholds s) i)
           else set_byte rd (2 + i) 0)
        rd (seqZ 0 6).

Section SensorAccess.

(** The hysteresis and threshold access codes and the threshold event
    reading type are those of OpenIPMI/ipmi_bits.h, a header that is not
    part of the sources: the handlers are stated for any values. *)
Variables IPMI_HYSTERESIS_SUPPORT_SETTABLE IPMI_HYSTERESIS_SUPPORT_READABLE
          IPMI_THRESHOLD_ACCESS_SUPPORT_SETTABLE IPMI_THRESHOLD_ACCESS_SUPPORT_READABLE
          IPMI_EVENT_READING_TYPE_THRESHOLD : Z.

(** [handle_set_sensor_hysteresis]. *)
Definition handle_set_sensor_hysteresis (mc : lmc_data_t) (lun : Z)
    (msg : ipmi_msg_t) (r : rsp_t) : lmc_data_t * rsp_t :=
  if check_msg_length msg 4 then (mc, rsp_cc IPMI_REQUEST_DATA_LENGTH_INVALID_CC r)
  else
    match msg_sensor mc lun msg with
    | None => (mc, rsp_cc IPMI_INVALID_DATA_FIELD_CC r)
    | Some sensor =>
        if negb (s_hysteresis_support sensor =? IPMI_HYSTERESIS_SUPPORT_SETTABLE) then
          (mc, rsp_cc IPMI_INVALID_CMD_CC r)
        else
          (set_mc_sensors mc
             (<[(lun, byte_at (msg_data msg) 0) :=
                  set_s_hysteresis sensor (s_hysteresis_support sensor)
                    (byte_at (msg_data msg) 2) (byte_at (msg_data msg) 3)]>
                (mc_sensors mc)),
           rsp_cc 0 r)
    end.

(** [handle_get_sensor_hysteresis]. *)
Definition handle_get_sensor_hysteresis (mc : lmc_data_t) (lun : Z)
    (msg : ipmi_msg_t) (r : rsp_t) : rsp_t :=
  if check_msg_length msg 1 then rsp_cc IPMI_REQUEST_DATA_LENGTH_INVALID_CC r
  else
    match msg_sensor mc lun msg with
    | None => rsp_cc IPMI_INVALID_DATA_FIELD_CC r
    | Some sensor =>
        if negb (s_hysteresis_support sensor =? IPMI_HYSTERESIS_SUPPORT_SETTABLE)
           && negb (s_hysteresis_support sensor =? IPMI_HYSTERESIS_SUPPORT_READABLE) then
          rsp_cc IPMI_INVALID_CMD_CC r
        else
          {| rdata := set_byte (set_byte (set_byte (rdata r) 0 0)
                                  1 (s_positive_hysteresis sensor))
                        2 (s_negative_hysteresis sensor);
             rdata_len := 3 |}
    end.

(** [handle_set_sensor_thresholds], for the MC in slot [k]. *)
Definition handle_set_sensor_thresholds (t_stack : nat → Z) (now : Z) (emu : emu_data_t) (k : Z)
    (lun : Z) (msg : ipmi_msg_t) (r : rsp_t) : option (emu_data_t * rsp_t) :=
  mc ← emu_ipmb emu !! k;
  let d := msg_data msg in
  if check_msg_length msg 8 then
    Some (emu, rsp_cc IPMI_REQUEST_DATA_LENGTH_INVALID_CC r)
  else
    match msg_sensor mc lun msg with
    | None => Some (emu, rsp_cc IPMI_INVALID_DATA_FIELD_CC r)
    | Some sensor =>
        if negb (s_event_reading_code sensor =? IPMI_EVENT_READING_TYPE_THRESHOLD)
           || negb (s_threshold_support sensor =? IPMI_THRESHOLD_ACCESS_SUPPORT_SETTABLE)
        then Some (emu, rsp_cc IPMI_INVALID_CMD_CC r)
        else if threshold_refused d (s_threshold_supported sensor) then
          Some (emu, rsp_cc IPMI_INVALID_DATA_FIELD_CC r)
        else
          let sensor :=
            set_s_thresholds sensor (s_threshold_support sensor)
              (s_threshold_supported sensor) (store_thresholds d (s_thresholds sensor)) in
          let '(sensor, evs) := check_thresholds sensor in
          let mc := set_mc_sensors mc (<[(lun, byte_at d 0) := sensor]> (mc_sensors mc)) in
          let emu := set_emu_ipmb emu (<[k := mc]> (emu_ipmb emu)) in
          emu ← do_events t_stack now 1 k sensor emu evs;
          Some (emu, rsp_cc 0 r)
    end.

(** [handle_get_sensor_thresholds]. *)
Definition handle_get_sensor_thresholds (mc : lmc_data_t) (lun : Z)
    (msg : ipmi_msg_t) (r : rsp_t) : rsp_t :=
  if check_msg_length msg 1 then rsp_cc IPMI_REQUEST_DATA_LENGTH_INVALID_CC r
  else
    match msg_sensor mc lun msg with
    | None => rsp_cc IPMI_INVALID_DATA_FIELD_CC r
    | Some sensor =>
        if negb (s_event_reading_code sensor =? IPMI_EVENT_READING_TYPE_THRESHOLD)
           || (negb (s_threshold_support sensor =? IPMI_THRESHOLD_ACCESS_SUPPORT_SETTABLE)
               && negb (s_threshold_support sensor
                        =? IPMI_THRESHOLD_ACCESS_SUPPORT_READABLE))
        then rsp_cc IPMI_INVALID_CMD_CC r
        else
          {| rdata := report_thresholds sensor (set_byte (set_byte (rdata r) 0 0) 1 0);
             rdata_len := 8 |}
    end.

End SensorAccess.

(** [handle_get_sensor_type]. *)
Definition handle_get_sensor_type (mc : lmc_data_t) (lun : Z)
    (msg : ipmi_msg_t) (r : rsp_t) : rsp_t :=
  if check_msg_length msg 1 then rsp_cc IPMI_REQUEST_DATA_LENGTH_INVALID_CC r
  else
    match msg_sensor mc lun msg with
    | None => rsp_cc IPMI_INVALID_DATA_FIELD_CC r
    | Some sensor =>
        {| rdata := set_byte (set_byte (set_byte (rdata r) 0 0)
                                1 (s_sensor_type sensor))
                      2 (s_event_reading_code sensor);
           rdata_len := 3 |}
    end.

(** ** The events of a threshold *)

(** The column of [event_enabled] and the low bits of the event offset of
    threshold [i]: [i*2] for a lower threshold, [i*2+1] for an upper one. *)
Definition threshold_column (i : Z) : Z :=
  if bool_decide (i < 3) then i * 2 else i * 2 + 1.

(** The [do_event] call of [check_thresholds] for threshold [i], from the
    sensor as the function finds it. *)
Definition threshold_events (s : sensor_t) (i : Z) : list event_t :=
  if want_set s i && (byte_at (s_event_status s) i =? 0) then
    if negb (byte_at (fst (s_event_enabled s)) (threshold_column i) =? 0) then
      [mk_event IPMI_ASSERTION (Z.lor 0x50 (threshold_column i)) (s_value s)
         (byte_at (s_thresholds s) i)]
    else []
  else if want_clear s i && negb (byte_at (s_event_status s) i =? 0) then
    if negb (byte_at (snd (s_event_enabled s)) (threshold_column i) =? 0) then
      [mk_event IPMI_DEASSERTION (Z.lor 0x50 (threshold_column i)) (s_value s)
         (byte_at (s_thresholds s) i)]
    else []
  else [].

(** ** The commands of the main SDR repository *)

(** The handlers of the main SDR repository that take a request and may
    change the MC. *)
Inductive sdr_command : Type :=
| GET_SDR | ADD_SDR | PARTIAL_ADD_SDR | DELETE_SDR | CLEAR_SDR_REPOSITORY
| RESERVE_SDR_REPOSITORY | GET_SDR_REPOSITORY_TIME | SET_SDR_REPOSITORY_TIME
| ENTER_SDR_REPOSITORY_UPDATE | EXIT_SDR_REPOSITORY_UPDATE.

Definition run_sdr_command (c : sdr_command) (now : Z) (mc : lmc_data_t)
    (msg : ipmi_msg_t) (r : rsp_t) : option (lmc_data_t * rsp_t) :=
  match c with
  | GET_SDR => handle_get_sdr mc msg r
  | ADD_SDR => handle_add_sdr now mc msg r
  | PARTIAL_ADD_SDR => handle_partial_add_sdr now mc msg r
  | DELETE_SDR => handle_delete_sdr now mc msg r
  | CLEAR_SDR_REPOSITORY => handle_clear_sdr_repository now mc msg r
  | RESERVE_SDR_REPOSITORY => Some (handle_reserve_sdr_repository mc msg r)
  | GET_SDR_REPOSITORY_TIME => Some (handle_get_sdr_repository_time now mc msg r)
  | SET_SDR_REPOSITORY_TIME => Some (handle_set_sdr_repository_time now mc msg r)
  | ENTER_SDR_REPOSITORY_UPDATE => Some (handle_enter_sdr_repository_update mc msg r)
  | EXIT_SDR_REPOSITORY_UPDATE => Some (handle_exit_sdr_repository_update mc msg r)
  end.

(** Commands one after the other, each with its time, request and
    response buffer: the MC after the last. *)
Fixpoint run_sdr_commands (mc : lmc_data_t)
    (cmds : list (sdr_command * Z * ipmi_msg_t * rsp_t)) : option lmc_data_t :=
  match cmds with
  | [] => Some mc
  | (c, now, msg, r) :: cmds =>
      '(mc, _) ← run_sdr_command c now mc msg r;
      run_sdr_commands mc cmds
  end.

(** ** Further scenarios *)

(** The requests below carry a command code for the reader; but for the
    two of the OEM netfn the handlers do not look at it. *)

(** Set SEL Time and Set SDR Repository Time with the time 0x40302010. *)
Definition set_time_request : ipmi_msg_t :=
  {| msg_netfn := 0x0a; msg_cmd := 0x49; msg_data := [0x10; 0x20; 0x30; 0x40];
     msg_data_len := 4 |}.

(** A request without data. *)
Definition empty_request : ipmi_msg_t :=
  {| msg_netfn := 0x0a; msg_cmd := 0; msg_data := []; msg_data_len := 0 |}.

(** Commands to the main SDR repository of a new MC: two records are
    added, a reservation and the update mode are asked for, the time is
    set, the first record (the response buffer names the id 0) is deleted,
    and a partial add is tried. *)
Definition sdr_session : list (sdr_command * Z * ipmi_msg_t * rsp_t) :=
  [(ADD_SDR, 2000, add_sdr_request, rbuf 0);
   (ADD_SDR, 2001, add_sdr_request, rbuf 0);
   (RESERVE_SDR_REPOSITORY, 2002, empty_request, rbuf 0);
   (ENTER_SDR_REPOSITORY_UPDATE, 2003, empty_request, rbuf 0);
   (SET_SDR_REPOSITORY_TIME, 2004, set_time_request, rbuf 0);
   (DELETE_SDR, 2005, delete_request 0 0, rbuf 0);
   (PARTIAL_ADD_SDR, 2006, partial_add_request 0 0 1 sdr_record, rbuf 0)].

(** The FRU table with device 3: an inventory area of 16 bytes that begins
    with 1, 2, 3, 4. *)
Definition demo_frus : gmap Z fru_data_t :=
  fst (ipmi_mc_add_fru_data bmc ∅ 3 16 [1; 2; 3; 4] 4).

(** Write FRU Data for device 3: the bytes 0xA1, 0xA2, 0xA3 at offset 5;
    and Read FRU Data for [count] bytes at [offset]. *)
Definition write_fru_request : ipmi_msg_t :=
  {| msg_netfn := 0x0a; msg_cmd := 0x12; msg_data := [3; 5; 0; 0xA1; 0xA2; 0xA3];
     msg_data_len := 6 |}.

Definition read_fru_request (offset count : Z) : ipmi_msg_t :=
  {| msg_netfn := 0x0a; msg_cmd := 0x11;
     msg_data := ipmi_set_uint16 [3; 0; 0; count] 1 offset; msg_data_len := 4 |}.

(** An emulator whose BMC at address 0x20 is [mc]. *)
Definition demo_emu (mc : lmc_data_t) : emu_data_t :=
  {| emu_bmc_mc := 0x20; emu_ipmb := <[0x10 := mc]> ∅ |}.

(** The two commands of the OEM netfn 0x30. *)
Definition set_power_request (power : Z) : ipmi_msg_t :=
  {| msg_netfn := 0x30; msg_cmd := 0x01; msg_data := [power]; msg_data_len := 1 |}.

Definition get_power_request : ipmi_msg_t :=
  {| msg_netfn := 0x30; msg_cmd := 0x02; msg_data := []; msg_data_len := 0 |}.

(** Set Sensor Hysteresis for sensor 7, and a request that names sensor 7
    and nothing else. *)
Definition set_hysteresis_request (positive negative : Z) : ipmi_msg_t :=
  {| msg_netfn := 0x04; msg_cmd := 0x24; msg_data := [7; 0xff; positive; negative];
     msg_data_len := 4 |}.

Definition sensor_request : ipmi_msg_t :=
  {| msg_netfn := 0x04; msg_cmd := 0; msg_data := [7]; msg_data_len := 1 |}.

(** Set Sensor Thresholds for sensor 7: the upper critical threshold (bit 4)
    becomes 60. *)
Definition set_thresholds_request : ipmi_msg_t :=
  {| msg_netfn := 0x04; msg_cmd := 0x26; msg_data := [7; 0x10; 0; 0; 0; 0; 60; 0];
     msg_data_len := 8 |}.

(** * Properties *)

(** ** Byte buffers *)

Lemma byte_at_set_byte (l : list Z) (i j v : Z) :
  byte_at (set_byte l i v) j =
  if bool_decide (i = j ∧ 0 <= i < Z.of_nat (length l)) then v else byte_at l j.
Proof.
  unfold byte_at, set_byte.
  case_bool_decide as H.
  - destruct H as [-> [H0 H1]].
    rewrite !decide_False by lia.
    rewrite list_lookup_insert_eq by lia. done.
  - destruct (decide (j < 0)); [by destruct (decide (i < 0))|].
    destruct (decide (i < 0)); [done|].
    destruct (decide (i = j)) as [->|Hne].
    + rewrite list_insert_ge; [done|]. lia.
    + rewrite list_lookup_insert_ne; [done|]. lia.
Qed.

Lemma set_byte_length (l : list Z) (i v : Z) : length (set_byte l i v) = length l.
Proof. unfold set_byte. case_decide; [done|]. apply length_insert. Qed.

Lemma land_shiftr_1 (x i : Z) : Z.land (Z.shiftr x i) 1 = Z.b2z (Z.testbit x i).
Proof.
  change 1 with (Z.ones 1). rewrite Z.land_ones by lia.
  rewrite Z.testbit_odd. change (2 ^ 1) with 2.
  by rewrite <- Z.bit0_mod, Z.bit0_odd.
Qed.

Lemma has_bit_false (v bit : Z) : has_bit v bit = false ↔ Z.land v bit = 0.
Proof. unfold has_bit. rewrite negb_false_iff. apply Z.eqb_eq. Qed.

(** ** Clear SEL *)

(** Whatever Clear SEL does, it does not write [mc->sel.count]. *)
Lemma handle_clear_sel_count now mc msg r mc' r' :
  handle_clear_sel now mc msg r = Some (mc', r') →
  sel_count (mc_sel mc') = sel_count (mc_sel mc).
Proof.
  unfold handle_clear_sel. intros H.
  repeat (case_match; simplify_option_eq; try done).
Qed.

(** An erase leaves the head pointer of a list that was not empty
    dangling. *)
Lemma handle_clear_sel_dangling now mc msg r mc' r' e l :
  sel_entries (mc_sel mc) = Live (e :: l) →
  byte_at (msg_data msg) 5 = 0 →
  handle_clear_sel now mc msg r = Some (mc', r') →
  byte_at (rdata r') 0 = 0 →
  0 < Z.of_nat (length (rdata r)) →
  sel_entries (mc_sel mc') = Dangling.
Proof.
  unfold handle_clear_sel. intros Hl Hop H Hcc Hlen.
  rewrite Hop, Hl in H. simpl in H.
  assert (Hne : ∀ cc, cc ≠ 0 → byte_at (rdata (rsp_cc cc r)) 0 ≠ 0).
  { intros cc Hc. unfold rsp_cc. simpl. rewrite byte_at_set_byte.
    rewrite bool_decide_eq_true_2; [done|lia]. }
  repeat (case_match; simplify_option_eq; try done);
    exfalso; (eapply Hne; [|exact Hcc]); done.
Qed.

(** C1.  The claim asks that Clear SEL with op 0x00 leaves count = 0 and
    that Get SEL Info then reports 0 entries.  In the code the entries are
    freed and [mc->sel.entries] and [mc->sel.count] keep their values: with
    two records in the SEL the command answers [0x00, 0x01] and stamps
    [last_erase_time] (6000 + 1000), the head pointer is left dangling,
    count is still 2, and Get SEL Info reports 2 entries. *)
Theorem clear_sel_count_not_reset :
  ∃ mc mc' r',
    two_records = Some mc ∧
    sel_count (mc_sel mc) = 2 ∧
    handle_clear_sel 6000 mc clear_request (rbuf 0) = Some (mc', r') ∧
    response r' = [0; 1] ∧
    sel_entries (mc_sel mc') = Dangling ∧
    sel_count (mc_sel mc') = 2 ∧
    sel_last_erase_time (mc_sel mc') = 7000 ∧
    take 4 (response (snd (handle_get_sel_info mc' get_info_request (rbuf 0))))
      = [0; 0x51; 2; 0].
Proof.
  do 3 eexists. split; [vm_compute; reflexivity|].
  split; [reflexivity|].
  split; [vm_compute; reflexivity|].
  repeat split; vm_compute; reflexivity.
Qed.

(** ** A wrong reservation *)

Lemma bad_reservation_true msg current :
  supplied_reservation msg ≠ 0 →
  supplied_reservation msg ≠ current →
  bad_reservation msg current = true.
Proof.
  intros H0 Hc. unfold bad_reservation. simpl.
  apply andb_true_intro. split; apply negb_true_iff, Z.eqb_neq; done.
Qed.

(** C2, as stated, fails: Delete SEL Entry on a SEL with reserve support
    but without delete support answers 0xC1 to a request whose reservation
    is neither 0 nor the current one; the capability is checked first. *)
Lemma wrong_reservation_unsupported_delete :
  reserve_supported SEL_DELETE bmc_sel_no_delete = true ∧
  supplied_reservation (delete_request 0x1234 1) ≠ 0 ∧
  supplied_reservation (delete_request 0x1234 1)
    ≠ current_reservation SEL_DELETE bmc_sel_no_delete ∧
  run_mutation SEL_DELETE 0 bmc_sel_no_delete (delete_request 0x1234 1) (rbuf 0)
    = Some (bmc_sel_no_delete, rsp_cc 0xC1 (rbuf 0)) ∧
  response (rsp_cc 0xC1 (rbuf 0)) = [0xC1].
Proof. repeat split; vm_compute; congruence. Qed.

(** C2, amended.  For each of the five mutations, on a repository with
    reserve support and for a request that passes the checks the handler
    makes before it looks at the reservation, a reservation that is neither
    0 nor the current one gives the completion code 0xC5 in a response of
    one byte, and the MC (entries, counts, reservation, times, the working
    record of a partial add) is the one before the call. *)
Theorem wrong_reservation_rejected (op : mutation) (now : Z) (mc : lmc_data_t)
    (msg : ipmi_msg_t) (r : rsp_t) :
  earlier_checks_pass op mc msg = true →
  reserve_supported op mc = true →
  supplied_reservation msg ≠ 0 →
  supplied_reservation msg ≠ current_reservation op mc →
  run_mutation op now mc msg r = Some (mc, rsp_cc 0xC5 r).
Proof.
  intros Hchk Hres H0 Hcur.
  pose proof (bad_reservation_true msg _ H0 Hcur) as Hbad.
  destruct op; simpl in *;
    repeat (apply andb_true_iff in Hchk as [Hchk ?]);
    repeat match goal with
           | H : negb (check_msg_length _ _) = true |- _ => apply negb_true_iff in H
           end.
  - unfold handle_delete_sel_entry. by rewrite Hchk, H1, H, Hres, Hbad.
  - unfold handle_clear_sel. by rewrite Hchk, H, Hres, Hbad.
  - unfold handle_delete_sdr. by rewrite Hchk, H, Hres, Hbad.
  - unfold handle_clear_sdr_repository. by rewrite Hchk, H, Hres, Hbad.
  - unfold handle_partial_add_sdr. by rewrite Hchk, H, Hres, Hbad.
Qed.

(** The theorem at a Delete SEL Entry with reservation 0x1234 on the SEL
    with two records, whose reservation is 0. *)
Lemma wrong_reservation_rejected_witness :
  ∃ mc,
    two_records = Some mc ∧
    run_mutation SEL_DELETE 0 mc (delete_request 0x1234 1) (rbuf 0)
      = Some (mc, rsp_cc 0xC5 (rbuf 0)).
Proof.
  eexists. split; [vm_compute; reflexivity|].
  apply wrong_reservation_rejected.
  - vm_compute; reflexivity.
  - vm_compute; reflexivity.
  - vm_compute; congruence.
  - vm_compute; congruence.
Defined.

(** ** Record ids *)

(** The SEL loop is left only at a record id no entry holds, and only
    with [next_entry] not 0. *)
Lemma sel_alloc_loop_fresh fuel l start record_id next_entry record_id' next_entry' :
  sel_alloc_loop fuel l start record_id next_entry
    = Some (Assigned record_id' next_entry') →
  find_sel_event_by_recid l record_id' = None ∧ next_entry' ≠ 0.
Proof.
  revert record_id next_entry.
  induction fuel as [|fuel IH]; intros record_id next_entry; simpl;
    (case_bool_decide as Hn; simpl;
     [|case_bool_decide as Hf;
       [|intros Heq; inversion Heq; subst; split; [|done];
         by destruct (find_sel_event_by_recid l record_id'); [destruct Hf|]]]);
    try done; case_bool_decide; try done; apply IH.
Qed.

(** The SDR loop is left only at a record id no record holds. *)
Lemma sdr_alloc_loop_fresh fuel l start next_entry record_id next_entry' :
  sdr_alloc_loop fuel l start next_entry = Some (Assigned record_id next_entry') →
  find_sdr_by_recid l record_id = None.
Proof.
  revert next_entry.
  induction fuel as [|fuel IH]; intros next_entry; simpl;
    (case_bool_decide as Hf;
     [|intros Heq; inversion Heq; subst;
       by destruct (find_sdr_by_recid l record_id); [destruct Hf|]]);
    try done; case_bool_decide; try done; apply IH.
Qed.

(** With [next_entry] not 0 and the record id free the SEL loop does not
    run its body. *)
Lemma sel_alloc_loop_exit fuel l start record_id next_entry :
  next_entry ≠ 0 →
  find_sel_event_by_recid l record_id = None →
  sel_alloc_loop fuel l start record_id next_entry = Some (Assigned record_id next_entry).
Proof.
  intros Hn Hf. destruct fuel; simpl; rewrite Hf;
    rewrite (bool_decide_eq_false_2 (next_entry = 0)) by done;
    rewrite bool_decide_eq_false_2; try done; by intros [? ?].
Qed.

(** The SEL loop comes to an end within the fuel: the record id is back
    at [start_record_id] after 65536 increments at the latest. *)
Lemma sel_alloc_loop_fuel fuel l start record_id next_entry :
  0 <= start < 65536 →
  0 <= record_id < 65536 →
  (start - record_id - 1) mod 65536 + 1 <= Z.of_nat fuel →
  is_Some (sel_alloc_loop fuel l start record_id next_entry).
Proof.
  intros Hs. revert record_id next_entry.
  induction fuel as [|fuel IH]; intros record_id next_entry Hr Hm.
  - exfalso. pose proof (Z.mod_pos_bound (start - record_id - 1) 65536). lia.
  - cbn [sel_alloc_loop].
    destruct (bool_decide (next_entry = 0)
              || bool_decide (is_Some (find_sel_event_by_recid l record_id)));
      [|by eexists].
    case_bool_decide as Hw; [by eexists|].
    apply IH.
    + unfold u16. apply Z.mod_pos_bound. lia.
    + unfold u16 in *. rewrite Nat2Z.inj_succ in Hm. clear IH.
      revert Hm Hw. generalize (Z.of_nat fuel). intros f Hm Hw.
      Z.div_mod_to_equations. lia.
Qed.

Lemma sel_alloc_fuel_Z : Z.of_nat sel_alloc_fuel = 65536.
Proof. unfold sel_alloc_fuel. lia. Qed.

(** [ipmi_mc_add_to_sel] has a result whenever the list of entries is
    there to be walked. *)
Lemma ipmi_mc_add_to_sel_defined t_stack now mc record_type event l :
  sel_entries (mc_sel mc) = Live l →
  0 <= sel_next_entry (mc_sel mc) < 65536 →
  is_Some (ipmi_mc_add_to_sel t_stack now mc record_type event).
Proof.
  intros Hl Hn.
  assert (Hfuel : (sel_next_entry (mc_sel mc) - sel_next_entry (mc_sel mc) - 1)
                    mod 65536 + 1 <= Z.of_nat sel_alloc_fuel).
  { rewrite sel_alloc_fuel_Z.
    replace (sel_next_entry (mc_sel mc) - sel_next_entry (mc_sel mc) - 1) with (-1) by lia.
    done. }
  pose proof (sel_alloc_loop_fuel sel_alloc_fuel l (sel_next_entry (mc_sel mc))
                (sel_next_entry (mc_sel mc)) (u16 (sel_next_entry (mc_sel mc) + 1))
                Hn Hn Hfuel) as Hloop.
  clear Hfuel. unfold ipmi_mc_add_to_sel.
  revert Hloop. generalize sel_alloc_fuel. intros fuel [a Ha].
  destruct (negb (has_bit (mc_device_support mc) IPMI_DEVID_SEL_DEVICE)); [by eexists|].
  case_bool_decide; [by eexists|].
  rewrite Hl. cbn [nodes mbind option_bind].
  rewrite Ha. cbn [mbind option_bind]. destruct a; by eexists.
Qed.

(** An add keeps count equal to the number of entries. *)
Lemma ipmi_mc_add_to_sel_count t_stack now mc record_type event mc' rv l :
  sel_entries (mc_sel mc) = Live l →
  sel_count (mc_sel mc) = Z.of_nat (length l) →
  ipmi_mc_add_to_sel t_stack now mc record_type event = Some (mc', rv) →
  ∃ l', sel_entries (mc_sel mc') = Live l' ∧
        sel_count (mc_sel mc') = Z.of_nat (length l').
Proof.
  intros Hl Hc. unfold ipmi_mc_add_to_sel. generalize sel_alloc_fuel. intros fuel H.
  rewrite Hl in H. cbn [nodes mbind option_bind] in H.
  repeat (case_match; simplify_option_eq; try done); try (by exists l).
  all: eexists; (split; [reflexivity|]); rewrite length_app; cbn [length]; lia.
Qed.

(** With [next_entry] at 0xffff and no entry of record id 0 the loop runs
    its body once, because [next_entry] became 0, and is left with the
    record id 0. *)
Lemma sel_alloc_loop_wrap fuel l :
  find_sel_event_by_recid l 0 = None →
  sel_alloc_loop (S fuel) l 0xffff 0xffff 0 = Some (Assigned 0 1).
Proof.
  intros Hf. cbn [sel_alloc_loop].
  rewrite (bool_decide_eq_true_2 (0 = 0)) by done. cbn [orb].
  change (u16 (0xffff + 1)) with 0. change (u16 (0 + 1)) with 1.
  rewrite (bool_decide_eq_false_2 (0 = 0xffff)) by done.
  apply sel_alloc_loop_exit; done.
Qed.

Lemma sel_alloc_fuel_S : sel_alloc_fuel = S (Z.to_nat 65535).
Proof. unfold sel_alloc_fuel. lia. Qed.

Lemma sel_adds_S t_stack now n mc :
  sel_adds t_stack now (S n) mc =
  (mc ← sel_adds t_stack now n mc;
   fst <$> ipmi_mc_add_to_sel t_stack now mc 0x02 (replicate 13 0)).
Proof. reflexivity. Qed.

(** An add that finds [next_entry] free and not followed by 0. *)
Lemma ipmi_mc_add_to_sel_next t_stack now mc l record_type event :
  has_bit (mc_device_support mc) IPMI_DEVID_SEL_DEVICE = true →
  sel_count (mc_sel mc) < sel_max_count (mc_sel mc) →
  sel_entries (mc_sel mc) = Live l →
  find_sel_event_by_recid l (sel_next_entry (mc_sel mc)) = None →
  u16 (sel_next_entry (mc_sel mc) + 1) ≠ 0 →
  ∃ mc' e,
    ipmi_mc_add_to_sel t_stack now mc record_type event = Some (mc', E_OK) ∧
    mc_device_support mc' = mc_device_support mc ∧
    sel_entries (mc_sel mc') = Live (l ++ [e]) ∧
    se_record_id e = sel_next_entry (mc_sel mc) ∧
    sel_count (mc_sel mc') = sel_count (mc_sel mc) + 1 ∧
    sel_max_count (mc_sel mc') = sel_max_count (mc_sel mc) ∧
    sel_next_entry (mc_sel mc') = u16 (sel_next_entry (mc_sel mc) + 1).
Proof.
  intros Hdev Hc Hl Hf Hn. unfold ipmi_mc_add_to_sel.
  generalize sel_alloc_fuel. intros fuel.
  rewrite Hdev. cbn [negb]. rewrite bool_decide_eq_false_2 by lia.
  rewrite Hl. cbn [nodes mbind option_bind].
  rewrite sel_alloc_loop_exit by done. cbn [mbind option_bind].
  eexists _, _. split; [reflexivity|]. repeat split.
Qed.

(** An add that finds [next_entry] at 0xffff and no entry of id 0. *)
Lemma ipmi_mc_add_to_sel_wrap t_stack now mc l record_type event :
  has_bit (mc_device_support mc) IPMI_DEVID_SEL_DEVICE = true →
  sel_count (mc_sel mc) < sel_max_count (mc_sel mc) →
  sel_entries (mc_sel mc) = Live l →
  sel_next_entry (mc_sel mc) = 0xffff →
  find_sel_event_by_recid l 0 = None →
  ∃ mc' e,
    ipmi_mc_add_to_sel t_stack now mc record_type event = Some (mc', E_OK) ∧
    sel_entries (mc_sel mc') = Live (l ++ [e]) ∧
    se_record_id e = 0 ∧
    take 2 (se_data e) = [0; 0].
Proof.
  intros Hdev Hc Hl Hn Hf. unfold ipmi_mc_add_to_sel.
  rewrite sel_alloc_fuel_S. generalize (Z.to_nat 65535). intros fuel.
  rewrite Hdev. cbn [negb]. rewrite bool_decide_eq_false_2 by lia.
  rewrite Hl. cbn [nodes mbind option_bind]. rewrite Hn.
  change (u16 (0xffff + 1)) with 0.
  rewrite sel_alloc_loop_wrap by done. cbn [mbind option_bind].
  eexists _, _. split; [reflexivity|]. split; [reflexivity|]. split; [reflexivity|].
  cbn [se_data]. case_bool_decide; reflexivity.
Qed.

(** After [n] adds to the SEL as [ipmi_mc_enable_sel] leaves it, the record
    ids 1 to [n] are in use and [next_entry] is [n + 1]. *)
Lemma sel_adds_state t_stack now mc0 max_entries flags (n : nat) :
  has_bit (mc_device_support mc0) IPMI_DEVID_SEL_DEVICE = true →
  65535 <= max_entries →
  Z.of_nat n <= 65534 →
  ∃ mc l,
    sel_adds t_stack now n (ipmi_mc_enable_sel mc0 max_entries flags) = Some mc ∧
    mc_device_support mc = mc_device_support mc0 ∧
    sel_entries (mc_sel mc) = Live l ∧
    Forall (fun e => 1 <= se_record_id e <= Z.of_nat n) l ∧
    sel_count (mc_sel mc) = Z.of_nat n ∧
    sel_max_count (mc_sel mc) = max_entries ∧
    sel_next_entry (mc_sel mc) = Z.of_nat n + 1.
Proof.
  intros Hdev Hmax. induction n as [|n IH]; intros Hn.
  - eexists _, []. simpl. repeat split; done.
  - destruct IH as (mc & l & Hrun & Hd & Hl & Hids & Hc & Hm & Hnext); [lia|].
    assert (Hu : u16 (sel_next_entry (mc_sel mc) + 1) = Z.of_nat n + 2).
    { rewrite Hnext. unfold u16. rewrite Z.mod_small by lia. lia. }
    destruct (ipmi_mc_add_to_sel_next t_stack now mc l 0x02 (replicate 13 0))
      as (mc' & e & Hadd & Hd' & Hl' & He & Hc' & Hm' & Hnext'); try done.
    { rewrite Hd. done. }
    { lia. }
    { apply list_find_None. eapply Forall_impl; [exact Hids|]. cbn. lia. }
    { lia. }
    exists mc', (l ++ [e]).
    rewrite sel_adds_S, Hrun. cbn [mbind option_bind]. rewrite Hadd.
    split; [done|]. split; [congruence|]. split; [done|].
    split; [|repeat split; lia].
    apply Forall_app. split.
    + eapply Forall_impl; [exact Hids|]. cbn. lia.
    + apply Forall_singleton. lia.
Qed.

(** The 65535th add to a SEL of at least 65535 entries gets the record
    id 0. *)
Lemma sel_record_id_zero_after_wrap t_stack now mc0 max_entries flags :
  has_bit (mc_device_support mc0) IPMI_DEVID_SEL_DEVICE = true →
  65535 <= max_entries →
  ∃ mc mc' l e,
    sel_adds t_stack now (Z.to_nat 65534) (ipmi_mc_enable_sel mc0 max_entries flags)
      = Some mc ∧
    ipmi_mc_add_to_sel t_stack now mc 0x02 (replicate 13 0) = Some (mc', E_OK) ∧
    sel_entries (mc_sel mc') = Live (l ++ [e]) ∧
    se_record_id e = 0 ∧
    take 2 (se_data e) = [0; 0].
Proof.
  intros Hdev Hmax.
  assert (Hn : Z.of_nat (Z.to_nat 65534) = 65534) by lia.
  revert Hn. generalize (Z.to_nat 65534). intros n Hn.
  destruct (sel_adds_state t_stack now mc0 max_entries flags n Hdev Hmax)
    as (mc & l & Hrun & Hd & Hl & Hids & Hc & Hm & Hnext); [lia|].
  rewrite Hn in *.
  destruct (ipmi_mc_add_to_sel_wrap t_stack now mc l 0x02 (replicate 13 0))
    as (mc' & e & Hadd & Hl' & He & Hdata).
  - rewrite Hd. exact Hdev.
  - lia.
  - exact Hl.
  - rewrite Hnext. reflexivity.
  - apply list_find_None. eapply Forall_impl; [exact Hids|]. cbn. lia.
  - exists mc, mc', l, e. repeat split; assumption.
Qed.

(** C3.  The claim asks that no add assigns the record id 0.  A repository
    starts, in [ipmi_emu_add_mc], with [next_entry] 0, and [new_sdr_entry]
    takes [next_entry] when no record holds it: the first Add SDR to a new
    MC answers with the record id 0 and stores a record of id 0.  The SEL
    starts at 1 in [ipmi_mc_enable_sel]; its loop tests [next_entry] for 0
    and steps the record id, so that the add that finds [next_entry] at
    0xffff, the 65535th to a SEL of that size, gets the record id 0. *)
Theorem record_id_zero_assigned :
  (∃ mc' r',
     handle_add_sdr 2000 bmc add_sdr_request (rbuf 0x1234) = Some (mc', r') ∧
     response r' = [0; 0; 0] ∧
     sdrs_sdrs (mc_main_sdrs mc')
       = Live [{| sdr_record_id := 0; sdr_length := 8;
                  sdr_data := [0; 0; 0x51; 0x01; 0x00; 0x02; 0xAA; 0xBB] |}]) ∧
  (∃ mc mc' l e,
     sel_adds 0xDEADBEEF 5000 (Z.to_nat 65534) (ipmi_mc_enable_sel bmc 65535 0xb)
       = Some mc ∧
     ipmi_mc_add_to_sel 0xDEADBEEF 5000 mc 0x02 (replicate 13 0) = Some (mc', E_OK) ∧
     sel_entries (mc_sel mc') = Live (l ++ [e]) ∧
     se_record_id e = 0 ∧
     take 2 (se_data e) = [0; 0]).
Proof.
  split.
  - do 2 eexists. repeat split; vm_compute; reflexivity.
  - apply sel_record_id_zero_after_wrap; [vm_compute; reflexivity|lia].
Qed.

(** ** Delete SEL Entry *)

(** Whatever Delete SEL Entry does, it does not write [mc->sel.count]. *)
Lemma handle_delete_sel_entry_count mc msg r mc' r' :
  handle_delete_sel_entry mc msg r = Some (mc', r') →
  sel_count (mc_sel mc') = sel_count (mc_sel mc).
Proof.
  unfold handle_delete_sel_entry. intros H.
  repeat (case_match; simplify_option_eq; try done).
Qed.

(** A delete that finds its entry takes it out of the list. *)
Lemma handle_delete_sel_entry_unlinks mc msg r l i e :
  earlier_checks_pass SEL_DELETE mc msg = true →
  (has_bit (sel_flags (mc_sel mc)) IPMI_SEL_SUPPORTS_RESERVE
   && bad_reservation msg (sel_reservation (mc_sel mc))) = false →
  sel_entries (mc_sel mc) = Live l →
  sel_locate l (u16 (ipmi_get_uint16 (msg_data msg) 2)) = Some (i, e) →
  ∃ mc' r',
    handle_delete_sel_entry mc msg r = Some (mc', r') ∧
    sel_entries (mc_sel mc') = Live (delete i l) ∧
    sel_count (mc_sel mc') = sel_count (mc_sel mc).
Proof.
  intros Hchk Hres Hl Hloc. unfold handle_delete_sel_entry.
  simpl in Hchk. repeat (apply andb_true_iff in Hchk as [Hchk ?]).
  match goal with H : negb _ = true |- _ => apply negb_true_iff in H; rewrite H end.
  rewrite Hchk, H0, Hres, Hl. simpl. rewrite Hloc.
  eexists _, _. split; [reflexivity|]. done.
Qed.

(** C4.  The claim asks that count is the number of entries after every
    SEL operation, a delete in particular.  Delete SEL Entry unlinks and
    frees the entry and does not touch [mc->sel.count]
    ([handle_delete_sdr] has the [sdr_count--]): after one add and the
    delete of the first entry the SEL has no entry and count 1. *)
Theorem delete_sel_entry_keeps_count :
  ∃ mc mc' r',
    one_record = Some mc ∧
    (∃ e, sel_entries (mc_sel mc) = Live [e]) ∧
    sel_count (mc_sel mc) = 1 ∧
    handle_delete_sel_entry mc (delete_request 0 0) (rbuf 0) = Some (mc', r') ∧
    response r' = [0; 1; 0] ∧
    sel_entries (mc_sel mc') = Live [] ∧
    sel_count (mc_sel mc') = 1.
Proof.
  do 3 eexists. split; [vm_compute; reflexivity|].
  split; [eexists; vm_compute; reflexivity|].
  repeat split; vm_compute; reflexivity.
Qed.

(** ** Add SEL Entry *)

(** The record of a system event: bytes 3 to 6 are the little-endian bytes
    of what [t] held when the function was entered, for any clock and any
    time offset; bytes 7 to 15 are the bytes 4 to 12 of the event. *)
Lemma ipmi_mc_add_to_sel_stamp t_stack now mc record_type event mc' l e :
  record_type < 0xe0 →
  ipmi_mc_add_to_sel t_stack now mc record_type event = Some (mc', E_OK) →
  sel_entries (mc_sel mc') = Live (l ++ [e]) →
  read_bytes (se_data e) 3 4 =
    [Z.land t_stack 255; Z.land (Z.shiftr t_stack 8) 255;
     Z.land (Z.shiftr t_stack 16) 255; Z.land (Z.shiftr t_stack 24) 255] ∧
  read_bytes (se_data e) 7 9 = read_bytes event 4 9.
Proof.
  intros Ht. unfold ipmi_mc_add_to_sel.
  generalize sel_alloc_fuel. intros fuel H Hl.
  repeat (case_match; simplify_option_eq; try done).
  apply app_inj_tail in Hl as [_ <-]. split; reflexivity.
Qed.

(** The response of Add SEL Entry is one byte, whatever the outcome. *)
Lemma handle_add_sel_entry_response t_stack now mc msg r mc' r' :
  handle_add_sel_entry t_stack now mc msg r = Some (mc', r') →
  rdata_len r' = 1 ∧ ∀ i, i ≠ 0 → byte_at (rdata r') i = byte_at (rdata r) i.
Proof.
  unfold handle_add_sel_entry, handle_invalid_cmd, rsp_cc. intros H.
  repeat (case_match; simplify_option_eq; try done); simpl;
    (split; [done|]); intros i Hi; rewrite byte_at_set_byte;
    rewrite bool_decide_eq_false_2; try done; by intros [? ?].
Qed.

(** C5.  The claim asks for the clock read at add time plus the time
    offset in bytes 3 to 6.  The function stamps the record from [t]
    before its [gettimeofday(&t, NULL)], which comes after the entry is
    linked in, and adds no offset: with the clock at 5000 and the time
    offset 1000 the bytes are those of the 0xDEADBEEF that [t] held, not
    those of 6000 (0x70, 0x17, 0, 0), which [last_add_time] gets.  Bytes 7
    to 15 are the request bytes 10 to 18. *)
Theorem add_sel_entry_stamps_before_clock :
  ∃ mc e,
    one_record = Some mc ∧
    sel_time_offset (mc_sel bmc_sel) = 1000 ∧
    sel_entries (mc_sel mc) = Live [e] ∧
    read_bytes (se_data e) 3 4 = [0xEF; 0xBE; 0xAD; 0xDE] ∧
    read_bytes (se_data e) 3 4 ≠ [0x70; 0x17; 0; 0] ∧
    sel_last_add_time (mc_sel mc) = 6000 ∧
    read_bytes (se_data e) 7 9 = read_bytes (msg_data add_request) 10 9.
Proof.
  do 2 eexists. split; [vm_compute; reflexivity|].
  split; [reflexivity|]. split; [vm_compute; reflexivity|].
  repeat split; vm_compute; congruence.
Qed.

(** C8.  The claim asks for the completion code followed by the new
    record id.  [handle_add_sel_entry] sets [rdata[0]] and
    [*rdata_len = 1] and nothing else ([handle_add_sdr] writes the record
    id at [rdata + 1] and answers 3 bytes): the add that stores record
    id 1 answers the single byte 0x00, and bytes 1 and 2 of the buffer are
    what they were. *)
Theorem add_sel_entry_response_without_record_id :
  ∃ mc' r' e,
    handle_add_sel_entry 0xDEADBEEF 5000 bmc_sel add_request (rbuf 0)
      = Some (mc', r') ∧
    sel_entries (mc_sel mc') = Live [e] ∧
    se_record_id e = 1 ∧
    response r' = [0] ∧
    rdata_len r' = 1 ∧
    read_bytes (rdata r') 1 2 = read_bytes (rdata (rbuf 0)) 1 2.
Proof.
  do 3 eexists. split; [vm_compute; reflexivity|].
  repeat split; vm_compute; reflexivity.
Qed.

(** ** Partial Add SDR *)

(** Without the capability bit of the repository the handler refuses
    whatever the request holds: after the device check the next test is
    the one of [IPMI_SDR_PARTIAL_ADD_SDR_SUPPORTED]. *)
Lemma handle_partial_add_sdr_unsupported (now : Z) (mc : lmc_data_t) (msg : ipmi_msg_t)
    (r : rsp_t) :
  has_bit (sdrs_flags (mc_main_sdrs mc)) IPMI_SDR_PARTIAL_ADD_SDR_SUPPORTED = false →
  handle_partial_add_sdr now mc msg r = Some (mc, rsp_cc 0xC1 r).
Proof.
  intros Hcap. unfold handle_partial_add_sdr, handle_invalid_cmd.
  rewrite Hcap. by destruct (negb _).
Qed.




Lemma rsp_cc_byte0 cc r :
  0 < Z.of_nat (length (rdata r)) → byte_at (rdata (rsp_cc cc r)) 0 = cc.
Proof.
  intros Hlen. unfold rsp_cc. simpl. rewrite byte_at_set_byte.
  rewrite bool_decide_eq_true_2; [done|lia].
Qed.

(** ** Set Sensor Event Enable *)

(** C10.  A Set Sensor Event Enable request of at least the two bytes that
    hold the sensor number and the flags, for a sensor that exists and
    whose event support is per-event or entire-sensor, with op 0 in bits 4
    and 5 of the flags: in the sensor the handler leaves behind,
    [events_enabled] is bit 7 and [scanning_enabled] is bit 6 of the flags
    and every other field is as it was; no other sensor and nothing else of
    the MC changes; and the handler returns the response buffer and
    [*rdata_len] as it got them: no completion code and no length is
    written.  The four event support codes are any four distinct values. *)
Theorem set_sensor_event_enable_op0_no_response
    (IPMI_EVENT_SUPPORT_PER_STATE IPMI_EVENT_SUPPORT_ENTIRE_SENSOR
     IPMI_EVENT_SUPPORT_GLOBAL_ENABLE IPMI_EVENT_SUPPORT_NONE : Z)
    (mc : lmc_data_t) (lun : Z) (msg : ipmi_msg_t) (r : rsp_t) (sensor : sensor_t) :
  NoDup [IPMI_EVENT_SUPPORT_PER_STATE; IPMI_EVENT_SUPPORT_ENTIRE_SENSOR;
         IPMI_EVENT_SUPPORT_GLOBAL_ENABLE; IPMI_EVENT_SUPPORT_NONE] →
  2 <= msg_data_len msg →
  byte_at (msg_data msg) 0 < 255 →
  mc_sensors mc !! (lun, byte_at (msg_data msg) 0) = Some sensor →
  s_event_support sensor = IPMI_EVENT_SUPPORT_PER_STATE
  ∨ s_event_support sensor = IPMI_EVENT_SUPPORT_ENTIRE_SENSOR →
  Z.land (Z.shiftr (byte_at (msg_data msg) 1) 4) 0x3 = 0 →
  ∃ mc' sensor',
    handle_set_sensor_event_enable
      IPMI_EVENT_SUPPORT_ENTIRE_SENSOR IPMI_EVENT_SUPPORT_GLOBAL_ENABLE
      IPMI_EVENT_SUPPORT_NONE mc lun msg r = Some (mc', r) ∧
    mc_sensors mc' !! (lun, byte_at (msg_data msg) 0) = Some sensor' ∧
    s_events_enabled sensor' = Z.land (Z.shiftr (byte_at (msg_data msg) 1) 7) 1 ∧
    s_scanning_enabled sensor' = Z.land (Z.shiftr (byte_at (msg_data msg) 1) 6) 1 ∧
    sensor' =
      {| s_num := s_num sensor; s_lun := s_lun sensor;
         s_scanning_enabled := Z.land (Z.shiftr (byte_at (msg_data msg) 1) 6) 1;
         s_events_enabled := Z.land (Z.shiftr (byte_at (msg_data msg) 1) 7) 1;
         s_sensor_type := s_sensor_type sensor;
         s_event_reading_code := s_event_reading_code sensor;
         s_value := s_value sensor;
         s_hysteresis_support := s_hysteresis_support sensor;
         s_positive_hysteresis := s_positive_hysteresis sensor;
         s_negative_hysteresis := s_negative_hysteresis sensor;
         s_threshold_support := s_threshold_support sensor;
         s_threshold_supported := s_threshold_supported sensor;
         s_thresholds := s_thresholds sensor;
         s_event_support := s_event_support sensor;
         s_event_supported := s_event_supported sensor;
         s_event_enabled := s_event_enabled sensor;
         s_event_status := s_event_status sensor |} ∧
    (∀ key, key ≠ (lun, byte_at (msg_data msg) 0) →
            mc_sensors mc' !! key = mc_sensors mc !! key) ∧
    mc_sel mc' = mc_sel mc ∧ mc_main_sdrs mc' = mc_main_sdrs mc ∧
    mc_part_add_sdr mc' = mc_part_add_sdr mc ∧
    mc_event_receiver mc' = mc_event_receiver mc ∧
    mc_device_support mc' = mc_device_support mc ∧
    mc_power_value mc' = mc_power_value mc.
Proof.
  intros Hnd Hlen Hnum Hs Hsup Hop.
  assert (s_event_support sensor ≠ IPMI_EVENT_SUPPORT_NONE ∧
          s_event_support sensor ≠ IPMI_EVENT_SUPPORT_GLOBAL_ENABLE) as [Hn Hg].
  { apply NoDup_cons in Hnd as [Hp Hnd]. apply NoDup_cons in Hnd as [He Hnd].
    apply NoDup_cons in Hnd as [Hgl _].
    repeat rewrite elem_of_cons in Hp. repeat rewrite elem_of_cons in He.
    destruct Hsup as [H | H]; rewrite H; split; intros Heq; tauto. }
  unfold handle_set_sensor_event_enable, check_msg_length.
  rewrite bool_decide_eq_false_2 by lia.
  rewrite bool_decide_eq_false_2 by lia.
  rewrite Hs.
  apply Z.eqb_neq in Hn, Hg. rewrite Hn, Hg, Hop. simpl.
  rewrite andb_false_r.
  do 2 eexists. split; [reflexivity|]. simpl.
  split; [apply lookup_insert_eq|].
  split; [reflexivity|]. split; [reflexivity|]. split; [reflexivity|].
  split; [|done].
  intros key Hkey. by rewrite lookup_insert_ne.
Qed.

(** The theorem at the request with flags 0xC0 for sensor 7 of LUN 0, as
    [ipmi_mc_add_sensor] creates it (events and scanning off, per-event
    support), with the codes 0 to 3: both flags of the sensor go from 0 to
    1 and the response buffer comes back untouched. *)
Lemma set_sensor_event_enable_op0_no_response_witness :
  let mc := fst (ipmi_mc_add_sensor bmc 0 7 1 1) in
  (∃ s, mc_sensors mc !! (0, 7) = Some s ∧
        s_events_enabled s = 0 ∧ s_scanning_enabled s = 0) ∧
  ∃ mc' sensor',
    handle_set_sensor_event_enable 1 2 3 mc 0 event_enable_request (rbuf 0)
      = Some (mc', rbuf 0) ∧
    mc_sensors mc' !! (0, 7) = Some sensor' ∧
    s_events_enabled sensor' = 1 ∧
    s_scanning_enabled sensor' = 1.
Proof.
  intros mc. split; [eexists; repeat split; vm_compute; reflexivity|].
  destruct (set_sensor_event_enable_op0_no_response 0 1 2 3
              mc 0 event_enable_request (rbuf 0)
              {| s_num := 7; s_lun := 0; s_scanning_enabled := 0;
                 s_events_enabled := 0; s_sensor_type := 1;
                 s_event_reading_code := 1; s_value := 0;
                 s_hysteresis_support := 0; s_positive_hysteresis := 0;
                 s_negative_hysteresis := 0; s_threshold_support := 0;
                 s_threshold_supported := replicate 6 0; s_thresholds := replicate 6 0;
                 s_event_support := 0;
                 s_event_supported := (replicate 15 0, replicate 15 0);
                 s_event_enabled := (replicate 15 0, replicate 15 0);
                 s_event_status := replicate 15 0 |})
    as (mc' & sensor' & Hrun & Hs & Hev & Hsc & _).
  - repeat constructor; rewrite ?elem_of_cons, ?elem_of_nil; lia.
  - vm_compute; congruence.
  - vm_compute; reflexivity.
  - vm_compute; reflexivity.
  - left; reflexivity.
  - vm_compute; reflexivity.
  - exists mc', sensor'. split; [exact Hrun|]. split; [exact Hs|].
    split; [exact Hev|exact Hsc].
Defined.

(** ** Threshold evaluation *)

Lemma lower_bits_eq s acc i :
  i < 3 →
  lower_bits s acc i =
  (Z.lor (fst acc) (bit_if (want_set s i) i), Z.lor (snd acc) (bit_if (want_clear s i) i)).
Proof.
  intros Hi. unfold lower_bits, want_set, want_clear, bit_if.
  rewrite (bool_decide_eq_true_2 (i < 3)) by done.
  destruct acc as [a b]; simpl.
  destruct (byte_at (s_threshold_supported s) i =? 0); simpl;
    [by rewrite !Z.lor_0_r|].
  repeat case_bool_decide; simpl; by rewrite ?Z.lor_0_r.
Qed.

Lemma upper_bits_eq s acc i :
  3 <= i →
  upper_bits s acc i =
  (Z.lor (fst acc) (bit_if (want_set s i) i), Z.lor (snd acc) (bit_if (want_clear s i) i)).
Proof.
  intros Hi. unfold upper_bits, want_set, want_clear, bit_if.
  rewrite (bool_decide_eq_false_2 (i < 3)) by lia.
  destruct acc as [a b]; simpl.
  destruct (byte_at (s_threshold_supported s) i =? 0); simpl;
    [by rewrite !Z.lor_0_r|].
  repeat case_bool_decide; simpl; by rewrite ?Z.lor_0_r.
Qed.

Lemma testbit_bit_if b i j :
  0 <= i → 0 <= j → Z.testbit (bit_if b j) i = b && (i =? j).
Proof.
  intros Hi Hj. unfold bit_if. destruct b; simpl; [|apply Z.bits_0].
  rewrite Z.shiftl_1_l, Z.pow2_bits_eqb by done. by rewrite Z.eqb_sym.
Qed.

(** Bit [i] of [bits_to_set] and of [bits_to_clear]. *)
Lemma threshold_bits_spec s i :
  0 <= i < 6 →
  Z.land (Z.shiftr (fst (threshold_bits s)) i) 1 = Z.b2z (want_set s i) ∧
  Z.land (Z.shiftr (snd (threshold_bits s)) i) 1 = Z.b2z (want_clear s i).
Proof.
  intros Hi. rewrite !land_shiftr_1. unfold threshold_bits. simpl.
  rewrite !upper_bits_eq, !lower_bits_eq by lia. simpl.
  rewrite !Z.lor_spec, !testbit_bit_if, Z.bits_0 by lia.
  assert (i = 0 ∨ i = 1 ∨ i = 2 ∨ i = 3 ∨ i = 4 ∨ i = 5) as Hc by lia.
  destruct Hc as [ -> | [ -> | [ -> | [ -> | [ -> | -> ] ] ] ] ]; simpl;
    rewrite ?andb_false_r, ?andb_true_r, ?orb_false_r; done.
Qed.

(** A round changes the status bytes only. *)
Lemma threshold_round_frame bits e st j :
  fst (threshold_round bits e st j) =
  set_s_event_status (fst st) (s_event_status (fst (threshold_round bits e st j))).
Proof.
  unfold threshold_round. destruct st as [s evs]; simpl.
  repeat case_match; simpl; try done. by destruct s.
Qed.

Lemma threshold_round_length bits e st j :
  length (s_event_status (fst (threshold_round bits e st j))) =
  length (s_event_status (fst st)).
Proof.
  unfold threshold_round. repeat case_match; simpl; by rewrite ?set_byte_length.
Qed.

(** The status bytes after round [j]. *)
Lemma threshold_round_status bits e st j i :
  byte_at (s_event_status (fst (threshold_round bits e st j))) i =
  if bool_decide (i = j) then
    round_value (negb (Z.land (Z.shiftr (fst bits) j) 1 =? 0))
                (negb (Z.land (Z.shiftr (snd bits) j) 1 =? 0))
                (bool_decide (0 <= j < Z.of_nat (length (s_event_status (fst st)))))
                (byte_at (s_event_status (fst st)) j)
  else byte_at (s_event_status (fst st)) i.
Proof.
  unfold threshold_round, round_value.
  set (l := s_event_status (fst st)).
  destruct (negb (Z.land (Z.shiftr (fst bits) j) 1 =? 0) && (byte_at l j =? 0)) eqn:Hs.
  - simpl. rewrite byte_at_set_byte.
    destruct (decide (i = j)) as [->|Hne].
    + rewrite (bool_decide_eq_true_2 (j = j)) by done.
      repeat case_bool_decide; try done; exfalso; tauto.
    + rewrite (bool_decide_eq_false_2 (i = j)) by done.
      rewrite bool_decide_eq_false_2; [done|]. intros [? ?]. by subst.
  - destruct (negb (Z.land (Z.shiftr (snd bits) j) 1 =? 0) && negb (byte_at l j =? 0)) eqn:Hc.
    + simpl. rewrite byte_at_set_byte.
      case_bool_decide as H1; case_bool_decide as H2; try done;
        [by destruct H1 as [-> ?]|].
      subst i. apply andb_true_iff in Hc as [_ Hc].
      apply negb_true_iff, Z.eqb_neq in Hc.
      unfold byte_at in Hc |- *. destruct (decide (j < 0)); [done|].
      destruct (l !! Z.to_nat j) eqn:Hl; [|done].
      apply lookup_lt_Some in Hl. exfalso. apply H1. split; [done|lia].
    + by case_bool_decide; subst.
Qed.

Lemma threshold_round_status_ne bits e st j i :
  i ≠ j →
  byte_at (s_event_status (fst (threshold_round bits e st j))) i =
  byte_at (s_event_status (fst st)) i.
Proof. intros. rewrite threshold_round_status. by rewrite bool_decide_eq_false_2. Qed.

Lemma threshold_round_status_eq bits e st j :
  byte_at (s_event_status (fst (threshold_round bits e st j))) j =
  round_value (negb (Z.land (Z.shiftr (fst bits) j) 1 =? 0))
              (negb (Z.land (Z.shiftr (snd bits) j) 1 =? 0))
              (bool_decide (0 <= j < Z.of_nat (length (s_event_status (fst st)))))
              (byte_at (s_event_status (fst st)) j).
Proof. rewrite threshold_round_status. by rewrite bool_decide_eq_true_2. Qed.

Lemma set_s_event_status_twice s a b :
  set_s_event_status (set_s_event_status s a) b = set_s_event_status s b.
Proof. done. Qed.

Lemma rounds_frame bits e js st :
  fst (foldl (threshold_round bits e) st js) =
  set_s_event_status (fst st) (s_event_status (fst (foldl (threshold_round bits e) st js))).
Proof.
  revert st. induction js as [|j js IH]; intros st; simpl.
  - by destruct st as [[] ?].
  - rewrite IH at 1. rewrite threshold_round_frame at 1.
    apply set_s_event_status_twice.
Qed.

(** [check_thresholds] changes the status bytes of the sensor only: the
    value, the thresholds, the supported bits and the hysteresis are those
    it was called with. *)
Lemma check_thresholds_frame s :
  fst (check_thresholds s) =
  set_s_event_status s (s_event_status (fst (check_thresholds s))).
Proof.
  unfold check_thresholds.
  rewrite rounds_frame at 1. rewrite rounds_frame at 1.
  apply set_s_event_status_twice.
Qed.

Lemma check_thresholds_length s :
  length (s_event_status (fst (check_thresholds s))) = length (s_event_status s).
Proof. unfold check_thresholds. simpl. by rewrite !threshold_round_length. Qed.

Lemma b2z_test (b : bool) : negb (Z.b2z b =? 0) = b.
Proof. by destruct b. Qed.

(** The status byte of threshold [i] after [check_thresholds]. *)
Lemma check_thresholds_status s i :
  0 <= i < 6 →
  byte_at (s_event_status (fst (check_thresholds s))) i =
  round_value (want_set s i) (want_clear s i)
              (bool_decide (0 <= i < Z.of_nat (length (s_event_status s))))
              (byte_at (s_event_status s) i).
Proof.
  intros Hi. unfold check_thresholds.
  change (foldl (upper_bits s) (foldl (lower_bits s) (0, 0) [0; 1; 2]) [3; 4; 5])
    with (threshold_bits s).
  simpl.
  assert (i = 0 ∨ i = 1 ∨ i = 2 ∨ i = 3 ∨ i = 4 ∨ i = 5) as Hc by lia.
  destruct Hc as [ -> | [ -> | [ -> | [ -> | [ -> | -> ] ] ] ] ];
    repeat first [ rewrite threshold_round_status_eq
                 | rewrite threshold_round_status_ne by lia ];
    rewrite ?threshold_round_length;
    repeat match goal with
           | |- context [Z.land (Z.shiftr (fst (threshold_bits s)) ?j) 1] =>
               rewrite (proj1 (threshold_bits_spec s j ltac:(lia)))
           | |- context [Z.land (Z.shiftr (snd (threshold_bits s)) ?j) 1] =>
               rewrite (proj2 (threshold_bits_spec s j ltac:(lia)))
           end;
    by rewrite !b2z_test.
Qed.

(** Hysteresis 0: a supported threshold is either asserted or deasserted. *)
Lemma want_clear_no_hysteresis s i :
  s_positive_hysteresis s = 0 → s_negative_hysteresis s = 0 →
  want_clear s i = negb (byte_at (s_threshold_supported s) i =? 0) && negb (want_set s i).
Proof.
  intros Hp Hn. unfold want_clear, want_set. rewrite Hp, Hn.
  destruct (byte_at (s_threshold_supported s) i =? 0); simpl; [done|].
  repeat case_bool_decide; simpl; try done; lia.
Qed.

(** The status byte of threshold [i] after [ipmi_mc_sensor_set_value]. *)
Lemma sensor_set_value_status s v i :
  0 <= i < 6 →
  byte_at (s_event_status (fst (sensor_set_value s v))) i =
  round_value (want_set (set_s_value s v) i) (want_clear (set_s_value s v) i)
              (bool_decide (0 <= i < Z.of_nat (length (s_event_status s))))
              (byte_at (s_event_status s) i).
Proof. intros Hi. unfold sensor_set_value. by rewrite check_thresholds_status. Qed.

(** A second run sees the value, thresholds, supported bits and hysteresis
    of the first, and the status bytes the first left. *)
Lemma sensor_set_value_again s v1 v2 :
  sensor_set_value (fst (sensor_set_value s v1)) v2 =
  check_thresholds
    (set_s_event_status (set_s_value s v2)
       (s_event_status (fst (sensor_set_value s v1)))).
Proof.
  unfold sensor_set_value.
  generalize (check_thresholds_frame (set_s_value s v1)).
  generalize (fst (check_thresholds (set_s_value s v1))).
  intros s1 Hs1. rewrite Hs1. reflexivity.
Qed.

Lemma sensor_set_value_again_status s v1 v2 i :
  0 <= i < 6 →
  byte_at (s_event_status (fst (sensor_set_value (fst (sensor_set_value s v1)) v2))) i =
  round_value (want_set (set_s_value s v2) i) (want_clear (set_s_value s v2) i)
              (bool_decide (0 <= i < Z.of_nat (length (s_event_status s))))
              (byte_at (s_event_status (fst (sensor_set_value s v1))) i).
Proof.
  intros Hi. rewrite sensor_set_value_again.
  assert (Hlen : length (s_event_status (fst (sensor_set_value s v1)))
                 = length (s_event_status s)).
  { unfold sensor_set_value. by rewrite check_thresholds_length. }
  revert Hlen. generalize (s_event_status (fst (sensor_set_value s v1))).
  intros st1 Hlen. rewrite check_thresholds_status by done.
  cbn [s_event_status set_s_event_status]. rewrite Hlen. reflexivity.
Qed.

(** The two conditions for an upper and for a lower threshold with
    hysteresis 0, in terms of the value. *)
Lemma want_upper s v i :
  3 <= i →
  s_positive_hysteresis s = 0 →
  want_set (set_s_value s v) i =
    negb (byte_at (s_threshold_supported s) i =? 0)
    && bool_decide (v >= byte_at (s_thresholds s) i) ∧
  want_clear (set_s_value s v) i =
    negb (byte_at (s_threshold_supported s) i =? 0)
    && negb (bool_decide (v >= byte_at (s_thresholds s) i)).
Proof.
  intros Hi Hp. unfold want_set, want_clear.
  cbn [s_threshold_supported s_thresholds s_value s_positive_hysteresis set_s_value].
  rewrite (bool_decide_eq_false_2 (i < 3)) by lia. rewrite Hp.
  split; [done|]. f_equal. repeat case_bool_decide; simpl; try done; lia.
Qed.

Lemma want_lower s v i :
  i < 3 →
  s_negative_hysteresis s = 0 →
  want_set (set_s_value s v) i =
    negb (byte_at (s_threshold_supported s) i =? 0)
    && bool_decide (v <= byte_at (s_thresholds s) i) ∧
  want_clear (set_s_value s v) i =
    negb (byte_at (s_threshold_supported s) i =? 0)
    && negb (bool_decide (v <= byte_at (s_thresholds s) i)).
Proof.
  intros Hi Hn. unfold want_set, want_clear.
  cbn [s_threshold_supported s_thresholds s_value s_negative_hysteresis set_s_value].
  rewrite (bool_decide_eq_true_2 (i < 3)) by lia. rewrite Hn.
  split; [done|]. f_equal. repeat case_bool_decide; simpl; try done; lia.
Qed.

(** The rounds on a status byte, for two values [v1 <= v2]. *)
Lemma round_value_upper (sup inr : bool) (th v1 v2 old : Z) :
  v1 <= v2 →
  let run v x := round_value (sup && bool_decide (v >= th))
                             (sup && negb (bool_decide (v >= th))) inr x in
  run v1 old = 1 → run v2 (run v1 old) = 1 ∧ run v2 old = 1.
Proof.
  intros Hv run. subst run. cbv beta. unfold round_value.
  destruct sup, inr; simpl;
    repeat case_bool_decide; simpl; try lia;
    repeat (case_match; simpl; try lia; try done).
Qed.

Lemma round_value_lower (sup inr : bool) (th v1 v2 old : Z) :
  v1 <= v2 →
  let run v x := round_value (sup && bool_decide (v <= th))
                             (sup && negb (bool_decide (v <= th))) inr x in
  run v1 old = 0 → run v2 (run v1 old) = 0 ∧ run v2 old = 0.
Proof.
  intros Hv run. subst run. cbv beta. unfold round_value.
  destruct sup, inr; simpl;
    repeat case_bool_decide; simpl; try lia;
    repeat (case_match; simpl; try lia; try done).
Qed.

(** C9.  For a sensor with hysteresis 0, whose thresholds and supported
    bits the runs do not change, and two values [v1 <= v2]: if the status
    byte of an upper threshold (3 to 5) is 1 after the run with [v1], it is
    1 after the run with [v2], both when the second run follows the first
    and when it starts from the state the first started from; if the
    status byte of a lower threshold (0 to 2) is 0 after the run with
    [v1], it is 0 after the run with [v2]. *)
Theorem check_thresholds_monotone (s : sensor_t) (v1 v2 i : Z) :
  s_positive_hysteresis s = 0 →
  s_negative_hysteresis s = 0 →
  v1 <= v2 →
  let s1 := fst (sensor_set_value s v1) in
  (3 <= i < 6 →
   byte_at (s_event_status s1) i = 1 →
   byte_at (s_event_status (fst (sensor_set_value s1 v2))) i = 1 ∧
   byte_at (s_event_status (fst (sensor_set_value s v2))) i = 1) ∧
  (0 <= i < 3 →
   byte_at (s_event_status s1) i = 0 →
   byte_at (s_event_status (fst (sensor_set_value s1 v2))) i = 0 ∧
   byte_at (s_event_status (fst (sensor_set_value s v2))) i = 0).
Proof.
  intros Hp Hn Hv s1. subst s1. split; intros Hi.
  - rewrite sensor_set_value_again_status by lia.
    rewrite !sensor_set_value_status by lia.
    destruct (want_upper s v1 i) as [-> ->]; [lia|done|].
    destruct (want_upper s v2 i) as [-> ->]; [lia|done|].
    apply round_value_upper. exact Hv.
  - rewrite sensor_set_value_again_status by lia.
    rewrite !sensor_set_value_status by lia.
    destruct (want_lower s v1 i) as [-> ->]; [lia|done|].
    destruct (want_lower s v2 i) as [-> ->]; [lia|done|].
    apply round_value_lower. exact Hv.
Qed.

(** The theorem at the sensor with the upper thresholds 70, 80 and 90 and
    the values 85 and 95: the upper critical threshold (4) stays
    asserted. *)
Lemma check_thresholds_monotone_witness :
  byte_at (s_event_status (fst (sensor_set_value demo_sensor 85))) 4 = 1 ∧
  byte_at (s_event_status
             (fst (sensor_set_value (fst (sensor_set_value demo_sensor 85)) 95))) 4 = 1 ∧
  byte_at (s_event_status (fst (sensor_set_value demo_sensor 95))) 4 = 1.
Proof.
  split; [vm_compute; reflexivity|].
  apply (check_thresholds_monotone demo_sensor 85 95 4).
  - reflexivity.
  - reflexivity.
  - lia.
  - lia.
  - vm_compute; reflexivity.
Defined.

(** ** The sensor inside the emulator *)

(** Adding to a SEL leaves the sensors of the MC alone. *)
Lemma ipmi_mc_add_to_sel_sensors t_stack now mc record_type event mc' rv :
  ipmi_mc_add_to_sel t_stack now mc record_type event = Some (mc', rv) →
  mc_sensors mc' = mc_sensors mc.
Proof.
  unfold ipmi_mc_add_to_sel. generalize sel_alloc_fuel. intros fuel H.
  repeat (case_match; simplify_option_eq; try done).
Qed.

(** An event changes the sensors of no MC. *)
Lemma do_event_sensors t_stack now gen_event k sensor emu ev emu' k' :
  do_event t_stack now gen_event k sensor emu ev = Some emu' →
  mc_sensors <$> (emu_ipmb emu' !! k') = mc_sensors <$> (emu_ipmb emu !! k').
Proof.
  unfold do_event. intros H.
  destruct (emu_ipmb emu !! k) as [mc|]; simpl in H; [|done].
  case_match; [by simplify_eq|].
  destruct (ipmi_emu_get_mc_by_addr emu (mc_event_receiver mc)) as [dest|];
    [|by simplify_eq].
  destruct (emu_ipmb emu !! dest) as [dest_mc|] eqn:Hd; simpl in H; [|done].
  destruct (ipmi_mc_add_to_sel t_stack now dest_mc 2 _) as [[dest_mc' rv]|] eqn:Ha;
    simpl in H; [|done].
  injection H as <-. simpl.
  destruct (decide (dest = k')) as [->|Hne].
  - rewrite lookup_insert_eq, Hd. simpl.
    by rewrite (ipmi_mc_add_to_sel_sensors _ _ _ _ _ _ _ Ha).
  - by rewrite lookup_insert_ne.
Qed.

Lemma do_events_sensors t_stack now gen_event k sensor evs emu emu' k' :
  do_events t_stack now gen_event k sensor emu evs = Some emu' →
  mc_sensors <$> (emu_ipmb emu' !! k') = mc_sensors <$> (emu_ipmb emu !! k').
Proof.
  revert t_stack emu.
  induction evs as [|ev evs IH]; intros t_stack emu; simpl.
  - by intros [= ->].
  - destruct (do_event (t_stack 0%nat) now gen_event k sensor emu ev) as [emu1|] eqn:He;
      simpl; [|done].
    intros H. rewrite (IH _ _ H). by eapply do_event_sensors.
Qed.

(** [ipmi_mc_sensor_set_value] leaves in the MC the sensor that
    [sensor_set_value] computes, whatever events it delivers and to
    whichever MC. *)
Lemma ipmi_mc_sensor_set_value_sensor t_stack now emu k lun sens_num value gen_event emu' :
  ipmi_mc_sensor_set_value t_stack now emu k lun sens_num value gen_event
    = Some (emu', E_OK) →
  ∃ mc s,
    emu_ipmb emu !! k = Some mc ∧
    mc_sensors mc !! (lun, sens_num) = Some s ∧
    mc_sensors <$> (emu_ipmb emu' !! k)
      = Some (<[(lun, sens_num) := fst (sensor_set_value s value)]> (mc_sensors mc)).
Proof.
  unfold ipmi_mc_sensor_set_value. intros H.
  destruct (emu_ipmb emu !! k) as [mc|] eqn:Hmc; simpl in H; [|done].
  case_match; [by simplify_eq|].
  destruct (mc_sensors mc !! (lun, sens_num)) as [s|] eqn:Hs; [|by simplify_eq].
  destruct (sensor_set_value s value) as [s' evs] eqn:Hv.
  match type of H with
  | context [do_events ?a ?b ?c ?d ?e ?f ?g] =>
      destruct (do_events a b c d e f g) as [emu1|] eqn:Hd
  end; simpl in H; [|done].
  injection H as <-.
  exists mc, s. split; [done|]. split; [done|].
  rewrite (do_events_sensors _ _ _ _ _ _ _ _ _ Hd). simpl.
  rewrite lookup_insert_eq, Hv. reflexivity.
Qed.

(** * Further properties *)

(** ** Byte buffers *)

(** A read inside or past the list, by its position. *)
Lemma byte_at_lookup (l : list Z) (i : Z) :
  0 <= i → byte_at l i = default 0 (l !! Z.to_nat i).
Proof. intros Hi. unfold byte_at. destruct (decide (i < 0)); [lia|reflexivity]. Qed.

Lemma length_read_bytes (src : list Z) (off n : Z) :
  length (read_bytes src off n) = Z.to_nat n.
Proof. unfold read_bytes. rewrite length_fmap, length_seqZ. reflexivity. Qed.

Lemma lookup_read_bytes (src : list Z) (off n : Z) (k : nat) :
  (k < Z.to_nat n)%nat →
  read_bytes src off n !! k = Some (byte_at src (off + Z.of_nat k)).
Proof.
  intros Hk. unfold read_bytes. rewrite list_lookup_fmap.
  rewrite lookup_seqZ_lt by lia. cbn. do 2 f_equal. 
Qed.

Lemma byte_at_read_bytes (src : list Z) (off n i : Z) :
  0 <= i < n → byte_at (read_bytes src off n) i = byte_at src (off + i).
Proof.
  intros Hi. rewrite byte_at_lookup by lia.
  rewrite lookup_read_bytes by lia. cbn. f_equal. lia.
Qed.


Lemma read_bytes_ext (a b : list Z) (oa ob n : Z) :
  (∀ i, 0 <= i < n → byte_at a (oa + i) = byte_at b (ob + i)) →
  read_bytes a oa n = read_bytes b ob n.
Proof.
  intros H. apply list_eq. intros k.
  destruct (decide (k < Z.to_nat n)%nat) as [Hk|Hk].
  - rewrite !lookup_read_bytes by lia. f_equal. apply H. lia.
  - rewrite !lookup_ge_None_2; [reflexivity|rewrite length_read_bytes; lia..].
Qed.

Lemma read_bytes_app (a : list Z) (o n1 n2 : Z) :
  0 <= n1 → 0 <= n2 →
  read_bytes a o (n1 + n2) = read_bytes a o n1 ++ read_bytes a (o + n1) n2.
Proof.
  intros H1 H2. unfold read_bytes.
  rewrite seqZ_app by lia. rewrite fmap_app. f_equal.
  rewrite Z.add_0_l.
  apply list_eq. intros k. rewrite !list_lookup_fmap.
  destruct (decide (k < Z.to_nat n2)%nat) as [Hk|Hk].
  - rewrite !lookup_seqZ_lt by lia. cbn. do 2 f_equal. lia.
  - rewrite !lookup_seqZ_ge by lia. reflexivity.
Qed.

Lemma read_bytes_1 (a : list Z) (o : Z) : read_bytes a o 1 = [byte_at a o].
Proof.
  apply list_eq. intros [|k].
  - rewrite lookup_read_bytes by lia. cbn. rewrite Z.add_0_r. reflexivity.
  - rewrite lookup_ge_None_2 by (rewrite length_read_bytes; lia). reflexivity.
Qed.

Lemma read_bytes_0_2 (a : list Z) : read_bytes a 0 2 = [byte_at a 0; byte_at a 1].
Proof. reflexivity. Qed.

Lemma read_bytes_0_3 (a : list Z) :
  read_bytes a 0 3 = [byte_at a 0; byte_at a 1; byte_at a 2].
Proof. reflexivity. Qed.

Lemma read_bytes_0_12 (a : list Z) :
  read_bytes a 0 12 =
  [byte_at a 0; byte_at a 1; byte_at a 2; byte_at a 3; byte_at a 4; byte_at a 5;
   byte_at a 6; byte_at a 7; byte_at a 8; byte_at a 9; byte_at a 10; byte_at a 11].
Proof. reflexivity. Qed.

Lemma length_malloc (n : Z) : length (malloc n) = Z.to_nat n.
Proof. unfold malloc. apply length_replicate. Qed.

Lemma memcpy_length (dst : list Z) (doff : Z) (src : list Z) (soff n : Z) :
  length (memcpy dst doff src soff n) = length dst.
Proof. unfold memcpy. apply length_inserts. Qed.

Lemma memset_length (dst : list Z) (off v n : Z) : length (memset dst off v n) = length dst.
Proof. unfold memset. apply length_inserts. Qed.

(** [memcpy] writes the bytes of the source into the part of the
    destination that exists and leaves the rest alone. *)
Lemma byte_at_memcpy (dst : list Z) (doff : Z) (src : list Z) (soff n j : Z) :
  0 <= doff →
  byte_at (memcpy dst doff src soff n) j =
  if bool_decide (doff <= j < doff + n ∧ j < Z.of_nat (length dst))
  then byte_at src (soff + (j - doff)) else byte_at dst j.
Proof.
  intros Hd. unfold memcpy.
  destruct (decide (j < 0)) as [Hj|Hj].
  { rewrite bool_decide_eq_false_2 by lia. unfold byte_at.
    destruct (decide (j < 0)); [reflexivity|lia]. }
  rewrite (byte_at_lookup (list_inserts _ _ _)) by lia.
  case_bool_decide as H.
  - rewrite list_lookup_inserts by (rewrite ?length_read_bytes; lia).
    rewrite lookup_read_bytes by lia. cbn. f_equal. lia.
  - rewrite (byte_at_lookup dst) by lia.
    destruct (decide (Z.of_nat (length dst) <= j)).
    { rewrite !lookup_ge_None_2; [reflexivity|lia|rewrite length_inserts; lia]. }
    destruct (decide (j < doff)).
    + rewrite list_lookup_inserts_lt by lia. reflexivity.
    + rewrite list_lookup_inserts_ge by (rewrite length_read_bytes; lia). reflexivity.
Qed.

Lemma read_bytes_memcpy (dst : list Z) (doff : Z) (src : list Z) (soff n : Z) :
  0 <= doff → doff + n <= Z.of_nat (length dst) →
  read_bytes (memcpy dst doff src soff n) doff n = read_bytes src soff n.
Proof.
  intros Hd Hn. apply list_eq. intros k.
  destruct (decide (k < Z.to_nat n)%nat) as [Hk|Hk].
  - rewrite !lookup_read_bytes by lia. rewrite byte_at_memcpy by lia.
    rewrite bool_decide_eq_true_2 by lia. do 2 f_equal. lia.
  - rewrite !lookup_ge_None_2; [reflexivity|rewrite length_read_bytes; lia..].
Qed.

Lemma byte_at_memset (dst : list Z) (off v n j : Z) :
  0 <= off →
  byte_at (memset dst off v n) j =
  if bool_decide (off <= j < off + n ∧ j < Z.of_nat (length dst)) then v else byte_at dst j.
Proof.
  intros Hoff. unfold memset.
  destruct (decide (j < 0)) as [Hj|Hj].
  { rewrite bool_decide_eq_false_2 by lia. unfold byte_at.
    destruct (decide (j < 0)); [reflexivity|lia]. }
  rewrite (byte_at_lookup (list_inserts _ _ _)) by lia.
  case_bool_decide as H.
  - rewrite list_lookup_inserts by (rewrite ?length_replicate; lia).
    rewrite lookup_replicate_2 by lia. reflexivity.
  - rewrite (byte_at_lookup dst) by lia.
    destruct (decide (Z.of_nat (length dst) <= j)).
    { rewrite !lookup_ge_None_2; [reflexivity|lia|rewrite length_inserts; lia]. }
    destruct (decide (j < off)).
    + rewrite list_lookup_inserts_lt by lia. reflexivity.
    + rewrite list_lookup_inserts_ge by (rewrite length_replicate; lia). reflexivity.
Qed.

Lemma byte_at_memset_zero (n j : Z) : byte_at (memset (malloc n) 0 0 n) j = 0.
Proof.
  unfold memset, malloc.
  destruct (decide (0 <= j < Z.of_nat (Z.to_nat n))) as [Hj|Hj].
  - rewrite byte_at_lookup by lia.
    rewrite list_lookup_inserts by (rewrite ?length_replicate; lia).
    rewrite lookup_replicate_2 by lia. reflexivity.
  - unfold byte_at. destruct (decide (j < 0)); [reflexivity|].
    rewrite lookup_ge_None_2; [reflexivity|].
    rewrite length_inserts, length_replicate. lia.
Qed.

(** ** The little-endian codecs *)

(** The two bytes of a value, put together again. *)
Lemma byte_le_16 (v : Z) :
  Z.lor (Z.land v 255) (Z.shiftl (Z.land (Z.shiftr v 8) 255) 8) = v mod 65536.
Proof.
  change 255 with (Z.ones 8). change 65536 with (2 ^ 16).
  rewrite <- Z.land_ones by lia.
  apply Z.bits_inj'. intros i Hi.
  rewrite Z.lor_spec, !Z.land_spec.
  destruct (decide (i < 8)).
  - rewrite Z.shiftl_spec_low by lia. rewrite !Z.ones_spec_low by lia.
    rewrite orb_false_r. reflexivity.
  - rewrite Z.shiftl_spec by lia. rewrite Z.land_spec, Z.shiftr_spec by lia.
    rewrite (Z.ones_spec_high 8 i) by lia. rewrite andb_false_r. cbn [orb].
    replace (i - 8 + 8) with i by lia.
    destruct (decide (i < 16)).
    + rewrite !Z.ones_spec_low by lia. reflexivity.
    + rewrite !Z.ones_spec_high by lia. reflexivity.
Qed.

Lemma byte_le_32 (v : Z) :
  Z.lor (Z.lor (Z.lor (Z.land v 255) (Z.shiftl (Z.land (Z.shiftr v 8) 255) 8))
               (Z.shiftl (Z.land (Z.shiftr v 16) 255) 16))
        (Z.shiftl (Z.land (Z.shiftr v 24) 255) 24) = v mod 4294967296.
Proof.
  change 255 with (Z.ones 8). change 4294967296 with (2 ^ 32).
  rewrite <- Z.land_ones by lia.
  apply Z.bits_inj'. intros i Hi.
  rewrite !Z.lor_spec, !Z.land_spec.
  destruct (decide (i < 8)).
  { rewrite !Z.shiftl_spec_low by lia. rewrite !Z.ones_spec_low by lia.
    rewrite !orb_false_r. reflexivity. }
  rewrite (Z.ones_spec_high 8 i) by lia. rewrite andb_false_r. cbn [orb].
  destruct (decide (i < 16)).
  { rewrite !(Z.shiftl_spec_low _ 16), !(Z.shiftl_spec_low _ 24) by lia.
    rewrite !orb_false_r. rewrite Z.shiftl_spec by lia.
    rewrite Z.land_spec, Z.shiftr_spec by lia.
    replace (i - 8 + 8) with i by lia.
    rewrite !Z.ones_spec_low by lia. reflexivity. }
  rewrite (Z.shiftl_spec _ 8) by lia. rewrite Z.land_spec.
  rewrite (Z.ones_spec_high 8 (i - 8)) by lia. rewrite andb_false_r. cbn [orb].
  destruct (decide (i < 24)).
  { rewrite !(Z.shiftl_spec_low _ 24) by lia.
    rewrite !orb_false_r. rewrite Z.shiftl_spec by lia.
    rewrite Z.land_spec, Z.shiftr_spec by lia.
    replace (i - 16 + 16) with i by lia.
    rewrite !Z.ones_spec_low by lia. reflexivity. }
  rewrite (Z.shiftl_spec _ 16) by lia. rewrite Z.land_spec.
  rewrite (Z.ones_spec_high 8 (i - 16)) by lia. rewrite andb_false_r. cbn [orb].
  rewrite Z.shiftl_spec by lia. rewrite Z.land_spec, Z.shiftr_spec by lia.
  replace (i - 24 + 24) with i by lia.
  destruct (decide (i < 32)).
  - rewrite !Z.ones_spec_low by lia. reflexivity.
  - rewrite !Z.ones_spec_high by lia. reflexivity.
Qed.

Lemma ipmi_set_uint16_length data off val :
  length (ipmi_set_uint16 data off val) = length data.
Proof. unfold ipmi_set_uint16. rewrite !set_byte_length. reflexivity. Qed.

Lemma ipmi_set_uint32_length data off val :
  length (ipmi_set_uint32 data off val) = length data.
Proof. unfold ipmi_set_uint32. rewrite !set_byte_length. reflexivity. Qed.

Lemma byte_at_ipmi_set_uint16 data off val j :
  0 <= off → off + 1 < Z.of_nat (length data) →
  byte_at (ipmi_set_uint16 data off val) j =
  if bool_decide (j = off) then Z.land val 255
  else if bool_decide (j = off + 1) then Z.land (Z.shiftr val 8) 255
  else byte_at data j.
Proof.
  intros H0 H1. unfold ipmi_set_uint16. rewrite !byte_at_set_byte, !set_byte_length.
  repeat case_bool_decide; try reflexivity; lia.
Qed.

Lemma byte_at_ipmi_set_uint32 data off val j :
  0 <= off → off + 3 < Z.of_nat (length data) →
  byte_at (ipmi_set_uint32 data off val) j =
  if bool_decide (j = off) then Z.land val 255
  else if bool_decide (j = off + 1) then Z.land (Z.shiftr val 8) 255
  else if bool_decide (j = off + 2) then Z.land (Z.shiftr val 16) 255
  else if bool_decide (j = off + 3) then Z.land (Z.shiftr val 24) 255
  else byte_at data j.
Proof.
  intros H0 H1. unfold ipmi_set_uint32. rewrite !byte_at_set_byte, !set_byte_length.
  repeat case_bool_decide; try reflexivity; lia.
Qed.

Lemma get_set_uint16 (data : list Z) (off val : Z) :
  0 <= off → off + 1 < Z.of_nat (length data) →
  ipmi_get_uint16 (ipmi_set_uint16 data off val) off = val mod 65536.
Proof.
  intros H0 H1. unfold ipmi_get_uint16.
  rewrite !byte_at_ipmi_set_uint16 by lia.
  rewrite bool_decide_eq_true_2 by lia.
  rewrite (bool_decide_eq_false_2 (off + 1 = off)) by lia.
  rewrite bool_decide_eq_true_2 by lia.
  apply byte_le_16.
Qed.

Lemma get_set_uint32 (data : list Z) (off val : Z) :
  0 <= off → off + 3 < Z.of_nat (length data) →
  ipmi_get_uint32 (ipmi_set_uint32 data off val) off = val mod 4294967296.
Proof.
  intros H0 H1. unfold ipmi_get_uint32.
  rewrite !byte_at_ipmi_set_uint32 by lia.
  repeat (first [rewrite bool_decide_eq_true_2 by lia
                |rewrite bool_decide_eq_false_2 by lia]).
  apply byte_le_32.
Qed.

(** X1.  [ipmi_set_uint16] followed by [ipmi_get_uint16] at the same place
    gives the value back modulo 2^16, whatever integer was stored; the
    buffer keeps its length and every other byte.  The functions of
    ipmi_utils.c are the same as the ones of emu.c. *)
Theorem ipmi_uint16_round_trip (data : list Z) (off val : Z) :
  0 <= off → off + 1 < Z.of_nat (length data) →
  ipmi_get_uint16 (ipmi_set_uint16 data off val) off = val mod 65536 ∧
  length (ipmi_set_uint16 data off val) = length data ∧
  ∀ j, j ≠ off → j ≠ off + 1 →
       byte_at (ipmi_set_uint16 data off val) j = byte_at data j.
Proof.
  intros H0 H1. split; [apply get_set_uint16; lia|].
  split; [apply ipmi_set_uint16_length|].
  intros j Hj1 Hj2. rewrite byte_at_ipmi_set_uint16 by lia.
  rewrite !bool_decide_eq_false_2 by lia. reflexivity.
Qed.

(** The theorem at a buffer of four bytes and the value 0x12345. *)
Lemma ipmi_uint16_round_trip_witness :
  ipmi_get_uint16 (ipmi_set_uint16 [9; 9; 9; 9] 1 0x12345) 1 = 0x12345 mod 65536 ∧
  length (ipmi_set_uint16 [9; 9; 9; 9] 1 0x12345) = length [9; 9; 9; 9] ∧
  ∀ j, j ≠ 1 → j ≠ 1 + 1 →
       byte_at (ipmi_set_uint16 [9; 9; 9; 9] 1 0x12345) j = byte_at [9; 9; 9; 9] j.
Proof. apply (ipmi_uint16_round_trip [9; 9; 9; 9] 1 0x12345); simpl; lia. Defined.

(** X2.  [ipmi_set_uint32] followed by [ipmi_get_uint32] at the same place
    gives the value back modulo 2^32, also for a negative [int]; the buffer
    keeps its length and every byte outside the four. *)
Theorem ipmi_uint32_round_trip (data : list Z) (off val : Z) :
  0 <= off → off + 3 < Z.of_nat (length data) →
  ipmi_get_uint32 (ipmi_set_uint32 data off val) off = val mod 4294967296 ∧
  length (ipmi_set_uint32 data off val) = length data ∧
  ∀ j, (j < off ∨ off + 3 < j) →
       byte_at (ipmi_set_uint32 data off val) j = byte_at data j.
Proof.
  intros H0 H1. split; [apply get_set_uint32; lia|].
  split; [apply ipmi_set_uint32_length|].
  intros j Hj. rewrite byte_at_ipmi_set_uint32 by lia.
  rewrite !bool_decide_eq_false_2 by lia. reflexivity.
Qed.

(** The theorem at a buffer of five bytes and the value -2. *)
Lemma ipmi_uint32_round_trip_witness :
  ipmi_get_uint32 (ipmi_set_uint32 [9; 9; 9; 9; 9] 1 (-2)) 1 = (-2) mod 4294967296 ∧
  length (ipmi_set_uint32 [9; 9; 9; 9; 9] 1 (-2)) = length [9; 9; 9; 9; 9] ∧
  ∀ j, (j < 1 ∨ 1 + 3 < j) →
       byte_at (ipmi_set_uint32 [9; 9; 9; 9; 9] 1 (-2)) j = byte_at [9; 9; 9; 9; 9] j.
Proof. apply (ipmi_uint32_round_trip [9; 9; 9; 9; 9] 1 (-2)); simpl; lia. Defined.

(** ** The IPMB checksum and the frame of a Send Message response *)

(** The sum the loop of [ipmb_checksum] keeps in its [uint8_t]. *)
Lemma checksum_fold (l : list Z) (c : Z) :
  foldl (fun csum b => u8 (csum + b)) (u8 c) l = u8 (c + byte_sum l).
Proof.
  revert c. induction l as [|b l IH]; intros c.
  - cbn. rewrite Z.add_0_r. reflexivity.
  - change (byte_sum (b :: l)) with (b + byte_sum l).
    cbn [foldl]. rewrite IH. unfold u8.
    rewrite <- Z.add_assoc, Zplus_mod_idemp_l. reflexivity.
Qed.

Lemma ipmb_checksum_eq data off size start :
  ipmb_checksum data off size start = u8 (- (start + byte_sum (read_bytes data off size))).
Proof.
  unfold ipmb_checksum. rewrite checksum_fold. unfold u8.
  generalize (start + byte_sum (read_bytes data off size)). intros s.
  rewrite <- (Z.sub_0_l (s mod 256)), <- (Z.sub_0_l s).
  rewrite Zminus_mod_idemp_r. reflexivity.
Qed.

Lemma byte_sum_app l1 l2 : byte_sum (l1 ++ l2) = byte_sum l1 + byte_sum l2.
Proof. induction l1 as [|a l1 IH]; cbn; [reflexivity|]. unfold byte_sum in *. lia. Qed.

(** The start value, the bytes and their checksum add up to 0 modulo 256. *)
Lemma ipmb_checksum_sum_zero (data : list Z) (off size start : Z) :
  u8 (start + byte_sum (read_bytes data off size) + ipmb_checksum data off size start) = 0.
Proof.
  rewrite ipmb_checksum_eq. unfold u8.
  generalize (start + byte_sum (read_bytes data off size)). intros s.
  rewrite Zplus_mod_idemp_r. replace (s + - s) with 0 by lia. reflexivity.
Qed.


(** The copy loop of the frame: every byte of the response moves up by 7. *)
Lemma shift_loop (n : nat) (rd : list Z) (j : Z) :
  byte_at (foldl (fun rd i => set_byte rd (i + 7) (byte_at rd i)) rd
             (reverse (seqZ 0 (Z.of_nat n)))) j =
  if bool_decide (7 <= j < Z.of_nat n + 7 ∧ j < Z.of_nat (length rd))
  then byte_at rd (j - 7) else byte_at rd j.
Proof.
  revert rd. induction n as [|n IH]; intros rd.
  - cbn. rewrite bool_decide_eq_false_2 by lia. reflexivity.
  - rewrite Nat2Z.inj_succ. unfold Z.succ. rewrite seqZ_app by lia.
    rewrite reverse_app. rewrite Z.add_0_l. cbn [seqZ].
    change (seqZ (Z.of_nat n) 1) with (seqZ (Z.of_nat n) 1).
    replace (reverse (seqZ (Z.of_nat n) 1)) with [Z.of_nat n]
      by reflexivity.
    cbn [app foldl]. rewrite IH. rewrite set_byte_length.
    rewrite !byte_at_set_byte.
    repeat case_bool_decide; try reflexivity; try lia.
    all: destruct_and?; subst; try lia; f_equal; lia.
Qed.

(** X4.  The frame that [ipmi_emu_handle_msg] builds around the response to
    an encapsulated request, in a buffer with room for it: it is 8 bytes
    longer than the response, the response follows the 7 header bytes
    unchanged, the bytes 1 to 3 (BMC address, netfn/LUN, first checksum) add
    up to 0 modulo 256, and so do the bytes from 4 to the end: the last
    byte, computed over the whole buffer, is also the checksum of the second
    part of the frame. *)
Theorem send_msg_rsp_frame (emu : emu_data_t) (netfn : Z) (data : list Z) (r : rsp_t) :
  0 <= rdata_len r →
  rdata_len r + 8 <= Z.of_nat (length (rdata r)) →
  let f := send_msg_rsp emu netfn data r in
  rdata_len f = rdata_len r + 8 ∧
  (∀ i, 0 <= i < rdata_len r → byte_at (rdata f) (i + 7) = byte_at (rdata r) i) ∧
  u8 (byte_sum (read_bytes (rdata f) 1 3)) = 0 ∧
  u8 (byte_sum (read_bytes (rdata f) 4 (rdata_len f - 4))) = 0.
Proof.
  intros Hlen Hbuf f.
  unfold send_msg_rsp in f.
  set (rd0 := foldl _ _ _) in f.
  assert (Hrd0 : ∀ j, byte_at rd0 j =
            if bool_decide (7 <= j < rdata_len r + 7 ∧ j < Z.of_nat (length (rdata r)))
            then byte_at (rdata r) (j - 7) else byte_at (rdata r) j).
  { intros j. subst rd0. rewrite <- (Z2Nat.id (rdata_len r)) at 1 by lia.
    rewrite shift_loop. rewrite Z2Nat.id by lia. reflexivity. }
  assert (Hl0 : length rd0 = length (rdata r)).
  { subst rd0. generalize (reverse (seqZ 0 (rdata_len r))). intros js.
    generalize (rdata r). induction js as [|i js IH]; intros l; cbn; [reflexivity|].
    rewrite IH, set_byte_length. reflexivity. }
  set (rd2 := set_byte (set_byte (set_byte rd0 0 0) 1 (emu_bmc_mc emu)) 2 _) in f.
  set (ck1 := ipmb_checksum rd2 1 2 0) in f.
  set (rd6 := set_byte (set_byte (set_byte (set_byte rd2 3 ck1) 4 _) 5 _) 6 _) in f.
  set (ck2 := ipmb_checksum rd6 0 (rdata_len r + 7) 0) in f.
  assert (Hl2 : length rd2 = length (rdata r)).
  { subst rd2. rewrite !set_byte_length. exact Hl0. }
  assert (Hl6 : length rd6 = length (rdata r)).
  { subst rd6. rewrite !set_byte_length. exact Hl2. }
  assert (Hh : u8 (byte_sum (read_bytes rd6 1 3)) = 0).
  { change 3 with (2 + 1). rewrite read_bytes_app by lia.
    rewrite read_bytes_1, byte_sum_app.
    assert (read_bytes rd6 1 2 = read_bytes rd2 1 2) as ->.
    { apply read_bytes_ext. intros i Hi. subst rd6.
      rewrite !byte_at_set_byte. repeat case_bool_decide; try reflexivity; lia. }
    assert (byte_at rd6 (1 + 2) = ck1) as ->.
    { subst rd6. rewrite !byte_at_set_byte, !set_byte_length.
      repeat case_bool_decide; try reflexivity; lia. }
    pose proof (ipmb_checksum_sum_zero rd2 1 2 0) as H.
    cbn [byte_sum foldr]. rewrite Z.add_0_r. rewrite Z.add_0_l in H. exact H. }
  assert (Hf : ∀ j, j ≠ rdata_len r + 7 → byte_at (rdata f) j = byte_at rd6 j).
  { intros j Hj. subst f. cbn [rdata]. rewrite byte_at_set_byte.
    rewrite bool_decide_eq_false_2 by lia. reflexivity. }
  assert (Hck : byte_at (rdata f) (rdata_len r + 7) = ck2).
  { subst f. cbn [rdata]. rewrite byte_at_set_byte.
    rewrite bool_decide_eq_true_2 by lia. reflexivity. }
  split; [subst f; cbn [rdata_len]; lia|].
  split.
  { intros i Hi. rewrite Hf by lia. subst rd6 rd2.
    rewrite !byte_at_set_byte. 
    repeat (rewrite bool_decide_eq_false_2 by lia).
    rewrite Hrd0. rewrite bool_decide_eq_true_2 by lia. f_equal. lia. }
  split.
  { rewrite (read_bytes_ext (rdata f) rd6 1 1 3); [exact Hh|].
    intros i Hi. apply Hf. lia. }
  assert (Hall : u8 (byte_sum (read_bytes (rdata f) 0 (rdata_len r + 7 + 1))) = 0).
  { rewrite read_bytes_app by lia. rewrite read_bytes_1, byte_sum_app.
    rewrite Z.add_0_l, Hck.
    rewrite (read_bytes_ext (rdata f) rd6 0 0 (rdata_len r + 7))
      by (intros i Hi; apply Hf; lia).
    pose proof (ipmb_checksum_sum_zero rd6 0 (rdata_len r + 7) 0) as H.
    cbn [byte_sum foldr]. rewrite Z.add_0_r. rewrite Z.add_0_l in H. exact H. }
  replace (rdata_len f - 4) with (rdata_len r + 4) by (subst f; cbn [rdata_len]; lia).
  replace (rdata_len r + 7 + 1) with (1 + (3 + (rdata_len r + 4))) in Hall by lia.
  rewrite (read_bytes_app _ 0 1) in Hall by lia.
  rewrite (read_bytes_app _ (0 + 1) 3) in Hall by lia.
  rewrite read_bytes_1, !byte_sum_app in Hall.
  rewrite (read_bytes_ext (rdata f) rd6 (0 + 1) 1 3) in Hall
    by (intros i Hi; rewrite Hf by lia; reflexivity).
  assert (H0 : byte_at (rdata f) 0 = 0).
  { rewrite Hf by lia. subst rd6 rd2. rewrite !byte_at_set_byte, !set_byte_length.
    repeat (rewrite bool_decide_eq_false_2 by lia).
    rewrite bool_decide_eq_true_2 by lia. reflexivity. }
  rewrite H0 in Hall. cbn [byte_sum foldr] in Hall. fold (byte_sum (read_bytes rd6 1 3)) in Hall.
  change (0 + 1 + 3) with 4 in Hall.
  revert Hall Hh. unfold u8.
  generalize (byte_sum (read_bytes rd6 1 3)).
  generalize (byte_sum (read_bytes (rdata f) 4 (rdata_len r + 4))).
  intros a b Hall Hh.
  replace (0 + 0 + (b + a)) with (b + a) in Hall by lia.
  rewrite <- Zplus_mod_idemp_l, Hh in Hall. exact Hall.
Qed.

(** The theorem at a response of 3 bytes in a buffer of 12. *)
Lemma send_msg_rsp_frame_witness :
  let r := {| rdata := [0; 0x20; 0x81; 0; 0; 0; 0; 0; 0; 0; 0; 0]; rdata_len := 3 |} in
  let f := send_msg_rsp ipmi_emu_alloc 6 [0x20; 0x18; 0xC8; 0x81; 0x04; 0x01; 0x7A] r in
  rdata_len f = rdata_len r + 8 ∧
  (∀ i, 0 <= i < rdata_len r → byte_at (rdata f) (i + 7) = byte_at (rdata r) i) ∧
  u8 (byte_sum (read_bytes (rdata f) 1 3)) = 0 ∧
  u8 (byte_sum (read_bytes (rdata f) 4 (rdata_len f - 4))) = 0.
Proof.
  apply (send_msg_rsp_frame ipmi_emu_alloc 6 [0x20; 0x18; 0xC8; 0x81; 0x04; 0x01; 0x7A]
           {| rdata := [0; 0x20; 0x81; 0; 0; 0; 0; 0; 0; 0; 0; 0]; rdata_len := 3 |});
    simpl; lia.
Defined.

(** ** The SEL: time, reading, record ids, reservation *)

Lemma u32_add_sub (t a b : Z) : u32 (b + (u32 t - a)) = u32 (t + (b - a)).
Proof.
  unfold u32. replace (b + (t mod 4294967296 - a)) with (t mod 4294967296 + (b - a)) by lia.
  rewrite Zplus_mod_idemp_l. reflexivity.
Qed.

(** X5.  Set SEL Time followed by Get SEL Time: the time read is the time
    set plus the seconds of the clock between the two commands, modulo
    2^32. *)
Theorem sel_time_round_trip (now1 now2 : Z) (mc : lmc_data_t) (msg1 msg2 : ipmi_msg_t)
    (r1 r2 : rsp_t) :
  has_bit (mc_device_support mc) IPMI_DEVID_SEL_DEVICE = true →
  4 <= msg_data_len msg1 →
  5 <= Z.of_nat (length (rdata r2)) →
  let mc1 := fst (handle_set_sel_time now1 mc msg1 r1) in
  let r' := snd (handle_get_sel_time now2 mc1 msg2 r2) in
  rdata_len r' = 5 ∧ byte_at (rdata r') 0 = 0 ∧
  ipmi_get_uint32 (rdata r') 1 = u32 (ipmi_get_uint32 (msg_data msg1) 0 + (now2 - now1)).
Proof.
  intros Hdev Hlen Hbuf. unfold handle_set_sel_time, handle_get_sel_time.
  rewrite Hdev. cbn [negb]. unfold check_msg_length.
  rewrite bool_decide_eq_false_2 by lia. cbn [fst snd]. 
  assert (Hd : mc_device_support (set_mc_sel mc
            (set_sel_time_offset (mc_sel mc) (u32 (ipmi_get_uint32 (msg_data msg1) 0) - now1)))
          = mc_device_support mc) by reflexivity.
  rewrite Hd, Hdev. cbn [negb snd rdata rdata_len mc_sel set_mc_sel sel_time_offset set_sel_time_offset].
  split; [reflexivity|]. split.
  - rewrite byte_at_ipmi_set_uint32 by (rewrite ?set_byte_length; lia).
    repeat (rewrite bool_decide_eq_false_2 by lia).
    rewrite byte_at_set_byte. rewrite bool_decide_eq_true_2 by lia. reflexivity.
  - rewrite get_set_uint32 by (rewrite ?set_byte_length; lia).
    apply u32_add_sub.
Qed.

(** The theorem at the time 0x40302010, read 60 seconds later. *)
Lemma sel_time_round_trip_witness :
  let mc1 := fst (handle_set_sel_time 5000 bmc_sel set_time_request (rbuf 0)) in
  let r' := snd (handle_get_sel_time 5060 mc1 empty_request (rbuf 0)) in
  rdata_len r' = 5 ∧ byte_at (rdata r') 0 = 0 ∧
  ipmi_get_uint32 (rdata r') 1
    = u32 (ipmi_get_uint32 (msg_data set_time_request) 0 + (5060 - 5000)).
Proof.
  apply (sel_time_round_trip 5000 5060 bmc_sel set_time_request empty_request
           (rbuf 0) (rbuf 0)); by vm_compute.
Defined.

(** With pairwise distinct record ids the search finds the entry itself. *)
Lemma find_sel_nodup (l : list sel_entry_t) (i : nat) (e : sel_entry_t) :
  NoDup (se_record_id <$> l) → l !! i = Some e →
  find_sel_event_by_recid l (se_record_id e) = Some (i, e).
Proof.
  intros Hnd Hi. unfold find_sel_event_by_recid. apply list_find_Some.
  split; [exact Hi|]. split; [reflexivity|].
  intros j y Hj Hlt Heq.
  assert (i = j); [|lia].
  apply (NoDup_lookup _ _ _ (se_record_id e) Hnd).
  - rewrite list_lookup_fmap, Hi. reflexivity.
  - rewrite list_lookup_fmap, Hj. cbn. f_equal. exact Heq.
Qed.

Lemma find_sel_None (l : list sel_entry_t) (id : Z) :
  find_sel_event_by_recid l id = None ↔ id ∉ se_record_id <$> l.
Proof.
  unfold find_sel_event_by_recid. rewrite list_find_None, Forall_forall.
  rewrite list_elem_of_fmap. split.
  - intros H (e & -> & He). exact (H e He eq_refl).
  - intros H e He Heq. apply H. exists e. split; [symmetry; exact Heq|exact He].
Qed.

Lemma sel_locate_id (l : list sel_entry_t) (id : Z) :
  id ≠ 0 → id ≠ 0xffff → sel_locate l id = find_sel_event_by_recid l id.
Proof.
  intros H0 Hf. unfold sel_locate.
  rewrite !bool_decide_eq_false_2 by assumption. reflexivity.
Qed.

(** The next record id in the response: the id of the next entry, or 0xffff. *)
Lemma next_id_bytes (rd : list Z) (next : option sel_entry_t) :
  3 <= Z.of_nat (length rd) →
  let rd' := match next with
             | Some n => ipmi_set_uint16 rd 1 (se_record_id n)
             | None => set_byte (set_byte rd 1 0xff) 2 0xff
             end in
  length rd' = length rd ∧
  byte_at rd' 0 = byte_at rd 0 ∧
  ipmi_get_uint16 rd' 1 = match next with
                          | Some n => u16 (se_record_id n)
                          | None => 0xffff
                          end.
Proof.
  intros Hl. destruct next as [n|]; cbn zeta.
  - split; [apply ipmi_set_uint16_length|]. split.
    + rewrite byte_at_ipmi_set_uint16 by lia.
      rewrite !bool_decide_eq_false_2 by lia. reflexivity.
    + apply get_set_uint16; lia.
  - split; [rewrite !set_byte_length; reflexivity|]. split.
    + rewrite !byte_at_set_byte. rewrite !bool_decide_eq_false_2 by lia. reflexivity.
    + unfold ipmi_get_uint16. rewrite !byte_at_set_byte, !set_byte_length.
      rewrite (bool_decide_eq_false_2 (2 = 1 ∧ _)) by lia.
      rewrite !bool_decide_eq_true_2 by lia. reflexivity.
Qed.

(** X6.  Get SEL Entry for the record id of a stored entry, in a SEL whose
    record ids are pairwise distinct and with an id other than 0 and 0xffff:
    the MC is unchanged, the completion code is 0, the next record id is the
    id of the entry that follows or 0xffff, and the data are the bytes of
    the entry from the offset on, as many as were asked for and at most up
    to byte 16. *)
Theorem get_sel_entry_found (mc : lmc_data_t) (msg : ipmi_msg_t) (r : rsp_t)
    (l : list sel_entry_t) (i : nat) (e : sel_entry_t) :
  has_bit (mc_device_support mc) IPMI_DEVID_SEL_DEVICE = true →
  6 <= msg_data_len msg →
  (has_bit (sel_flags (mc_sel mc)) IPMI_SEL_SUPPORTS_RESERVE
   && bad_reservation msg (sel_reservation (mc_sel mc))) = false →
  sel_entries (mc_sel mc) = Live l →
  NoDup (se_record_id <$> l) →
  l !! i = Some e →
  u16 (ipmi_get_uint16 (msg_data msg) 2) = se_record_id e →
  se_record_id e ≠ 0 → se_record_id e ≠ 0xffff →
  0 <= byte_at (msg_data msg) 4 < 16 →
  0 <= byte_at (msg_data msg) 5 →
  19 <= Z.of_nat (length (rdata r)) →
  let offset := byte_at (msg_data msg) 4 in
  let count := Z.min (byte_at (msg_data msg) 5) (16 - offset) in
  ∃ r', handle_get_sel_entry mc msg r = Some (mc, r') ∧
        byte_at (rdata r') 0 = 0 ∧
        ipmi_get_uint16 (rdata r') 1 =
          match l !! S i with Some n => u16 (se_record_id n) | None => 0xffff end ∧
        rdata_len r' = count + 3 ∧
        read_bytes (rdata r') 3 count = read_bytes (se_data e) offset count.
Proof.
  intros Hdev Hlen Hres Hl Hnd Hi Hid H0 Hf Hoff Hcnt Hbuf offset count.
  unfold handle_get_sel_entry. rewrite Hdev. cbn [negb].
  unfold check_msg_length. rewrite (bool_decide_eq_false_2 (msg_data_len msg < 6)) by lia.
  rewrite Hres. fold offset.
  rewrite (bool_decide_eq_false_2 (offset >= 16)) by (subst offset; lia).
  rewrite Hl. cbn [nodes mbind option_bind]. rewrite Hid.
  rewrite sel_locate_id by assumption.
  rewrite (find_sel_nodup l i e Hnd Hi).
  set (c := if bool_decide (offset + byte_at (msg_data msg) 5 > 16) then 16 - offset
            else byte_at (msg_data msg) 5).
  assert (Hc : c = count).
  { subst c count. case_bool_decide; lia. }
  rewrite Hc.
  assert (Hcr : 0 <= count <= 16) by (subst count offset; lia).
  destruct (next_id_bytes (set_byte (rdata r) 0 0) (l !! S i)) as (Hl' & Hb0 & Hnext).
  { rewrite set_byte_length. lia. }
  cbn zeta in Hl', Hb0, Hnext. rewrite set_byte_length in Hl'.
  eexists. split; [reflexivity|]. cbn [rdata rdata_len].
  split.
  { rewrite byte_at_memcpy by lia. rewrite bool_decide_eq_false_2 by lia.
    rewrite Hb0, byte_at_set_byte. rewrite bool_decide_eq_true_2 by lia. reflexivity. }
  split.
  { rewrite <- Hnext. unfold ipmi_get_uint16.
    rewrite !byte_at_memcpy by lia. rewrite !bool_decide_eq_false_2 by lia.
    reflexivity. }
  split; [reflexivity|].
  apply read_bytes_memcpy; lia.
Qed.

(** The theorem at a SEL of two entries, reading entry 1 from offset 4 on. *)
Lemma get_sel_entry_found_witness :
  let e1 := {| se_record_id := 1; se_data := [1; 0; 2] ++ replicate 13 0x11 |} in
  let e2 := {| se_record_id := 2; se_data := [2; 0; 2] ++ replicate 13 0x22 |} in
  let mc := set_mc_sel bmc_sel (set_sel_entries (mc_sel bmc_sel) (Live [e1; e2])) in
  let msg := {| msg_netfn := 0x0a; msg_cmd := 0x43; msg_data := [0; 0; 1; 0; 4; 0xff];
                msg_data_len := 6 |} in
  ∃ r', handle_get_sel_entry mc msg (rbuf 0) = Some (mc, r') ∧
        byte_at (rdata r') 0 = 0 ∧
        ipmi_get_uint16 (rdata r') 1 = 2 ∧
        rdata_len r' = 12 + 3 ∧
        read_bytes (rdata r') 3 12 = read_bytes (se_data e1) 4 12.
Proof.
  intros e1 e2 mc msg.
  apply (get_sel_entry_found mc msg (rbuf 0) [e1; e2] 0 e1);
    try (by vm_compute).
  apply (bool_decide_unpack _). vm_compute. exact I.
Defined.

(** What a successful [ipmi_mc_add_to_sel] appends. *)
Lemma ipmi_mc_add_to_sel_entry (t_stack now : Z) (mc mc' : lmc_data_t)
    (record_type : Z) (event : list Z) (l : list sel_entry_t) :
  sel_entries (mc_sel mc) = Live l →
  ipmi_mc_add_to_sel t_stack now mc record_type event = Some (mc', E_OK) →
  ∃ e, sel_entries (mc_sel mc') = Live (l ++ [e]) ∧
       find_sel_event_by_recid l (se_record_id e) = None ∧
       length (se_data e) = 16%nat ∧
       ipmi_get_uint16 (se_data e) 0 = u16 (se_record_id e) ∧
       byte_at (se_data e) 2 = record_type.
Proof.
  intros Hl. unfold ipmi_mc_add_to_sel.
  generalize sel_alloc_fuel. intros fuel.
  destruct (negb _); [intros [= <- ?]; discriminate|].
  case_bool_decide; [intros [= <- ?]; discriminate|].
  rewrite Hl. cbn [nodes mbind option_bind].
  destruct (sel_alloc_loop _ _ _ _ _) as [[id next|next]|] eqn:Hloop;
    cbn [mbind option_bind]; [|intros [= <- ?]; discriminate|discriminate].
  apply sel_alloc_loop_fresh in Hloop as [Hfresh _].
  intros [= <-]. eexists. split; [reflexivity|]. cbn [se_record_id se_data].
  set (d0 := set_byte (ipmi_set_uint16 (malloc 16) 0 id) 2 record_type).
  assert (Hl0 : length d0 = 16%nat).
  { subst d0. rewrite set_byte_length, ipmi_set_uint16_length. reflexivity. }
  assert (Hid : ipmi_get_uint16 d0 0 = u16 id).
  { subst d0. unfold ipmi_get_uint16.
    rewrite !byte_at_set_byte, !bool_decide_eq_false_2 by lia.
    apply (get_set_uint16 (malloc 16) 0 id); by vm_compute. }
  assert (Hty : byte_at d0 2 = record_type).
  { subst d0. rewrite byte_at_set_byte, ipmi_set_uint16_length.
    rewrite bool_decide_eq_true_2 by (by vm_compute). reflexivity. }
  split; [exact Hfresh|].
  case_bool_decide.
  - rewrite memcpy_length, ipmi_set_uint32_length. split; [exact Hl0|].
    unfold ipmi_get_uint16.
    rewrite !byte_at_memcpy by lia. rewrite !bool_decide_eq_false_2 by lia.
    rewrite !byte_at_ipmi_set_uint32 by lia.
    rewrite !bool_decide_eq_false_2 by lia. split; [exact Hid|exact Hty].
  - rewrite memcpy_length. split; [exact Hl0|].
    unfold ipmi_get_uint16.
    rewrite !byte_at_memcpy by lia. rewrite !bool_decide_eq_false_2 by lia.
    split; [exact Hid|exact Hty].
Qed.

(** X7.  [ipmi_mc_add_to_sel] keeps the record ids of a SEL pairwise
    distinct: a successful add appends one entry of 16 bytes whose id no
    other entry has, and the entry begins with its id (little-endian) and
    the record type. *)
Theorem add_to_sel_keeps_ids_distinct (t_stack now : Z) (mc mc' : lmc_data_t)
    (record_type : Z) (event : list Z) (l : list sel_entry_t) :
  sel_entries (mc_sel mc) = Live l →
  NoDup (se_record_id <$> l) →
  ipmi_mc_add_to_sel t_stack now mc record_type event = Some (mc', E_OK) →
  ∃ e, sel_entries (mc_sel mc') = Live (l ++ [e]) ∧
       NoDup (se_record_id <$> l ++ [e]) ∧
       length (se_data e) = 16%nat ∧
       ipmi_get_uint16 (se_data e) 0 = u16 (se_record_id e) ∧
       byte_at (se_data e) 2 = record_type.
Proof.
  intros Hl Hnd Hadd.
  destruct (ipmi_mc_add_to_sel_entry _ _ _ _ _ _ _ Hl Hadd)
    as (e & Hl' & Hfresh & Hlen & Hid & Hty).
  exists e. split; [exact Hl'|]. split; [|by repeat split].
  rewrite fmap_app. apply NoDup_app. split; [exact Hnd|]. split.
  - intros x Hx. cbn. rewrite list_elem_of_singleton. intros ->.
    apply find_sel_None in Hfresh. contradiction.
  - cbn. apply NoDup_singleton.
Qed.

(** The theorem at a third add to the SEL that holds the two records of
    two Add SEL Entry commands, with the ids 1 and 2. *)
Lemma add_to_sel_keeps_ids_distinct_witness :
  let mc := default bmc_sel two_records in
  two_records = Some mc ∧
  ∃ l mc',
    sel_entries (mc_sel mc) = Live l ∧
    se_record_id <$> l = [1; 2] ∧
    ipmi_mc_add_to_sel 0 5002 mc 2 (replicate 13 0) = Some (mc', E_OK) ∧
    ∃ e, sel_entries (mc_sel mc') = Live (l ++ [e]) ∧
         NoDup (se_record_id <$> l ++ [e]) ∧
         length (se_data e) = 16%nat ∧
         ipmi_get_uint16 (se_data e) 0 = u16 (se_record_id e) ∧
         byte_at (se_data e) 2 = 2.
Proof.
  intros mc. split; [vm_compute; reflexivity|].
  do 2 eexists.
  split; [vm_compute; reflexivity|]. split; [vm_compute; reflexivity|].
  split; [vm_compute; reflexivity|].
  eapply (add_to_sel_keeps_ids_distinct 0 5002 mc _ 2 (replicate 13 0) _).
  - vm_compute; reflexivity.
  - apply (bool_decide_unpack _). vm_compute. exact I.
  - vm_compute; reflexivity.
Defined.

Lemma find_sel_delete (l : list sel_entry_t) (i : nat) (e : sel_entry_t) :
  NoDup (se_record_id <$> l) → l !! i = Some e →
  find_sel_event_by_recid (delete i l) (se_record_id e) = None.
Proof.
  intros Hnd Hi. apply find_sel_None. rewrite list_elem_of_fmap.
  intros (y & Hy & Hin). apply list_elem_of_lookup in Hin as [j Hj].
  assert (Hj' : l !! (if decide (j < i)%nat then j else S j) = Some y).
  { destruct (decide (j < i)%nat).
    - rewrite list_lookup_delete_lt in Hj by lia. exact Hj.
    - rewrite list_lookup_delete_ge in Hj by lia. exact Hj. }
  assert (i = if decide (j < i)%nat then j else S j).
  { apply (NoDup_lookup _ _ _ (se_record_id e) Hnd).
    - rewrite list_lookup_fmap, Hi. reflexivity.
    - rewrite list_lookup_fmap, Hj'. cbn. f_equal. symmetry. exact Hy. }
  destruct (decide (j < i)%nat); lia.
Qed.

(** X8.  After a successful Delete SEL Entry for a record id other than 0 and
    0xffff, in a SEL with pairwise distinct ids, Get SEL Entry for the same
    id (and the same reservation) answers 0xCB, not present. *)
Theorem delete_then_get_sel_entry (mc mc' : lmc_data_t) (msg g : ipmi_msg_t)
    (r r' rg : rsp_t) (l : list sel_entry_t) :
  sel_entries (mc_sel mc) = Live l →
  NoDup (se_record_id <$> l) →
  0 < Z.of_nat (length (rdata r)) →
  handle_delete_sel_entry mc msg r = Some (mc', r') →
  byte_at (rdata r') 0 = 0 →
  u16 (ipmi_get_uint16 (msg_data msg) 2) ≠ 0 →
  u16 (ipmi_get_uint16 (msg_data msg) 2) ≠ 0xffff →
  6 <= msg_data_len g →
  supplied_reservation g = supplied_reservation msg →
  u16 (ipmi_get_uint16 (msg_data g) 2) = u16 (ipmi_get_uint16 (msg_data msg) 2) →
  byte_at (msg_data g) 4 < 16 →
  handle_get_sel_entry mc' g rg = Some (mc', rsp_cc IPMI_NOT_PRESENT_CC rg).
Proof.
  intros Hl Hnd Hbuf Hdel Hcc H0 Hf Hlen Hres Hid Hoff.
  unfold handle_delete_sel_entry, handle_invalid_cmd in Hdel.
  destruct (has_bit (mc_device_support mc) IPMI_DEVID_SEL_DEVICE) eqn:Hdev;
    cbn [negb] in Hdel;
    [|injection Hdel as <- <-; rewrite rsp_cc_byte0 in Hcc by lia; discriminate].
  destruct (has_bit (sel_flags (mc_sel mc)) IPMI_SEL_SUPPORTS_DELETE) eqn:Hsup;
    cbn [negb] in Hdel;
    [|injection Hdel as <- <-; rewrite rsp_cc_byte0 in Hcc by lia; discriminate].
  destruct (check_msg_length msg 4);
    [injection Hdel as <- <-; rewrite rsp_cc_byte0 in Hcc by lia; discriminate|].
  destruct (has_bit (sel_flags (mc_sel mc)) IPMI_SEL_SUPPORTS_RESERVE
            && bad_reservation msg (sel_reservation (mc_sel mc))) eqn:Hr;
    [injection Hdel as <- <-; rewrite rsp_cc_byte0 in Hcc by lia; discriminate|].
  rewrite Hl in Hdel. cbn [nodes mbind option_bind] in Hdel.
  rewrite sel_locate_id in Hdel by assumption.
  destruct (find_sel_event_by_recid l _) as [[i e]|] eqn:Hfind;
    [|injection Hdel as <- <-; rewrite rsp_cc_byte0 in Hcc by lia; discriminate].
  injection Hdel as <- <-.
  apply list_find_Some in Hfind as (Hi & Hide & _).
  unfold handle_get_sel_entry.
  cbn [mc_device_support set_mc_sel mc_sel sel_flags set_sel_entries sel_reservation
       sel_entries].
  rewrite Hdev. cbn [negb]. unfold check_msg_length.
  rewrite (bool_decide_eq_false_2 (msg_data_len g < 6)) by lia.
  assert (Hbad : bad_reservation g (sel_reservation (mc_sel mc))
                 = bad_reservation msg (sel_reservation (mc_sel mc))).
  { unfold bad_reservation. rewrite Hres. reflexivity. }
  rewrite Hbad, Hr.
  rewrite (bool_decide_eq_false_2 (byte_at (msg_data g) 4 >= 16)) by lia.
  cbn [nodes mbind option_bind]. rewrite Hid.
  rewrite sel_locate_id by assumption.
  rewrite <- Hide. rewrite (find_sel_delete l i e Hnd Hi). reflexivity.
Qed.

(** The theorem at a SEL of two entries, deleting entry 1. *)
Lemma delete_then_get_sel_entry_witness :
  let e1 := {| se_record_id := 1; se_data := [1; 0; 2] ++ replicate 13 0x11 |} in
  let e2 := {| se_record_id := 2; se_data := [2; 0; 2] ++ replicate 13 0x22 |} in
  let mc := set_mc_sel bmc_sel (set_sel_entries (mc_sel bmc_sel) (Live [e1; e2])) in
  let g := {| msg_netfn := 0x0a; msg_cmd := 0x43; msg_data := [0; 0; 1; 0; 0; 0xff];
              msg_data_len := 6 |} in
  ∃ mc' r',
    handle_delete_sel_entry mc (delete_request 0 1) (rbuf 0) = Some (mc', r') ∧
    handle_get_sel_entry mc' g (rbuf 0) = Some (mc', rsp_cc IPMI_NOT_PRESENT_CC (rbuf 0)).
Proof.
  intros e1 e2 mc g. do 2 eexists. split; [vm_compute; reflexivity|].
  eapply (delete_then_get_sel_entry mc _ (delete_request 0 1) g (rbuf 0) _ (rbuf 0)
            [e1; e2]);
    try (by vm_compute).
  apply (bool_decide_unpack _). vm_compute. exact I.
Defined.

(** The increment of a reservation, which skips 0. *)
Lemma reservation_next (res : Z) :
  0 <= res < 65536 →
  let res' := (if bool_decide (u16 (res + 1) = 0) then u16 (u16 (res + 1) + 1)
               else u16 (res + 1)) in
  1 <= res' <= 65535 ∧ res' ≠ res.
Proof.
  intros H. unfold u16. cbn zeta.
  destruct (decide (res = 65535)) as [->|].
  - split; [by vm_compute|discriminate].
  - rewrite (Z.mod_small (res + 1)) by lia. rewrite bool_decide_eq_false_2 by lia. lia.
Qed.

(** X9.  Reserve SEL gives a new reservation between 1 and 0xffff, returns
    it in the response, leaves the entries alone, and cancels the
    reservation that was held: a request that carries the old one (not 0)
    fails the reservation check. *)
Theorem reserve_sel_new_reservation (mc : lmc_data_t) (msg : ipmi_msg_t) (r : rsp_t) :
  has_bit (mc_device_support mc) IPMI_DEVID_SEL_DEVICE = true →
  has_bit (sel_flags (mc_sel mc)) IPMI_SEL_SUPPORTS_RESERVE = true →
  0 <= sel_reservation (mc_sel mc) < 65536 →
  3 <= Z.of_nat (length (rdata r)) →
  let mc' := fst (handle_reserve_sel mc msg r) in
  let r' := snd (handle_reserve_sel mc msg r) in
  let res := sel_reservation (mc_sel mc') in
  1 <= res <= 65535 ∧
  byte_at (rdata r') 0 = 0 ∧ rdata_len r' = 3 ∧ ipmi_get_uint16 (rdata r') 1 = res ∧
  sel_entries (mc_sel mc') = sel_entries (mc_sel mc) ∧
  ∀ m, supplied_reservation m = sel_reservation (mc_sel mc) →
       sel_reservation (mc_sel mc) ≠ 0 →
       bad_reservation m res = true.
Proof.
  intros Hdev Hsup Hres Hbuf. unfold handle_reserve_sel.
  rewrite Hdev, Hsup. cbn [negb fst snd].
  cbn [mc_sel set_mc_sel sel_reservation set_sel_reservation rdata rdata_len
       sel_entries].
  destruct (reservation_next _ Hres) as [Hrange Hne]. cbn zeta in Hrange, Hne.
  revert Hrange Hne. generalize (if bool_decide (u16 (sel_reservation (mc_sel mc) + 1) = 0)
     then u16 (u16 (sel_reservation (mc_sel mc) + 1) + 1)
     else u16 (sel_reservation (mc_sel mc) + 1)).
  intros res Hrange Hne.
  split; [exact Hrange|]. split.
  { rewrite byte_at_ipmi_set_uint16 by (rewrite ?set_byte_length; lia).
    rewrite !bool_decide_eq_false_2 by lia.
    rewrite byte_at_set_byte, bool_decide_eq_true_2 by lia. reflexivity. }
  split; [reflexivity|]. split.
  { rewrite get_set_uint16 by (rewrite ?set_byte_length; lia).
    apply Z.mod_small. lia. }
  split; [reflexivity|].
  intros m Hm H0. apply bad_reservation_true; rewrite Hm; [exact H0|].
  intros Heq. apply Hne. symmetry. exact Heq.
Qed.

(** The theorem at the first reservation of a SEL. *)
Lemma reserve_sel_new_reservation_witness :
  let mc' := fst (handle_reserve_sel bmc_sel get_info_request (rbuf 0)) in
  let r' := snd (handle_reserve_sel bmc_sel get_info_request (rbuf 0)) in
  let res := sel_reservation (mc_sel mc') in
  1 <= res <= 65535 ∧
  byte_at (rdata r') 0 = 0 ∧ rdata_len r' = 3 ∧ ipmi_get_uint16 (rdata r') 1 = res ∧
  sel_entries (mc_sel mc') = sel_entries (mc_sel bmc_sel) ∧
  ∀ m, supplied_reservation m = sel_reservation (mc_sel bmc_sel) →
       sel_reservation (mc_sel bmc_sel) ≠ 0 →
       bad_reservation m res = true.
Proof.
  apply (reserve_sel_new_reservation bmc_sel get_info_request (rbuf 0));
    by vm_compute.
Defined.

(** ** The SDR repository: time, update mode, reservation, adding and reading *)

(** X10.  Set SDR Repository Time followed by Get SDR Repository Time: the
    time read is the time set plus the seconds of the clock between the two
    commands, modulo 2^32. *)
Theorem sdr_repository_time_round_trip (now1 now2 : Z) (mc : lmc_data_t)
    (msg1 msg2 : ipmi_msg_t) (r1 r2 : rsp_t) :
  has_bit (mc_device_support mc) IPMI_DEVID_SDR_REPOSITORY_DEV = true →
  4 <= msg_data_len msg1 →
  5 <= Z.of_nat (length (rdata r2)) →
  let mc1 := fst (handle_set_sdr_repository_time now1 mc msg1 r1) in
  let r' := snd (handle_get_sdr_repository_time now2 mc1 msg2 r2) in
  rdata_len r' = 5 ∧ byte_at (rdata r') 0 = 0 ∧
  ipmi_get_uint32 (rdata r') 1 = u32 (ipmi_get_uint32 (msg_data msg1) 0 + (now2 - now1)).
Proof.
  intros Hdev Hlen Hbuf. unfold handle_set_sdr_repository_time, handle_get_sdr_repository_time.
  rewrite Hdev. cbn [negb]. unfold check_msg_length.
  rewrite bool_decide_eq_false_2 by lia. cbn [fst snd].
  cbn [mc_device_support set_mc_main_sdrs]. rewrite Hdev.
  cbn [negb snd rdata rdata_len mc_main_sdrs set_mc_main_sdrs sdrs_time_offset
       set_sdrs_time_offset].
  split; [reflexivity|]. split.
  - rewrite byte_at_ipmi_set_uint32 by (rewrite ?set_byte_length; lia).
    repeat (rewrite bool_decide_eq_false_2 by lia).
    rewrite byte_at_set_byte. rewrite bool_decide_eq_true_2 by lia. reflexivity.
  - rewrite get_set_uint32 by (rewrite ?set_byte_length; lia).
    apply u32_add_sub.
Qed.

(** The theorem at the time 0x40302010, read 60 seconds later. *)
Lemma sdr_repository_time_round_trip_witness :
  let mc1 := fst (handle_set_sdr_repository_time 5000 bmc set_time_request (rbuf 0)) in
  let r' := snd (handle_get_sdr_repository_time 5060 mc1 empty_request (rbuf 0)) in
  rdata_len r' = 5 ∧ byte_at (rdata r') 0 = 0 ∧
  ipmi_get_uint32 (rdata r') 1
    = u32 (ipmi_get_uint32 (msg_data set_time_request) 0 + (5060 - 5000)).
Proof.
  apply (sdr_repository_time_round_trip 5000 5060 bmc set_time_request empty_request
           (rbuf 0) (rbuf 0)); by vm_compute.
Defined.

Lemma find_sdr_nodup (l : list sdr_t) (i : nat) (e : sdr_t) :
  NoDup (sdr_record_id <$> l) → l !! i = Some e →
  find_sdr_by_recid l (sdr_record_id e) = Some (i, e).
Proof.
  intros Hnd Hi. unfold find_sdr_by_recid. apply list_find_Some.
  split; [exact Hi|]. split; [reflexivity|].
  intros j y Hj Hlt Heq.
  assert (i = j); [|lia].
  apply (NoDup_lookup _ _ _ (sdr_record_id e) Hnd).
  - rewrite list_lookup_fmap, Hi. reflexivity.
  - rewrite list_lookup_fmap, Hj. cbn. f_equal. exact Heq.
Qed.

Lemma find_sdr_None (l : list sdr_t) (id : Z) :
  find_sdr_by_recid l id = None ↔ id ∉ sdr_record_id <$> l.
Proof.
  unfold find_sdr_by_recid. rewrite list_find_None, Forall_forall.
  rewrite list_elem_of_fmap. split.
  - intros H (e & -> & He). exact (H e He eq_refl).
  - intros H e He Heq. apply H. exists e. split; [symmetry; exact Heq|exact He].
Qed.

Lemma sdr_locate_id (l : list sdr_t) (id : Z) :
  id ≠ 0 → id ≠ 0xffff → sdr_locate l id = find_sdr_by_recid l id.
Proof.
  intros H0 Hf. unfold sdr_locate.
  rewrite !bool_decide_eq_false_2 by assumption. reflexivity.
Qed.

Lemma next_sdr_id_bytes (rd : list Z) (next : option sdr_t) :
  3 <= Z.of_nat (length rd) →
  let rd' := match next with
             | Some n => ipmi_set_uint16 rd 1 (sdr_record_id n)
             | None => set_byte (set_byte rd 1 0xff) 2 0xff
             end in
  length rd' = length rd ∧
  byte_at rd' 0 = byte_at rd 0 ∧
  ipmi_get_uint16 rd' 1 = match next with
                          | Some n => u16 (sdr_record_id n)
                          | None => 0xffff
                          end.
Proof.
  intros Hl. destruct next as [n|]; cbn zeta.
  - split; [apply ipmi_set_uint16_length|]. split.
    + rewrite byte_at_ipmi_set_uint16 by lia.
      rewrite !bool_decide_eq_false_2 by lia. reflexivity.
    + apply get_set_uint16; lia.
  - split; [rewrite !set_byte_length; reflexivity|]. split.
    + rewrite !byte_at_set_byte. rewrite !bool_decide_eq_false_2 by lia. reflexivity.
    + unfold ipmi_get_uint16. rewrite !byte_at_set_byte, !set_byte_length.
      rewrite (bool_decide_eq_false_2 (2 = 1 ∧ _)) by lia.
      rewrite !bool_decide_eq_true_2 by lia. reflexivity.
Qed.

(** Get SDR on a stored record. *)
Lemma handle_get_sdr_found (mc : lmc_data_t) (msg : ipmi_msg_t) (r : rsp_t)
    (l : list sdr_t) (i : nat) (e : sdr_t) :
  has_bit (mc_device_support mc) IPMI_DEVID_SDR_REPOSITORY_DEV = true →
  6 <= msg_data_len msg →
  (has_bit (sdrs_flags (mc_main_sdrs mc)) IPMI_SDR_RESERVE_SDR_SUPPORTED
   && bad_reservation msg (sdrs_reservation (mc_main_sdrs mc))) = false →
  sdrs_sdrs (mc_main_sdrs mc) = Live l →
  NoDup (sdr_record_id <$> l) →
  l !! i = Some e →
  u16 (ipmi_get_uint16 (msg_data msg) 2) = sdr_record_id e →
  sdr_record_id e ≠ 0 → sdr_record_id e ≠ 0xffff →
  0 <= byte_at (msg_data msg) 4 < sdr_length e →
  0 <= byte_at (msg_data msg) 5 →
  let offset := byte_at (msg_data msg) 4 in
  let count := Z.min (byte_at (msg_data msg) 5) (sdr_length e - offset) in
  count + 3 <= rdata_len r →
  count + 3 <= Z.of_nat (length (rdata r)) →
  ∃ r', handle_get_sdr mc msg r = Some (mc, r') ∧
        byte_at (rdata r') 0 = 0 ∧
        ipmi_get_uint16 (rdata r') 1 =
          match l !! S i with Some n => u16 (sdr_record_id n) | None => 0xffff end ∧
        rdata_len r' = count + 3 ∧
        read_bytes (rdata r') 3 count = read_bytes (sdr_data e) offset count.
Proof.
  intros Hdev Hlen Hres Hl Hnd Hi Hid H0 Hf Hoff Hcnt offset count Hroom Hbuf.
  unfold handle_get_sdr. rewrite Hdev. cbn [negb].
  unfold check_msg_length. rewrite (bool_decide_eq_false_2 (msg_data_len msg < 6)) by lia.
  rewrite Hres. fold offset.
  rewrite Hl. cbn [nodes mbind option_bind]. rewrite Hid.
  rewrite sdr_locate_id by assumption.
  rewrite (find_sdr_nodup l i e Hnd Hi).
  rewrite (bool_decide_eq_false_2 (offset >= sdr_length e)) by (subst offset; lia).
  set (c := if bool_decide (offset + byte_at (msg_data msg) 5 > sdr_length e)
            then sdr_length e - offset else byte_at (msg_data msg) 5).
  assert (Hc : c = count).
  { subst c count. case_bool_decide; lia. }
  rewrite Hc.
  assert (Hcr : 0 <= count) by (subst count offset; lia).
  rewrite (bool_decide_eq_false_2 (count + 3 > rdata_len r)) by lia.
  destruct (next_sdr_id_bytes (set_byte (rdata r) 0 0) (l !! S i)) as (Hl' & Hb0 & Hnext).
  { rewrite set_byte_length. lia. }
  cbn zeta in Hl', Hb0, Hnext. rewrite set_byte_length in Hl'.
  eexists. split; [reflexivity|]. cbn [rdata rdata_len].
  split.
  { rewrite byte_at_memcpy by lia. rewrite bool_decide_eq_false_2 by lia.
    rewrite Hb0, byte_at_set_byte. rewrite bool_decide_eq_true_2 by lia. reflexivity. }
  split.
  { rewrite <- Hnext. unfold ipmi_get_uint16.
    rewrite !byte_at_memcpy by lia. rewrite !bool_decide_eq_false_2 by lia.
    reflexivity. }
  split; [reflexivity|].
  apply read_bytes_memcpy; lia.
Qed.

(** The record id the loop of [new_sdr_entry] is left with is a 16-bit value. *)
Lemma sdr_alloc_loop_range fuel l start next_entry record_id next_entry' :
  0 <= next_entry < 65536 →
  sdr_alloc_loop fuel l start next_entry = Some (Assigned record_id next_entry') →
  0 <= record_id < 65536.
Proof.
  revert next_entry. induction fuel as [|fuel IH]; intros next_entry Hr; cbn.
  - case_bool_decide as Hb; [discriminate|]. intros Heq. inversion Heq; subst. exact Hr.
  - case_bool_decide as Hb.
    + case_bool_decide as Hb1; [discriminate|]. apply IH.
      case_bool_decide as Hb2; [lia|]. unfold u16.
      pose proof (Z.mod_pos_bound (next_entry + 1) 65536). lia.
    + intros Heq. inversion Heq; subst. exact Hr.
Qed.

(** What a successful Add SDR stores. *)
Lemma handle_add_sdr_stored (now : Z) (mc mc' : lmc_data_t) (msg : ipmi_msg_t)
    (r r' : rsp_t) (l : list sdr_t) :
  sdrs_sdrs (mc_main_sdrs mc) = Live l →
  0 <= sdrs_next_entry (mc_main_sdrs mc) < 65536 →
  0 <= byte_at (msg_data msg) 5 < 256 →
  3 <= Z.of_nat (length (rdata r)) →
  handle_add_sdr now mc msg r = Some (mc', r') →
  byte_at (rdata r') 0 = 0 →
  ∃ e, sdrs_sdrs (mc_main_sdrs mc') = Live (l ++ [e]) ∧
       find_sdr_by_recid l (sdr_record_id e) = None ∧
       0 <= sdr_record_id e < 65536 ∧
       ipmi_get_uint16 (rdata r') 1 = sdr_record_id e ∧
       rdata_len r' = 3 ∧
       sdr_length e = msg_data_len msg ∧
       sdr_data e = memcpy (ipmi_set_uint16 (malloc (msg_data_len msg)) 0 (sdr_record_id e))
                      2 (msg_data msg) 2 (msg_data_len msg - 2) ∧
       mc_device_support mc' = mc_device_support mc ∧
       sdrs_flags (mc_main_sdrs mc') = sdrs_flags (mc_main_sdrs mc) ∧
       sdrs_reservation (mc_main_sdrs mc') = sdrs_reservation (mc_main_sdrs mc) ∧
       sdrs_sdr_count (mc_main_sdrs mc') = u16 (sdrs_sdr_count (mc_main_sdrs mc) + 1).
Proof.
  intros Hl Hnext Hb5 Hbuf. unfold handle_add_sdr, new_sdr_entry, handle_invalid_cmd.
  generalize sdr_alloc_fuel. intros fuel Hadd Hcc.
  assert (Hfail : ∀ cc, cc ≠ 0 → byte_at (rdata (rsp_cc cc r)) 0 = 0 → False).
  { intros cc Hne. rewrite rsp_cc_byte0 by lia. exact Hne. }
  destruct (negb _); [injection Hadd as <- <-; by apply Hfail in Hcc|].
  destruct (modal_refused mc); [injection Hadd as <- <-; by apply Hfail in Hcc|].
  destruct (check_msg_length msg 6); [injection Hadd as <- <-; by apply Hfail in Hcc|].
  destruct (msg_data_len msg =? byte_at (msg_data msg) 5 + 6) eqn:Hlen; cbn [negb] in Hadd;
    [|injection Hadd as <- <-; by apply Hfail in Hcc].
  apply Z.eqb_eq in Hlen.
  rewrite Hl in Hadd. cbn [nodes mbind option_bind] in Hadd.
  destruct (sdr_alloc_loop _ _ _ _) as [[id next|next]|] eqn:Hloop;
    cbn [mbind option_bind] in Hadd;
    [|injection Hadd as <- <-; by apply Hfail in Hcc|discriminate].
  cbn [sdrs_sdrs set_sdrs_next_entry mc_main_sdrs set_mc_main_sdrs add_sdr_entry
       nodes mbind option_bind] in Hadd.
  unfold add_sdr_entry in Hadd.
  cbn [sdrs_sdrs set_sdrs_next_entry mc_main_sdrs set_mc_main_sdrs
       nodes mbind option_bind] in Hadd.
  rewrite Hl in Hadd. cbn [nodes mbind option_bind] in Hadd.
  injection Hadd as <- <-.
  pose proof (sdr_alloc_loop_range _ _ _ _ _ _ Hnext Hloop) as Hrange.
  apply sdr_alloc_loop_fresh in Hloop.
  assert (Hu : u8 (byte_at (msg_data msg) 5) = byte_at (msg_data msg) 5).
  { unfold u8. apply Z.mod_small. lia. }
  eexists. split; [reflexivity|].
  cbn [sdr_record_id sdr_length sdr_data set_sdr_data rdata rdata_len
       mc_device_support set_mc_main_sdrs mc_main_sdrs sdrs_flags sdrs_reservation
       sdrs_sdr_count set_sdrs_next_entry].
  rewrite Hu, <- Hlen.
  split; [exact Hloop|]. split; [exact Hrange|]. split.
  { rewrite get_set_uint16 by (rewrite ?set_byte_length; lia).
    apply Z.mod_small. exact Hrange. }
  repeat (split; [reflexivity|]). reflexivity.
Qed.

(** The record Add SDR builds: the request with the record id in its first
    two bytes. *)
Lemma sdr_record_bytes (d : list Z) (n id j : Z) :
  2 <= n → n <= Z.of_nat (length d) → 0 <= j < n →
  byte_at (memcpy (ipmi_set_uint16 (malloc n) 0 id) 2 d 2 (n - 2)) j =
  byte_at (ipmi_set_uint16 d 0 id) j.
Proof.
  intros Hn Hd Hj. rewrite byte_at_memcpy by lia.
  rewrite ipmi_set_uint16_length, length_malloc.
  rewrite !byte_at_ipmi_set_uint16 by (rewrite ?length_malloc; lia).
  repeat case_bool_decide; try reflexivity; try lia.
  f_equal. lia.
Qed.

(** X14.  A successful Add SDR keeps the record ids of the repository
    pairwise distinct: it appends one record whose id no other record has,
    counts it, returns its id, and stores the bytes of the request with the
    record id written over the first two. *)
Theorem add_sdr_keeps_ids_distinct (now : Z) (mc mc' : lmc_data_t) (msg : ipmi_msg_t)
    (r r' : rsp_t) (l : list sdr_t) :
  sdrs_sdrs (mc_main_sdrs mc) = Live l →
  NoDup (sdr_record_id <$> l) →
  0 <= sdrs_next_entry (mc_main_sdrs mc) < 65536 →
  0 <= byte_at (msg_data msg) 5 < 256 →
  msg_data_len msg <= Z.of_nat (length (msg_data msg)) →
  3 <= Z.of_nat (length (rdata r)) →
  handle_add_sdr now mc msg r = Some (mc', r') →
  byte_at (rdata r') 0 = 0 →
  ∃ e, sdrs_sdrs (mc_main_sdrs mc') = Live (l ++ [e]) ∧
       NoDup (sdr_record_id <$> l ++ [e]) ∧
       sdrs_sdr_count (mc_main_sdrs mc') = u16 (sdrs_sdr_count (mc_main_sdrs mc) + 1) ∧
       ipmi_get_uint16 (rdata r') 1 = sdr_record_id e ∧
       sdr_length e = msg_data_len msg ∧
       read_bytes (sdr_data e) 0 (msg_data_len msg) =
         read_bytes (ipmi_set_uint16 (msg_data msg) 0 (sdr_record_id e)) 0 (msg_data_len msg).
Proof.
  intros Hl Hnd Hnext Hb5 Hd Hbuf Hadd Hcc.
  assert (Hlen : 6 <= msg_data_len msg).
  { revert Hadd Hcc. unfold handle_add_sdr, handle_invalid_cmd.
    destruct (negb _); [intros [= <- <-]; rewrite rsp_cc_byte0 by lia; discriminate|].
    destruct (modal_refused mc); [intros [= <- <-]; rewrite rsp_cc_byte0 by lia; discriminate|].
    unfold check_msg_length. case_bool_decide as Hb;
      [intros [= <- <-]; rewrite rsp_cc_byte0 by lia; discriminate|].
    intros _ _. lia. }
  destruct (handle_add_sdr_stored now mc mc' msg r r' l Hl Hnext Hb5 Hbuf Hadd Hcc)
    as (e & Hl' & Hfresh & Hrange & Hid & _ & Hsl & Hdata & _ & _ & _ & Hcount).
  exists e. split; [exact Hl'|]. split.
  { rewrite fmap_app. apply NoDup_app. split; [exact Hnd|]. split.
    - intros x Hx. cbn. rewrite list_elem_of_singleton. intros ->.
      apply find_sdr_None in Hfresh. contradiction.
    - cbn. apply NoDup_singleton. }
  split; [exact Hcount|]. split; [exact Hid|]. split; [exact Hsl|].
  apply read_bytes_ext. intros j Hj. rewrite !Z.add_0_l, Hdata.
  apply sdr_record_bytes; lia.
Qed.

(** The theorem at a second Add SDR to the repository of a new MC, which
    holds the record with the id 0 of the first: the new record gets the
    id 1. *)
Lemma add_sdr_keeps_ids_distinct_witness :
  let mc := default bmc one_sdr in
  one_sdr = Some mc ∧
  ∃ l mc' r',
    sdrs_sdrs (mc_main_sdrs mc) = Live l ∧
    sdr_record_id <$> l = [0] ∧
    handle_add_sdr 2001 mc add_sdr_request (rbuf 0) = Some (mc', r') ∧
    ∃ e, sdrs_sdrs (mc_main_sdrs mc') = Live (l ++ [e]) ∧
         NoDup (sdr_record_id <$> l ++ [e]) ∧
         sdrs_sdr_count (mc_main_sdrs mc')
           = u16 (sdrs_sdr_count (mc_main_sdrs mc) + 1) ∧
         ipmi_get_uint16 (rdata r') 1 = sdr_record_id e ∧
         sdr_length e = msg_data_len add_sdr_request ∧
         read_bytes (sdr_data e) 0 (msg_data_len add_sdr_request) =
           read_bytes (ipmi_set_uint16 (msg_data add_sdr_request) 0 (sdr_record_id e))
             0 (msg_data_len add_sdr_request).
Proof.
  intros mc. split; [vm_compute; reflexivity|].
  do 3 eexists.
  split; [vm_compute; reflexivity|]. split; [vm_compute; reflexivity|].
  split; [vm_compute; reflexivity|].
  eapply (add_sdr_keeps_ids_distinct 2001 mc _ add_sdr_request (rbuf 0) _ _);
    try (by vm_compute).
  apply (bool_decide_unpack _). vm_compute. exact I.
Defined.

(** X15.  Add SDR followed by Get SDR for the record id that was returned
    (not 0 and not 0xffff): the record is the last one (next record id
    0xffff) and the data are the bytes of the Add SDR request, the record
    id written over the first two, from the offset on and as many as were
    asked for and fit the record. *)
Theorem add_sdr_then_get_sdr (now : Z) (mc mc' : lmc_data_t) (msg g : ipmi_msg_t)
    (r r' rg : rsp_t) (l : list sdr_t) :
  sdrs_sdrs (mc_main_sdrs mc) = Live l →
  NoDup (sdr_record_id <$> l) →
  0 <= sdrs_next_entry (mc_main_sdrs mc) < 65536 →
  0 <= byte_at (msg_data msg) 5 < 256 →
  msg_data_len msg <= Z.of_nat (length (msg_data msg)) →
  3 <= Z.of_nat (length (rdata r)) →
  handle_add_sdr now mc msg r = Some (mc', r') →
  byte_at (rdata r') 0 = 0 →
  let id := ipmi_get_uint16 (rdata r') 1 in
  id ≠ 0 → id ≠ 0xffff →
  6 <= msg_data_len g →
  (has_bit (sdrs_flags (mc_main_sdrs mc)) IPMI_SDR_RESERVE_SDR_SUPPORTED
   && bad_reservation g (sdrs_reservation (mc_main_sdrs mc))) = false →
  u16 (ipmi_get_uint16 (msg_data g) 2) = id →
  let offset := byte_at (msg_data g) 4 in
  let count := Z.min (byte_at (msg_data g) 5) (msg_data_len msg - offset) in
  0 <= offset < msg_data_len msg →
  0 <= byte_at (msg_data g) 5 →
  count + 3 <= rdata_len rg →
  count + 3 <= Z.of_nat (length (rdata rg)) →
  ∃ rg', handle_get_sdr mc' g rg = Some (mc', rg') ∧
         byte_at (rdata rg') 0 = 0 ∧
         ipmi_get_uint16 (rdata rg') 1 = 0xffff ∧
         rdata_len rg' = count + 3 ∧
         read_bytes (rdata rg') 3 count =
           read_bytes (ipmi_set_uint16 (msg_data msg) 0 id) offset count.
Proof.
  intros Hl Hnd Hnext Hb5 Hd Hbuf Hadd Hcc id H0 Hf Hglen Hres Hgid offset count
         Hoff Hcnt Hroom Hgbuf.
  assert (Hlen : 6 <= msg_data_len msg).
  { revert Hadd Hcc. unfold handle_add_sdr, handle_invalid_cmd.
    destruct (negb _); [intros [= <- <-]; rewrite rsp_cc_byte0 by lia; discriminate|].
    destruct (modal_refused mc); [intros [= <- <-]; rewrite rsp_cc_byte0 by lia; discriminate|].
    unfold check_msg_length. case_bool_decide as Hb;
      [intros [= <- <-]; rewrite rsp_cc_byte0 by lia; discriminate|].
    intros _ _. lia. }
  assert (Hdev : has_bit (mc_device_support mc) IPMI_DEVID_SDR_REPOSITORY_DEV = true).
  { revert Hadd Hcc. unfold handle_add_sdr, handle_invalid_cmd.
    destruct (has_bit (mc_device_support mc) IPMI_DEVID_SDR_REPOSITORY_DEV);
      [reflexivity|].
    cbn [negb]. intros [= <- <-]. rewrite rsp_cc_byte0 by lia. discriminate. }
  destruct (handle_add_sdr_stored now mc mc' msg r r' l Hl Hnext Hb5 Hbuf Hadd Hcc)
    as (e & Hl' & Hfresh & Hrange & Hid & _ & Hsl & Hdata & Hdev' & Hfl & Hrs & _).
  fold id in Hid.
  assert (Hnd' : NoDup (sdr_record_id <$> l ++ [e])).
  { rewrite fmap_app. apply NoDup_app. split; [exact Hnd|]. split.
    - intros x Hx. cbn. rewrite list_elem_of_singleton. intros ->.
      apply find_sdr_None in Hfresh. contradiction.
    - cbn. apply NoDup_singleton. }
  assert (Hi : (l ++ [e]) !! length l = Some e).
  { rewrite lookup_app_r by lia. rewrite Nat.sub_diag. reflexivity. }
  destruct (handle_get_sdr_found mc' g rg (l ++ [e]) (length l) e)
    as (rg' & Hget & Hb0 & Hnx & Hrl & Hbytes); try assumption.
  - rewrite Hdev'. exact Hdev.
  - rewrite Hfl, Hrs. exact Hres.
  - rewrite <- Hid. exact Hgid.
  - rewrite <- Hid. exact H0.
  - rewrite <- Hid. exact Hf.
  - rewrite Hsl. exact Hoff.
  - rewrite Hsl. exact Hroom.
  - rewrite Hsl. exact Hgbuf.
  - rewrite Hsl in Hrl, Hbytes. fold offset count in Hrl, Hbytes.
    exists rg'. split; [exact Hget|]. split; [exact Hb0|]. split.
    { rewrite Hnx. rewrite lookup_ge_None_2 by (rewrite length_app; cbn; lia).
      reflexivity. }
    split; [exact Hrl|]. rewrite Hbytes.
    apply read_bytes_ext. intros j Hj. rewrite Hdata, <- Hid.
    apply sdr_record_bytes; subst count offset; lia.
Qed.

(** The theorem at the second Add SDR to the repository of a new MC, whose
    record gets the id 1 and is read back in full. *)
Lemma add_sdr_then_get_sdr_witness :
  let g := {| msg_netfn := 0x0a; msg_cmd := 0x23; msg_data := [0; 0; 1; 0; 0; 0xff];
              msg_data_len := 6 |} in
  let mc := default bmc one_sdr in
  one_sdr = Some mc ∧
  ∃ mc' r',
    handle_add_sdr 2001 mc add_sdr_request (rbuf 0) = Some (mc', r') ∧
    let id := ipmi_get_uint16 (rdata r') 1 in
    let count := Z.min (byte_at (msg_data g) 5)
                       (msg_data_len add_sdr_request - byte_at (msg_data g) 4) in
    ∃ rg', handle_get_sdr mc' g (rbuf 0) = Some (mc', rg') ∧
           byte_at (rdata rg') 0 = 0 ∧
           ipmi_get_uint16 (rdata rg') 1 = 0xffff ∧
           rdata_len rg' = count + 3 ∧
           read_bytes (rdata rg') 3 count =
             read_bytes (ipmi_set_uint16 (msg_data add_sdr_request) 0 id)
               (byte_at (msg_data g) 4) count.
Proof.
  intros g mc. split; [vm_compute; reflexivity|].
  do 2 eexists. split; [vm_compute; reflexivity|].
  eapply (add_sdr_then_get_sdr 2001 mc _ add_sdr_request g (rbuf 0) _ (rbuf 0) _);
    try (by vm_compute).
  apply (bool_decide_unpack _). vm_compute. exact I.
Defined.

(** *** The capability byte of the main SDR repository *)

(** No bit is set in the byte 0. *)
Lemma has_bit_zero (m : Z) : has_bit 0 m = false.
Proof. reflexivity. Qed.

(** [new_sdr_entry] writes [next_entry] only. *)
Lemma new_sdr_entry_keeps (sdrs sdrs' : sdrs_t) (length : Z) (e : option sdr_t) :
  new_sdr_entry sdrs length = Some (sdrs', e) →
  sdrs_flags sdrs' = sdrs_flags sdrs ∧ sdrs_reservation sdrs' = sdrs_reservation sdrs
  ∧ sdrs_time_offset sdrs' = sdrs_time_offset sdrs.
Proof.
  unfold new_sdr_entry. generalize sdr_alloc_fuel. intros fuel H.
  destruct (nodes (sdrs_sdrs sdrs)) as [l|]; cbn [mbind option_bind] in H; [|done].
  destruct (sdr_alloc_loop fuel l _ _) as [[id next|next]|];
    cbn [mbind option_bind] in H; [| |done]; by injection H as <- _.
Qed.

(** With the capability byte 0, no reservation, outside the update mode
    and without a working record, a command of the repository leaves all
    four as they are. *)
Lemma run_sdr_command_keeps (c : sdr_command) (now : Z) (mc mc' : lmc_data_t)
    (msg : ipmi_msg_t) (r r' : rsp_t) :
  sdrs_flags (mc_main_sdrs mc) = 0 →
  sdrs_reservation (mc_main_sdrs mc) = 0 →
  mc_in_update_mode mc = 0 →
  mc_part_add_sdr mc = None →
  run_sdr_command c now mc msg r = Some (mc', r') →
  sdrs_flags (mc_main_sdrs mc') = 0 ∧ sdrs_reservation (mc_main_sdrs mc') = 0 ∧
  mc_in_update_mode mc' = 0 ∧ mc_part_add_sdr mc' = None.
Proof.
  intros Hf Hr Hu Hp. destruct c; cbn [run_sdr_command].
  - (* Get SDR *)
    unfold handle_get_sdr. intros H.
    assert (mc' = mc) as ->; [|done].
    repeat (case_match; simplify_option_eq; try done).
  - (* Add SDR *)
    unfold handle_add_sdr, add_sdr_entry. intros H.
    destruct (negb _); [by simplify_eq|].
    destruct (modal_refused mc); [by simplify_eq|].
    destruct (check_msg_length msg 6); [by simplify_eq|].
    destruct (negb _); [by simplify_eq|].
    destruct (new_sdr_entry _ _) as [[sdrs e]|] eqn:Hn; cbn [mbind option_bind] in H; [|done].
    apply new_sdr_entry_keeps in Hn as (Hf' & Hr' & _).
    destruct e as [entry|]; [|injection H as <- _; cbn; by rewrite Hf', Hr'].
    cbn [mc_main_sdrs set_mc_main_sdrs] in H.
    destruct (nodes (sdrs_sdrs sdrs)) as [l|]; cbn [mbind option_bind] in H; [|done].
    injection H as <- _. cbn. by rewrite Hf', Hr'.
  - (* Partial Add SDR *)
    rewrite handle_partial_add_sdr_unsupported by (rewrite Hf; reflexivity).
    by intros [= <- _].
  - (* Delete SDR *)
    unfold handle_delete_sdr. intros H.
    repeat (case_match; simplify_option_eq; try done).
  - (* Clear SDR Repository *)
    unfold handle_clear_sdr_repository. intros H.
    repeat (case_match; simplify_option_eq; try done).
  - (* Reserve SDR Repository *)
    unfold handle_reserve_sdr_repository. rewrite Hf, has_bit_zero.
    intros H. by repeat (case_match; simplify_eq).
  - unfold handle_get_sdr_repository_time. intros H.
    by repeat (case_match; simplify_eq).
  - unfold handle_set_sdr_repository_time. intros H.
    by repeat (case_match; simplify_eq).
  - unfold handle_enter_sdr_repository_update, not_modal. rewrite Hf.
    intros H. by repeat (case_match; simplify_eq).
  - unfold handle_exit_sdr_repository_update, not_modal. rewrite Hf.
    intros H. by repeat (case_match; simplify_eq).
Qed.

Lemma run_sdr_commands_keep (cmds : list (sdr_command * Z * ipmi_msg_t * rsp_t))
    (mc mc' : lmc_data_t) :
  sdrs_flags (mc_main_sdrs mc) = 0 →
  sdrs_reservation (mc_main_sdrs mc) = 0 →
  mc_in_update_mode mc = 0 →
  mc_part_add_sdr mc = None →
  run_sdr_commands mc cmds = Some mc' →
  sdrs_flags (mc_main_sdrs mc') = 0 ∧ sdrs_reservation (mc_main_sdrs mc') = 0 ∧
  mc_in_update_mode mc' = 0 ∧ mc_part_add_sdr mc' = None.
Proof.
  revert mc. induction cmds as [|[[[c now] msg] r] cmds IH]; intros mc Hf Hr Hu Hp.
  - by intros [= <-].
  - cbn [run_sdr_commands].
    destruct (run_sdr_command c now mc msg r) as [[mc1 r1]|] eqn:Hc;
      cbn [mbind option_bind]; [|done].
    destruct (run_sdr_command_keeps c now mc mc1 msg r r1 Hf Hr Hu Hp Hc)
      as (Hf1 & Hr1 & Hu1 & Hp1).
    by apply IH.
Qed.

(** X11.  On the MC that [ipmi_emu_add_mc] creates, after any sequence of
    commands to the main SDR repository (Get, Add, Partial Add, Delete,
    Clear, Reserve, Get and Set Time, Enter and Exit Update), whatever the
    requests: the capability byte is still 0, no reservation was given, the
    MC is not in update mode and no partial add is in progress; so Reserve
    SDR Repository, Enter and Exit SDR Repository Update and Partial Add
    SDR are answered 0xC1 and change nothing. *)
Theorem sdr_capabilities_stay_off (now : Z)
    (ipmb device_id has_device_sdrs device_revision major_fw_rev minor_fw_rev
     device_support : Z) (mfg_id product_id : list Z) (dynamic_sensor_population : Z)
    (cmds : list (sdr_command * Z * ipmi_msg_t * rsp_t)) (mc : lmc_data_t) :
  run_sdr_commands
    (new_mc now ipmb device_id has_device_sdrs device_revision major_fw_rev
       minor_fw_rev device_support mfg_id product_id dynamic_sensor_population)
    cmds = Some mc →
  sdrs_flags (mc_main_sdrs mc) = 0 ∧
  sdrs_reservation (mc_main_sdrs mc) = 0 ∧
  mc_in_update_mode mc = 0 ∧
  mc_part_add_sdr mc = None ∧
  (∀ msg r, handle_reserve_sdr_repository mc msg r = (mc, rsp_cc 0xC1 r)) ∧
  (∀ msg r, handle_enter_sdr_repository_update mc msg r = (mc, rsp_cc 0xC1 r)) ∧
  (∀ msg r, handle_exit_sdr_repository_update mc msg r = (mc, rsp_cc 0xC1 r)) ∧
  (∀ now' msg r, handle_partial_add_sdr now' mc msg r = Some (mc, rsp_cc 0xC1 r)).
Proof.
  intros Hrun.
  apply run_sdr_commands_keep in Hrun as (Hf & Hr & Hu & Hp); try reflexivity.
  repeat (split; [assumption|]).
  split; [|split; [|split]].
  - intros msg r. unfold handle_reserve_sdr_repository, handle_invalid_cmd.
    rewrite Hf, has_bit_zero. by destruct (negb _).
  - intros msg r. unfold handle_enter_sdr_repository_update, not_modal, handle_invalid_cmd.
    rewrite Hf. by destruct (negb _).
  - intros msg r. unfold handle_exit_sdr_repository_update, not_modal, handle_invalid_cmd.
    rewrite Hf. by destruct (negb _).
  - intros now' msg r. apply handle_partial_add_sdr_unsupported. by rewrite Hf.
Qed.

(** The theorem at the commands of [sdr_session], which leave the record
    with the id 1 in the repository. *)
Lemma sdr_capabilities_stay_off_witness :
  ∃ mc l,
    run_sdr_commands bmc sdr_session = Some mc ∧
    sdrs_sdrs (mc_main_sdrs mc) = Live l ∧ sdr_record_id <$> l = [1] ∧
    sdrs_flags (mc_main_sdrs mc) = 0 ∧
    sdrs_reservation (mc_main_sdrs mc) = 0 ∧
    mc_in_update_mode mc = 0 ∧
    mc_part_add_sdr mc = None ∧
    (∀ msg r, handle_reserve_sdr_repository mc msg r = (mc, rsp_cc 0xC1 r)) ∧
    (∀ msg r, handle_enter_sdr_repository_update mc msg r = (mc, rsp_cc 0xC1 r)) ∧
    (∀ msg r, handle_exit_sdr_repository_update mc msg r = (mc, rsp_cc 0xC1 r)) ∧
    (∀ now' msg r, handle_partial_add_sdr now' mc msg r = Some (mc, rsp_cc 0xC1 r)).
Proof.
  do 2 eexists. split; [vm_compute; reflexivity|].
  split; [vm_compute; reflexivity|]. split; [vm_compute; reflexivity|].
  eapply (sdr_capabilities_stay_off 1000 0x20 0x20 1 1 2 0 0xBF [0x12; 0x34; 0x56]
            [0x78; 0x9A] 0 sdr_session).
  vm_compute; reflexivity.
Defined.

(** ** FRU data *)

(** X16.  Write FRU Data inside the inventory area, followed by Read FRU
    Data of the same device, offset and count: both answer 0 and the count,
    and the bytes read are the bytes written. *)
Theorem fru_write_then_read (frus : gmap Z fru_data_t) (w g : ipmi_msg_t)
    (rw rg : rsp_t) (fru : fru_data_t) :
  3 <= msg_data_len w →
  byte_at (msg_data w) 0 < 255 →
  frus !! byte_at (msg_data w) 0 = Some fru →
  Z.of_nat (length (fru_data fru)) = fru_length fru →
  let offset := ipmi_get_uint16 (msg_data w) 1 in
  let count := msg_data_len w - 3 in
  0 <= offset < fru_length fru →
  offset + count <= fru_length fru →
  4 <= msg_data_len g →
  byte_at (msg_data g) 0 = byte_at (msg_data w) 0 →
  ipmi_get_uint16 (msg_data g) 1 = offset →
  byte_at (msg_data g) 3 = count →
  count + 2 <= rdata_len rg →
  count + 2 <= Z.of_nat (length (rdata rg)) →
  2 <= Z.of_nat (length (rdata rw)) →
  let frus' := fst (handle_write_fru_data frus w rw) in
  let r' := snd (handle_write_fru_data frus w rw) in
  let r'' := handle_read_fru_data frus' g rg in
  byte_at (rdata r') 0 = 0 ∧ byte_at (rdata r') 1 = u8 count ∧ rdata_len r' = 2 ∧
  byte_at (rdata r'') 0 = 0 ∧ byte_at (rdata r'') 1 = u8 count ∧
  rdata_len r'' = 2 + count ∧
  read_bytes (rdata r'') 2 count = read_bytes (msg_data w) 3 count.
Proof.
  intros Hwlen Hdev Hfru Hinv offset count Hoff Hfit Hglen Hgdev Hgoff Hgcnt Hroom Hgbuf
         Hwbuf.
  unfold handle_write_fru_data, fru_device, check_msg_length.
  rewrite (bool_decide_eq_false_2 (msg_data_len w < 3)) by lia.
  rewrite (bool_decide_eq_false_2 (byte_at (msg_data w) 0 >= 255)) by lia.
  rewrite Hfru. fold offset count.
  rewrite (bool_decide_eq_false_2 (offset >= fru_length fru)) by lia.
  rewrite (bool_decide_eq_false_2 (offset + count > fru_length fru)) by lia.
  cbn [fst snd rdata rdata_len].
  split.
  { rewrite !byte_at_set_byte, !set_byte_length.
    rewrite bool_decide_eq_false_2 by lia. rewrite bool_decide_eq_true_2 by lia.
    reflexivity. }
  split.
  { rewrite byte_at_set_byte, set_byte_length.
    rewrite bool_decide_eq_true_2 by lia. reflexivity. }
  split; [reflexivity|].
  unfold handle_read_fru_data, fru_device, check_msg_length.
  rewrite (bool_decide_eq_false_2 (msg_data_len g < 4)) by lia.
  rewrite Hgdev.
  rewrite (bool_decide_eq_false_2 (byte_at (msg_data w) 0 >= 255)) by lia.
  rewrite lookup_insert_eq. cbn [fru_length fru_data].
  rewrite Hgoff, Hgcnt.
  rewrite (bool_decide_eq_false_2 (offset >= fru_length fru)) by lia.
  rewrite (bool_decide_eq_false_2 (offset + count > fru_length fru)) by lia.
  rewrite (bool_decide_eq_false_2 (count + 2 > rdata_len rg)) by lia.
  cbn [rdata rdata_len].
  assert (Hc : 0 <= count) by (subst count; lia).
  split.
  { rewrite byte_at_memcpy by lia. rewrite bool_decide_eq_false_2 by lia.
    rewrite !byte_at_set_byte, !set_byte_length.
    rewrite bool_decide_eq_false_2 by lia. rewrite bool_decide_eq_true_2 by lia.
    reflexivity. }
  split.
  { rewrite byte_at_memcpy by lia. rewrite bool_decide_eq_false_2 by lia.
    rewrite byte_at_set_byte, set_byte_length.
    rewrite bool_decide_eq_true_2 by lia. reflexivity. }
  split; [reflexivity|].
  rewrite read_bytes_memcpy by (rewrite ?set_byte_length; lia).
  apply read_bytes_memcpy; lia.
Qed.

(** The theorem at three bytes written at offset 5 of a 16 byte area. *)
Lemma fru_write_then_read_witness :
  let w := write_fru_request in
  let g := read_fru_request 5 3 in
  let count := msg_data_len w - 3 in
  let frus' := fst (handle_write_fru_data demo_frus w (rbuf 0)) in
  let r' := snd (handle_write_fru_data demo_frus w (rbuf 0)) in
  let r'' := handle_read_fru_data frus' g (rbuf 0) in
  byte_at (rdata r') 0 = 0 ∧ byte_at (rdata r') 1 = u8 count ∧ rdata_len r' = 2 ∧
  byte_at (rdata r'') 0 = 0 ∧ byte_at (rdata r'') 1 = u8 count ∧
  rdata_len r'' = 2 + count ∧
  read_bytes (rdata r'') 2 count = read_bytes (msg_data w) 3 count.
Proof.
  intros w g.
  eapply (fru_write_then_read demo_frus w g (rbuf 0) (rbuf 0)); by vm_compute.
Defined.

(** X17.  Write FRU Data never changes the size of an inventory area, never
    creates or removes a device and never touches another device; a request
    that is answered with a completion code other than 0 changes nothing. *)
Theorem fru_write_frame (frus : gmap Z fru_data_t) (w : ipmi_msg_t) (rw : rsp_t)
    (dev : Z) :
  let frus' := fst (handle_write_fru_data frus w rw) in
  let r' := snd (handle_write_fru_data frus w rw) in
  match frus' !! dev, frus !! dev with
  | Some fru', Some fru =>
      fru_length fru' = fru_length fru ∧
      length (fru_data fru') = length (fru_data fru) ∧
      (dev ≠ byte_at (msg_data w) 0 → fru' = fru) ∧
      (0 < Z.of_nat (length (rdata rw)) → byte_at (rdata r') 0 ≠ 0 → fru' = fru)
  | None, None => True
  | _, _ => False
  end.
Proof.
  cbn zeta. unfold handle_write_fru_data, fru_device.
  assert (Hsame : ∀ r',
            match frus !! dev, frus !! dev with
            | Some fru', Some fru =>
                fru_length fru' = fru_length fru ∧
                length (fru_data fru') = length (fru_data fru) ∧
                (dev ≠ byte_at (msg_data w) 0 → fru' = fru) ∧
                (0 < Z.of_nat (length (rdata rw)) → byte_at (rdata r') 0 ≠ 0 → fru' = fru)
            | None, None => True
            | _, _ => False
            end).
  { intros r'. destruct (frus !! dev); [repeat split|exact I]. }
  destruct (check_msg_length w 3); [apply Hsame|].
  case_bool_decide as Hd; [apply Hsame|].
  destruct (frus !! byte_at (msg_data w) 0) as [fru|] eqn:Hfru; [|apply Hsame].
  case_bool_decide as H1; [apply Hsame|].
  case_bool_decide as H2; [apply Hsame|].
  cbn [fst snd rdata]. destruct (decide (dev = byte_at (msg_data w) 0)) as [->|Hne].
  - rewrite lookup_insert_eq, Hfru. cbn [fru_length fru_data].
    split; [reflexivity|]. split; [apply memcpy_length|].
    split; [intros Hc; contradiction|].
    intros Hbuf Hcc. exfalso. apply Hcc.
    rewrite !byte_at_set_byte, !set_byte_length.
    rewrite bool_decide_eq_false_2 by lia. rewrite bool_decide_eq_true_2 by lia.
    reflexivity.
  - rewrite lookup_insert_ne by (intros Heq; apply Hne; symmetry; exact Heq).
    apply (Hsame {| rdata := _; rdata_len := 2 |}).
Qed.

(** X18.  [ipmi_mc_add_fru_data] followed by Get FRU Inventory Area Info and
    Read FRU Data of the device: the area has the size given (its low 16
    bits are reported, byte access), and it holds the bytes given followed
    by zeros: a read returns them, cut at the end of the area. *)
Theorem add_fru_data_then_read (mc : lmc_data_t) (frus : gmap Z fru_data_t)
    (device_id size : Z) (data : list Z) (data_len : Z) (g : ipmi_msg_t) (rg : rsp_t) :
  has_bit (mc_device_support mc) IPMI_DEVID_FRU_INVENTORY_DEV = true →
  0 <= device_id < 255 →
  0 <= data_len <= size →
  4 <= msg_data_len g →
  byte_at (msg_data g) 0 = device_id →
  let offset := ipmi_get_uint16 (msg_data g) 1 in
  let count := Z.min (byte_at (msg_data g) 3) (size - offset) in
  0 <= offset < size →
  0 <= byte_at (msg_data g) 3 →
  count + 2 <= rdata_len rg →
  count + 2 <= Z.of_nat (length (rdata rg)) →
  4 <= Z.of_nat (length (rdata rg)) →
  let frus' := fst (ipmi_mc_add_fru_data mc frus device_id size data data_len) in
  let info := handle_get_fru_inventory_area_info frus' g rg in
  let r' := handle_read_fru_data frus' g rg in
  snd (ipmi_mc_add_fru_data mc frus device_id size data data_len) = E_OK ∧
  byte_at (rdata info) 0 = 0 ∧ ipmi_get_uint16 (rdata info) 1 = u16 size ∧
  byte_at (rdata info) 3 = 0 ∧ rdata_len info = 4 ∧
  byte_at (rdata r') 0 = 0 ∧ rdata_len r' = 2 + count ∧
  ∀ k, 0 <= k < count →
       byte_at (rdata r') (2 + k) =
       if bool_decide (offset + k < data_len) then byte_at data (offset + k) else 0.
Proof.
  intros Hdev Hid Hdl Hglen Hgdev offset count Hoff Hcnt Hroom Hbuf Hbuf4.
  unfold ipmi_mc_add_fru_data. rewrite Hdev. cbn [negb].
  rewrite (bool_decide_eq_false_2 (device_id >= 255)) by lia.
  rewrite (bool_decide_eq_false_2 (data_len > size)) by lia.
  cbn [fst snd]. split; [reflexivity|].
  set (bytes := memcpy (memset (malloc size) 0 0 size) 0 data 0 data_len).
  assert (Hlen : Z.of_nat (length bytes) = size).
  { subst bytes. rewrite memcpy_length, memset_length, length_malloc. lia. }
  assert (Hbytes : ∀ j, 0 <= j < size →
            byte_at bytes j = if bool_decide (j < data_len) then byte_at data j else 0).
  { intros j Hj. subst bytes. rewrite byte_at_memcpy by lia.
    rewrite memset_length, length_malloc, byte_at_memset_zero.
    repeat case_bool_decide; try reflexivity; try lia.
    f_equal. lia. }
  assert (Hgroup : ∀ A1 A2 A3 A4 B : Prop,
            A1 ∧ A2 ∧ A3 ∧ A4 → B → A1 ∧ A2 ∧ A3 ∧ A4 ∧ B) by (intros; tauto).
  apply Hgroup.
  - unfold handle_get_fru_inventory_area_info, fru_device,
      check_msg_length.
    rewrite (bool_decide_eq_false_2 (msg_data_len g < 1)) by lia.
    rewrite Hgdev. rewrite (bool_decide_eq_false_2 (device_id >= 255)) by lia.
    rewrite lookup_insert_eq. cbn [fru_length rdata rdata_len].
    split.
    { rewrite byte_at_set_byte, ipmi_set_uint16_length, set_byte_length.
      rewrite bool_decide_eq_false_2 by lia.
      rewrite byte_at_ipmi_set_uint16 by (rewrite ?set_byte_length; lia).
      rewrite !bool_decide_eq_false_2 by lia.
      rewrite byte_at_set_byte. rewrite bool_decide_eq_true_2 by lia. reflexivity. }
    split.
    { unfold ipmi_get_uint16. rewrite !byte_at_set_byte.
      rewrite !bool_decide_eq_false_2 by lia.
      apply (get_set_uint16 (set_byte (rdata rg) 0 0) 1 size);
        rewrite ?set_byte_length; lia. }
    split; [|reflexivity].
    rewrite byte_at_set_byte, ipmi_set_uint16_length, set_byte_length.
    rewrite bool_decide_eq_true_2 by lia. reflexivity.
  - unfold handle_read_fru_data, fru_device, check_msg_length.
    rewrite (bool_decide_eq_false_2 (msg_data_len g < 4)) by lia.
    rewrite Hgdev. rewrite (bool_decide_eq_false_2 (device_id >= 255)) by lia.
    rewrite lookup_insert_eq. cbn [fru_length fru_data]. fold offset.
    rewrite (bool_decide_eq_false_2 (offset >= size)) by lia.
    set (c := if bool_decide (offset + byte_at (msg_data g) 3 > size)
              then size - offset else byte_at (msg_data g) 3).
    assert (Hc : c = count) by (subst c count; case_bool_decide; lia).
    rewrite Hc.
    assert (Hc0 : 0 <= count) by (subst count; lia).
    rewrite (bool_decide_eq_false_2 (count + 2 > rdata_len rg)) by lia.
    cbn [rdata rdata_len].
    split.
    { rewrite byte_at_memcpy by lia. rewrite bool_decide_eq_false_2 by lia.
      rewrite !byte_at_set_byte, !set_byte_length.
      rewrite bool_decide_eq_false_2 by lia. rewrite bool_decide_eq_true_2 by lia.
      reflexivity. }
    split; [reflexivity|].
    intros k Hk. rewrite byte_at_memcpy by lia.
    rewrite !set_byte_length. rewrite bool_decide_eq_true_2 by lia.
    replace (offset + (2 + k - 2)) with (offset + k) by lia.
    apply Hbytes. subst count. lia.
Qed.

(** The theorem at an area of 16 bytes that begins with 1, 2, 3, 4. *)
Lemma add_fru_data_then_read_witness :
  let g := read_fru_request 2 0xff in
  let offset := ipmi_get_uint16 (msg_data g) 1 in
  let count := Z.min (byte_at (msg_data g) 3) (16 - offset) in
  let frus' := fst (ipmi_mc_add_fru_data bmc ∅ 3 16 [1; 2; 3; 4] 4) in
  let info := handle_get_fru_inventory_area_info frus' g (rbuf 0) in
  let r' := handle_read_fru_data frus' g (rbuf 0) in
  snd (ipmi_mc_add_fru_data bmc ∅ 3 16 [1; 2; 3; 4] 4) = E_OK ∧
  byte_at (rdata info) 0 = 0 ∧ ipmi_get_uint16 (rdata info) 1 = u16 16 ∧
  byte_at (rdata info) 3 = 0 ∧ rdata_len info = 4 ∧
  byte_at (rdata r') 0 = 0 ∧ rdata_len r' = 2 + count ∧
  ∀ k, 0 <= k < count →
       byte_at (rdata r') (2 + k) =
       if bool_decide (offset + k < 4) then byte_at [1; 2; 3; 4] (offset + k) else 0.
Proof.
  intros g.
  apply (add_fru_data_then_read bmc ∅ 3 16 [1; 2; 3; 4] 4 g (rbuf 0)); by vm_compute.
Defined.

(** ** Event receiver and power *)

Lemma land_fe_even (x : Z) : Z.land (Z.land x 0xfe) 1 = 0.
Proof. rewrite <- Z.land_assoc. change (Z.land 0xfe 1) with 0. apply Z.land_0_r. Qed.

(** An even address whose slot holds an MC is found. *)
Lemma get_mc_by_addr_even (emu : emu_data_t) (ipmb : Z) (mc : lmc_data_t) :
  Z.land ipmb 1 = 0 →
  emu_ipmb emu !! Z.shiftr ipmb 1 = Some mc →
  ipmi_emu_get_mc_by_addr emu ipmb = inl (Z.shiftr ipmb 1).
Proof.
  intros Heven Hmc. unfold ipmi_emu_get_mc_by_addr. rewrite Heven. cbn [Z.eqb negb].
  rewrite bool_decide_eq_false_2 by (rewrite Hmc; discriminate). reflexivity.
Qed.

(** X19.  Set Event Receiver followed by Get Event Receiver: the address
    comes back with its low bit cleared and the LUN with its two low bits,
    so that the address stored is never refused as odd by
    [ipmi_emu_get_mc_by_addr]. *)
Theorem event_receiver_round_trip (mc : lmc_data_t) (set get : ipmi_msg_t) (r1 r2 : rsp_t) :
  has_bit (mc_device_support mc) IPMI_DEVID_IPMB_EVENT_GEN = true →
  2 <= msg_data_len set →
  3 <= Z.of_nat (length (rdata r2)) →
  let mc' := fst (handle_set_event_receiver mc set r1) in
  let r' := handle_get_event_receiver mc' get r2 in
  rdata_len r' = 3 ∧
  read_bytes (rdata r') 0 3 =
    [0; Z.land (byte_at (msg_data set) 0) 0xfe; Z.land (byte_at (msg_data set) 1) 0x3] ∧
  ∀ emu, ipmi_emu_get_mc_by_addr emu (mc_event_receiver mc') ≠ inr EINVAL.
Proof.
  intros Hdev Hlen Hbuf. unfold handle_set_event_receiver, handle_get_event_receiver.
  rewrite Hdev. cbn [negb]. unfold check_msg_length.
  rewrite bool_decide_eq_false_2 by lia.
  cbn [fst mc_device_support set_mc_event_receiver mc_event_receiver mc_event_receiver_lun].
  rewrite Hdev. cbn [negb rdata rdata_len].
  split; [reflexivity|]. split.
  - rewrite read_bytes_0_3.
    rewrite !byte_at_set_byte, !set_byte_length.
    repeat (first [rewrite bool_decide_eq_true_2 by lia
                  |rewrite bool_decide_eq_false_2 by lia]).
    f_equal. f_equal. f_equal.
    rewrite <- Z.land_assoc. reflexivity.
  - intros emu. unfold ipmi_emu_get_mc_by_addr.
    rewrite land_fe_even. cbn. case_bool_decide; discriminate.
Qed.

(** The theorem at the address byte 0x2B and the LUN byte 0xFD. *)
Lemma event_receiver_round_trip_witness :
  let set := {| msg_netfn := 0x04; msg_cmd := 0x00; msg_data := [0x2B; 0xFD];
                msg_data_len := 2 |} in
  let mc' := fst (handle_set_event_receiver bmc set (rbuf 0)) in
  let r' := handle_get_event_receiver mc' empty_request (rbuf 0) in
  rdata_len r' = 3 ∧
  read_bytes (rdata r') 0 3 =
    [0; Z.land (byte_at (msg_data set) 0) 0xfe; Z.land (byte_at (msg_data set) 1) 0x3] ∧
  ∀ emu, ipmi_emu_get_mc_by_addr emu (mc_event_receiver mc') ≠ inr EINVAL.
Proof.
  intros set.
  apply (event_receiver_round_trip bmc set empty_request (rbuf 0) (rbuf 0)); by vm_compute.
Defined.

Lemma ipmi_mc_add_to_sel_power t_stack now mc record_type event mc' rv :
  ipmi_mc_add_to_sel t_stack now mc record_type event = Some (mc', rv) →
  mc_power_value mc' = mc_power_value mc.
Proof.
  unfold ipmi_mc_add_to_sel. generalize sel_alloc_fuel. intros fuel H.
  repeat (case_match; simplify_option_eq; try done).
Qed.

(** After [ipmi_mc_set_power] the MC holds the power value, also when the
    event goes into its own SEL. *)
Lemma ipmi_mc_set_power_value t_stack now emu k power gen_event emu' :
  ipmi_mc_set_power t_stack now emu k power gen_event = Some emu' →
  mc_power_value <$> (emu_ipmb emu' !! k) = Some power.
Proof.
  unfold ipmi_mc_set_power. intros H.
  destruct (emu_ipmb emu !! k) as [mc|] eqn:Hmc; cbn [mbind option_bind] in H; [|done].
  destruct (Z.eqb_spec (mc_power_value mc) power) as [Hp|Hp].
  { injection H as <-. rewrite Hmc. cbn. f_equal. exact Hp. }
  cbn [mc_event_receiver set_mc_power_value] in H.
  destruct ((mc_event_receiver mc =? 0) || (gen_event =? 0)).
  { injection H as <-. cbn. rewrite lookup_insert_eq. reflexivity. }
  destruct (ipmi_emu_get_mc_by_addr _ _) as [dest|].
  2: { injection H as <-. cbn. rewrite lookup_insert_eq. reflexivity. }
  cbn [emu_ipmb set_emu_ipmb] in H.
  destruct (decide (dest = k)) as [->|Hne].
  - rewrite lookup_insert_eq in H. cbn [mbind option_bind] in H.
    destruct (ipmi_mc_add_to_sel _ _ _ _ _) as [[dmc rv]|] eqn:Ha;
      cbn [mbind option_bind] in H; [|done].
    injection H as <-. cbn. rewrite lookup_insert_eq. cbn. f_equal.
    rewrite (ipmi_mc_add_to_sel_power _ _ _ _ _ _ _ Ha). reflexivity.
  - destruct (_ !! dest) as [dmc0|]; cbn [mbind option_bind] in H; [|done].
    destruct (ipmi_mc_add_to_sel _ _ _ _ _) as [[dmc rv]|] eqn:Ha;
      cbn [mbind option_bind] in H; [|done].
    injection H as <-. cbn. rewrite lookup_insert_ne by done.
    rewrite lookup_insert_eq. reflexivity.
Qed.

(** X20.  The OEM command 0x01 (set power) followed by the command 0x02 (get
    power) on the same MC: the first answers 0 and the second returns the
    value that was set, whatever event the first delivered and to whichever
    MC. *)
Theorem set_power_then_get_power (t_stack now : Z) (emu emu' : emu_data_t) (k : Z)
    (set get : ipmi_msg_t) (r r' rg : rsp_t) :
  1 <= msg_data_len set →
  2 <= Z.of_nat (length (rdata rg)) →
  msg_cmd set = 0x01 →
  msg_cmd get = 0x02 →
  handle_oem0_netfn t_stack now emu k set r = Some (emu', r') →
  r' = rsp_cc 0 r ∧
  ∃ rg', handle_oem0_netfn t_stack now emu' k get rg = Some (emu', rg') ∧
         rdata_len rg' = 2 ∧
         read_bytes (rdata rg') 0 2 = [0; byte_at (msg_data set) 0].
Proof.
  intros Hlen Hbuf Hset Hget. unfold handle_oem0_netfn. rewrite Hset, Hget.
  cbn [Z.eqb Pos.eqb]. unfold handle_set_power, check_msg_length.
  rewrite bool_decide_eq_false_2 by lia.
  destruct (ipmi_mc_set_power _ _ _ _ _ _) as [emu1|] eqn:Hp;
    cbn [mbind option_bind]; [|done].
  intros [= <- <-]. split; [reflexivity|].
  apply ipmi_mc_set_power_value in Hp.
  destruct (emu_ipmb emu1 !! k) as [mc'|]; [|discriminate].
  cbn in Hp. injection Hp as Hp.
  cbn [mbind option_bind]. eexists. split; [reflexivity|].
  unfold handle_get_power. cbn [rdata rdata_len]. split; [reflexivity|].
  rewrite read_bytes_0_2.
  rewrite !byte_at_set_byte, !set_byte_length.
  repeat (first [rewrite bool_decide_eq_true_2 by lia
                |rewrite bool_decide_eq_false_2 by lia]).
  rewrite Hp. reflexivity.
Qed.

(** The theorem at the power value 1 in a BMC that receives its own events. *)
Lemma set_power_then_get_power_witness :
  ∃ emu' r',
    handle_oem0_netfn 0 5000 (demo_emu bmc_sel) 0x10 (set_power_request 1) (rbuf 0)
      = Some (emu', r') ∧
    r' = rsp_cc 0 (rbuf 0) ∧
    ∃ rg', handle_oem0_netfn 0 5000 emu' 0x10 get_power_request (rbuf 0)
             = Some (emu', rg') ∧
           rdata_len rg' = 2 ∧
           read_bytes (rdata rg') 0 2 = [0; byte_at (msg_data (set_power_request 1)) 0].
Proof.
  do 2 eexists. split; [vm_compute; reflexivity|].
  eapply (set_power_then_get_power 0 5000 (demo_emu bmc_sel) _ 0x10
            (set_power_request 1) get_power_request (rbuf 0) _ (rbuf 0));
    by vm_compute.
Defined.

(** The record of an event in the SEL of the receiver. *)
Lemma event_record (t_stack now : Z) (dmc : lmc_data_t) (record_type : Z)
    (event : list Z) (l : list sel_entry_t) :
  record_type < 0xe0 →
  has_bit (mc_device_support dmc) IPMI_DEVID_SEL_DEVICE = true →
  sel_count (mc_sel dmc) < sel_max_count (mc_sel dmc) →
  sel_entries (mc_sel dmc) = Live l →
  find_sel_event_by_recid l (sel_next_entry (mc_sel dmc)) = None →
  u16 (sel_next_entry (mc_sel dmc) + 1) ≠ 0 →
  ∃ dmc' e,
    ipmi_mc_add_to_sel t_stack now dmc record_type event = Some (dmc', E_OK) ∧
    sel_entries (mc_sel dmc') = Live (l ++ [e]) ∧
    se_record_id e = sel_next_entry (mc_sel dmc) ∧
    byte_at (se_data e) 2 = record_type ∧
    read_bytes (se_data e) 7 9 = read_bytes event 4 9.
Proof.
  intros Hty Hdev Hroom Hl Hfresh Hnext.
  destruct (ipmi_mc_add_to_sel_next t_stack now dmc l record_type event
              Hdev Hroom Hl Hfresh Hnext)
    as (dmc' & e & Hadd & _ & Hl' & Hid & _).
  exists dmc', e. split; [exact Hadd|]. split; [exact Hl'|]. split; [exact Hid|].
  destruct (ipmi_mc_add_to_sel_entry _ _ _ _ _ _ _ Hl Hadd)
    as (e' & Hl'' & _ & _ & _ & Hrt).
  rewrite Hl' in Hl''. injection Hl'' as Hl''. apply app_inj_tail in Hl'' as [_ <-].
  split; [exact Hrt|].
  exact (proj2 (ipmi_mc_add_to_sel_stamp _ _ _ _ _ _ _ _ Hty Hadd Hl')).
Qed.

(** X21.  [do_event] with a receiver address that is set and even, events
    enabled in the sensor and asked for by the caller, and a receiving MC
    whose SEL has room and a free next record id: the receiver gets one more
    SEL entry, of type 0x02, whose bytes 7 to 15 are the address of the
    sending MC, the LUN, 0x04, the sensor type, the sensor number, the
    direction in bit 7 over the event reading code, and the three event
    bytes; no other MC changes. *)
Theorem do_event_record (t_stack now gen_event k : Z) (sensor : sensor_t)
    (emu : emu_data_t) (ev : event_t) (mc dmc : lmc_data_t) (l : list sel_entry_t) :
  emu_ipmb emu !! k = Some mc →
  mc_event_receiver mc ≠ 0 →
  s_events_enabled sensor ≠ 0 →
  gen_event ≠ 0 →
  Z.land (mc_event_receiver mc) 1 = 0 →
  let dest := Z.shiftr (mc_event_receiver mc) 1 in
  emu_ipmb emu !! dest = Some dmc →
  has_bit (mc_device_support dmc) IPMI_DEVID_SEL_DEVICE = true →
  sel_count (mc_sel dmc) < sel_max_count (mc_sel dmc) →
  sel_entries (mc_sel dmc) = Live l →
  find_sel_event_by_recid l (sel_next_entry (mc_sel dmc)) = None →
  u16 (sel_next_entry (mc_sel dmc) + 1) ≠ 0 →
  ∃ emu' dmc' e,
    do_event t_stack now gen_event k sensor emu ev = Some emu' ∧
    emu_ipmb emu' = <[dest := dmc']> (emu_ipmb emu) ∧
    sel_entries (mc_sel dmc') = Live (l ++ [e]) ∧
    se_record_id e = sel_next_entry (mc_sel dmc) ∧
    byte_at (se_data e) 2 = 0x02 ∧
    read_bytes (se_data e) 7 9 =
      [mc_ipmb mc; s_lun sensor; 0x04; s_sensor_type sensor; s_num sensor;
       u8 (Z.lor (Z.shiftl (ev_direction ev) 7) (s_event_reading_code sensor));
       ev_byte1 ev; ev_byte2 ev; ev_byte3 ev].
Proof.
  intros Hmc Hrcv Hen Hgen Heven dest Hd Hdev Hroom Hl Hfresh Hnext.
  unfold do_event. rewrite Hmc. cbn [mbind option_bind].
  destruct (Z.eqb_spec (mc_event_receiver mc) 0) as [?|_]; [contradiction|].
  destruct (Z.eqb_spec (s_events_enabled sensor) 0) as [?|_]; [contradiction|].
  destruct (Z.eqb_spec gen_event 0) as [?|_]; [contradiction|].
  cbn [orb]. rewrite (get_mc_by_addr_even emu _ dmc Heven Hd).
  fold dest. rewrite Hd. cbn [mbind option_bind].
  match goal with
  | |- context [ipmi_mc_add_to_sel _ _ _ _ ?data] =>
      destruct (event_record t_stack now dmc 0x02 data l) as (dmc' & e & Ha & Hl' & Hid & Hrt & Hb);
        [lia|assumption..|]
  end.
  rewrite Ha. cbn [mbind option_bind].
  exists (set_emu_ipmb emu (<[dest := dmc']> (emu_ipmb emu))), dmc', e.
  split; [reflexivity|]. split; [reflexivity|]. split; [exact Hl'|].
  split; [exact Hid|]. split; [exact Hrt|]. rewrite Hb. reflexivity.
Qed.

(** The theorem at an upper critical assertion of the sensor 7, logged by
    the BMC itself. *)
Lemma do_event_record_witness :
  let emu := demo_emu bmc_sel in
  let ev := mk_event IPMI_ASSERTION 0x59 85 80 in
  let dest := Z.shiftr (mc_event_receiver bmc_sel) 1 in
  ∃ emu' dmc' e,
    do_event 0 5000 1 0x10 demo_sensor emu ev = Some emu' ∧
    emu_ipmb emu' = <[dest := dmc']> (emu_ipmb emu) ∧
    sel_entries (mc_sel dmc') = Live ([] ++ [e]) ∧
    se_record_id e = sel_next_entry (mc_sel bmc_sel) ∧
    byte_at (se_data e) 2 = 0x02 ∧
    read_bytes (se_data e) 7 9 =
      [mc_ipmb bmc_sel; s_lun demo_sensor; 0x04; s_sensor_type demo_sensor;
       s_num demo_sensor;
       u8 (Z.lor (Z.shiftl (ev_direction ev) 7) (s_event_reading_code demo_sensor));
       ev_byte1 ev; ev_byte2 ev; ev_byte3 ev].
Proof.
  intros emu ev.
  apply (do_event_record 0 5000 1 0x10 demo_sensor emu ev bmc_sel bmc_sel []);
    by vm_compute.
Defined.

(** X22.  [ipmi_mc_set_power] with a new value, a receiver and
    [gen_event]: the MC holds the new value and the receiver (which may be
    the MC itself) gets one more SEL entry, of type 0xc0, whose bytes 7 to
    15 are 0x20, 0, 1, 0, 0, 0, the power value, 0, 0. *)
Theorem set_power_logs_event (t_stack now : Z) (emu : emu_data_t) (k power gen_event : Z)
    (mc dmc : lmc_data_t) (l : list sel_entry_t) :
  emu_ipmb emu !! k = Some mc →
  mc_power_value mc ≠ power →
  mc_event_receiver mc ≠ 0 →
  gen_event ≠ 0 →
  Z.land (mc_event_receiver mc) 1 = 0 →
  let dest := Z.shiftr (mc_event_receiver mc) 1 in
  <[k := set_mc_power_value mc power]> (emu_ipmb emu) !! dest = Some dmc →
  has_bit (mc_device_support dmc) IPMI_DEVID_SEL_DEVICE = true →
  sel_count (mc_sel dmc) < sel_max_count (mc_sel dmc) →
  sel_entries (mc_sel dmc) = Live l →
  find_sel_event_by_recid l (sel_next_entry (mc_sel dmc)) = None →
  u16 (sel_next_entry (mc_sel dmc) + 1) ≠ 0 →
  ∃ emu' dmc' e,
    ipmi_mc_set_power t_stack now emu k power gen_event = Some emu' ∧
    emu_ipmb emu' = <[dest := dmc']> (<[k := set_mc_power_value mc power]> (emu_ipmb emu)) ∧
    mc_power_value dmc' = mc_power_value dmc ∧
    sel_entries (mc_sel dmc') = Live (l ++ [e]) ∧
    se_record_id e = sel_next_entry (mc_sel dmc) ∧
    byte_at (se_data e) 2 = 0xc0 ∧
    read_bytes (se_data e) 7 9 = [0x20; 0; 0x01; 0; 0; 0; power; 0; 0].
Proof.
  intros Hmc Hp Hrcv Hgen Heven dest Hd Hdev Hroom Hl Hfresh Hnext.
  unfold ipmi_mc_set_power. rewrite Hmc. cbn [mbind option_bind].
  destruct (Z.eqb_spec (mc_power_value mc) power) as [?|_]; [contradiction|].
  cbn [mc_event_receiver set_mc_power_value].
  destruct (Z.eqb_spec (mc_event_receiver mc) 0) as [?|_]; [contradiction|].
  destruct (Z.eqb_spec gen_event 0) as [?|_]; [contradiction|].
  cbn [orb].
  rewrite (get_mc_by_addr_even
             (set_emu_ipmb emu (<[k := set_mc_power_value mc power]> (emu_ipmb emu)))
             _ dmc Heven Hd).
  fold dest. cbn [emu_ipmb set_emu_ipmb]. rewrite Hd. cbn [mbind option_bind].
  match goal with
  | |- context [ipmi_mc_add_to_sel _ _ _ _ ?data] =>
      destruct (event_record t_stack now dmc 0xc0 data l) as (dmc' & e & Ha & Hl' & Hid & Hrt & Hb);
        [lia|assumption..|]
  end.
  rewrite Ha. cbn [mbind option_bind].
  eexists _, dmc', e.
  split; [reflexivity|]. split; [reflexivity|].
  split; [exact (ipmi_mc_add_to_sel_power _ _ _ _ _ _ _ Ha)|].
  split; [exact Hl'|].
  split; [exact Hid|]. split; [exact Hrt|]. rewrite Hb. reflexivity.
Qed.

(** The theorem at the power value 1 in a BMC that receives its own events. *)
Lemma set_power_logs_event_witness :
  let emu := demo_emu bmc_sel in
  let dest := Z.shiftr (mc_event_receiver bmc_sel) 1 in
  let dmc := set_mc_power_value bmc_sel 1 in
  ∃ emu' dmc' e,
    ipmi_mc_set_power 0 5000 emu 0x10 1 1 = Some emu' ∧
    emu_ipmb emu'
      = <[dest := dmc']> (<[0x10 := set_mc_power_value bmc_sel 1]> (emu_ipmb emu)) ∧
    mc_power_value dmc' = mc_power_value dmc ∧
    sel_entries (mc_sel dmc') = Live ([] ++ [e]) ∧
    se_record_id e = sel_next_entry (mc_sel dmc) ∧
    byte_at (se_data e) 2 = 0xc0 ∧
    read_bytes (se_data e) 7 9 = [0x20; 0; 0x01; 0; 0; 0; 1; 0; 0].
Proof.
  intros emu dest dmc.
  apply (set_power_logs_event 0 5000 emu 0x10 1 1 bmc_sel dmc []); by vm_compute.
Defined.

(** ** Sensors: threshold events, hysteresis, thresholds, state bits *)

(** One round of the last two loops of [check_thresholds], seen from the
    sensor the function was called with. *)
Lemma round_step (e : Z → Z) (s : sensor_t) (st : sensor_t * list event_t) (i : Z) :
  0 <= i < 6 →
  e i = threshold_column i →
  fst st = set_s_event_status s (s_event_status (fst st)) →
  (∀ j, i <= j → byte_at (s_event_status (fst st)) j = byte_at (s_event_status s) j) →
  let st' := threshold_round (threshold_bits s) e st i in
  fst st' = set_s_event_status s (s_event_status (fst st')) ∧
  (∀ j, i + 1 <= j → byte_at (s_event_status (fst st')) j = byte_at (s_event_status s) j) ∧
  snd st' = snd st ++ threshold_events s i.
Proof.
  intros Hi He Hframe Hst st'.
  split.
  { subst st'. rewrite threshold_round_frame. rewrite Hframe at 1.
    apply set_s_event_status_twice. }
  split.
  { intros j Hj. subst st'. rewrite threshold_round_status_ne by lia. apply Hst. lia. }
  subst st'. unfold threshold_round, threshold_events.
  destruct (threshold_bits_spec s i Hi) as [Hset Hclear].
  rewrite Hset, Hclear, !b2z_test. rewrite (Hst i) by lia. rewrite He.
  rewrite Hframe. cbn [s_event_enabled s_value s_thresholds set_s_event_status fst snd].
  destruct (want_set s i && (byte_at (s_event_status s) i =? 0)).
  { cbn [snd]. destruct (negb _); [reflexivity|]. rewrite app_nil_r. reflexivity. }
  destruct (want_clear s i && negb (byte_at (s_event_status s) i =? 0)).
  { cbn [snd]. destruct (negb _); [reflexivity|]. rewrite app_nil_r. reflexivity. }
  rewrite app_nil_r. reflexivity.
Qed.

Lemma set_s_event_status_id (s : sensor_t) : set_s_event_status s (s_event_status s) = s.
Proof. destruct s. reflexivity. Qed.

(** The [do_event] calls of [check_thresholds], threshold by threshold. *)
Lemma check_thresholds_snd (s : sensor_t) :
  snd (check_thresholds s) = concat (threshold_events s <$> [0; 1; 2; 3; 4; 5]).
Proof.
  unfold check_thresholds. fold (threshold_bits s). cbn [foldl].
  set (e1 := fun i : Z => i * 2). set (e2 := fun i : Z => i * 2 + 1).
  destruct (round_step e1 s (s, []) 0) as (F1 & S1 & E1);
    [lia|reflexivity|symmetry; apply set_s_event_status_id|reflexivity|].
  cbn zeta in F1, S1, E1.
  destruct (round_step e1 s _ 1 ltac:(lia) eq_refl F1 S1) as (F2 & S2 & E2).
  cbn zeta in F2, S2, E2.
  destruct (round_step e1 s _ 2 ltac:(lia) eq_refl F2 S2) as (F3 & S3 & E3).
  cbn zeta in F3, S3, E3.
  destruct (round_step e2 s _ 3 ltac:(lia) eq_refl F3 S3) as (F4 & S4 & E4).
  cbn zeta in F4, S4, E4.
  destruct (round_step e2 s _ 4 ltac:(lia) eq_refl F4 S4) as (F5 & S5 & E5).
  cbn zeta in F5, S5, E5.
  destruct (round_step e2 s _ 5 ltac:(lia) eq_refl F5 S5) as (F6 & S6 & E6).
  cbn zeta in F6, S6, E6.
  rewrite E6, E5, E4, E3, E2, E1. cbn [snd fmap list_fmap concat app].
  rewrite app_nil_r, <- !app_assoc. reflexivity.
Qed.

(** No threshold is to be set and to be cleared at once. *)
Lemma want_exclusive (s : sensor_t) (i : Z) : want_set s i && want_clear s i = false.
Proof.
  unfold want_set, want_clear.
  destruct (negb _); [|reflexivity]. cbn [andb].
  case_bool_decide; case_bool_decide; reflexivity.
Qed.

Lemma round_value_settled (set clear : bool) (old : Z) :
  set && clear = false →
  let new := round_value set clear true old in
  set && (new =? 0) = false ∧ clear && negb (new =? 0) = false.
Proof.
  intros Hex. unfold round_value.
  destruct set, clear; try discriminate; cbn [andb];
    destruct (old =? 0) eqn:Ho; cbn [andb negb]; rewrite ?Ho; split; reflexivity.
Qed.

Lemma threshold_round_idle (bits : Z * Z) (e : Z → Z) (st : sensor_t * list event_t)
    (i : Z) :
  negb (Z.land (Z.shiftr (fst bits) i) 1 =? 0)
    && (byte_at (s_event_status (fst st)) i =? 0) = false →
  negb (Z.land (Z.shiftr (snd bits) i) 1 =? 0)
    && negb (byte_at (s_event_status (fst st)) i =? 0) = false →
  threshold_round bits e st i = st.
Proof. intros H1 H2. unfold threshold_round. rewrite H1, H2. reflexivity. Qed.

(** A sensor whose status bytes agree with its value is left alone. *)
Lemma check_thresholds_settled (s : sensor_t) :
  (∀ i, 0 <= i < 6 →
        want_set s i && (byte_at (s_event_status s) i =? 0) = false ∧
        want_clear s i && negb (byte_at (s_event_status s) i =? 0) = false) →
  check_thresholds s = (s, []).
Proof.
  intros H. unfold check_thresholds. fold (threshold_bits s). cbn [foldl].
  assert (Hidle : ∀ e i, 0 <= i < 6 →
            threshold_round (threshold_bits s) e (s, []) i = (s, [])).
  { intros e i Hi. apply threshold_round_idle; cbn [fst];
      destruct (threshold_bits_spec s i Hi) as [Hset Hclear];
      rewrite ?Hset, ?Hclear, b2z_test; apply H; exact Hi. }
  rewrite !Hidle by lia. reflexivity.
Qed.

Lemma want_frame (s : sensor_t) (st : list Z) (i : Z) :
  want_set (set_s_event_status s st) i = want_set s i ∧
  want_clear (set_s_event_status s st) i = want_clear s i.
Proof. split; reflexivity. Qed.

(** X23.  [check_thresholds] on a sensor with its six status bytes: the
    events are, in the order of the thresholds, one assertion for each
    threshold that is reached while its status is 0 and one deassertion for
    each threshold that is left by more than the hysteresis while its status
    is not 0, each only if enabled in its column (2i for a lower, 2i+1 for
    an upper threshold), with the offset 0x50 + column, the value and the
    threshold; the status bytes follow the same rule; and a second run
    right after changes nothing and sends nothing. *)
Theorem check_thresholds_events (s : sensor_t) :
  6 <= Z.of_nat (length (s_event_status s)) →
  let s' := fst (check_thresholds s) in
  snd (check_thresholds s) = concat (threshold_events s <$> [0; 1; 2; 3; 4; 5]) ∧
  (∀ i, 0 <= i < 6 →
        byte_at (s_event_status s') i =
        if want_set s i then
          if byte_at (s_event_status s) i =? 0 then 1 else byte_at (s_event_status s) i
        else if want_clear s i then 0
        else byte_at (s_event_status s) i) ∧
  check_thresholds s' = (s', []).
Proof.
  intros Hlen s'. split; [apply check_thresholds_snd|].
  assert (Hst : ∀ i, 0 <= i < 6 →
            byte_at (s_event_status s') i =
            round_value (want_set s i) (want_clear s i) true (byte_at (s_event_status s) i)).
  { intros i Hi. subst s'. rewrite check_thresholds_status by exact Hi.
    rewrite bool_decide_eq_true_2 by lia. reflexivity. }
  split.
  { intros i Hi. rewrite (Hst i Hi). unfold round_value.
    pose proof (want_exclusive s i) as Hex.
    destruct (want_set s i), (want_clear s i); try discriminate; cbn [andb];
      destruct (Z.eqb_spec (byte_at (s_event_status s) i) 0) as [Heq|Hne];
      cbn [negb]; try reflexivity; congruence. }
  apply check_thresholds_settled. intros i Hi.
  assert (Hfr : s' = set_s_event_status s (s_event_status s'))
    by (subst s'; apply check_thresholds_frame).
  rewrite Hfr at 1 3. rewrite !(proj1 (want_frame s _ i)), !(proj2 (want_frame s _ i)).
  rewrite (Hst i Hi).
  exact (round_value_settled _ _ _ (want_exclusive s i)).
Qed.

(** The theorem at the sensor with the upper thresholds 70, 80, 90 and the
    value 85. *)
Lemma check_thresholds_events_witness :
  let s := set_s_value demo_sensor 85 in
  let s' := fst (check_thresholds s) in
  snd (check_thresholds s) = concat (threshold_events s <$> [0; 1; 2; 3; 4; 5]) ∧
  (∀ i, 0 <= i < 6 →
        byte_at (s_event_status s') i =
        if want_set s i then
          if byte_at (s_event_status s) i =? 0 then 1 else byte_at (s_event_status s) i
        else if want_clear s i then 0
        else byte_at (s_event_status s) i) ∧
  check_thresholds s' = (s', []).
Proof.
  intros s. apply (check_thresholds_events s). by vm_compute.
Defined.

(** With no receiver, events disabled or not asked for, no event goes out. *)
Lemma do_events_off (t_stack : nat → Z) (now gen_event k : Z) (sensor : sensor_t)
    (emu : emu_data_t)
    (mc : lmc_data_t) (evs : list event_t) :
  emu_ipmb emu !! k = Some mc →
  mc_event_receiver mc = 0 ∨ s_events_enabled sensor = 0 ∨ gen_event = 0 →
  do_events t_stack now gen_event k sensor emu evs = Some emu.
Proof.
  intros Hmc Hoff. revert t_stack.
  induction evs as [|ev evs IH]; intros t_stack; [reflexivity|].
  cbn [do_events].
  assert (do_event (t_stack 0%nat) now gen_event k sensor emu ev = Some emu) as ->.
  { unfold do_event. rewrite Hmc. cbn [mbind option_bind].
    destruct Hoff as [-> | [-> | ->]]; cbn [Z.eqb orb]; rewrite ?orb_true_r; reflexivity. }
  cbn [mbind option_bind]. apply IH.
Qed.

Lemma check_thresholds_enabled (s : sensor_t) :
  s_events_enabled (fst (check_thresholds s)) = s_events_enabled s.
Proof. rewrite check_thresholds_frame. reflexivity. Qed.

(** X24.  [ipmi_mc_sensor_set_value] with the event receiver 0, or without
    [gen_event], or on a sensor whose events are disabled, changes the SEL
    of no MC. *)
Theorem sensor_set_value_without_events (t_stack : nat → Z) (now : Z)
    (emu emu' : emu_data_t)
    (k lun sens_num value gen_event : Z) (rv : errno) (mc : lmc_data_t) :
  emu_ipmb emu !! k = Some mc →
  mc_event_receiver mc = 0 ∨ gen_event = 0
  ∨ (∀ s, mc_sensors mc !! (lun, sens_num) = Some s → s_events_enabled s = 0) →
  ipmi_mc_sensor_set_value t_stack now emu k lun sens_num value gen_event
    = Some (emu', rv) →
  ∀ k', mc_sel <$> (emu_ipmb emu' !! k') = mc_sel <$> (emu_ipmb emu !! k').
Proof.
  intros Hmc Hoff. unfold ipmi_mc_sensor_set_value. rewrite Hmc.
  cbn [mbind option_bind].
  destruct (_ || _); [intros [= <- <-]; reflexivity|].
  destruct (mc_sensors mc !! (lun, sens_num)) as [s|] eqn:Hs;
    [|intros [= <- <-]; reflexivity].
  destruct (sensor_set_value s value) as [s1 evs] eqn:Hv.
  rewrite (do_events_off t_stack now gen_event k s1 _
             (set_mc_sensors mc (<[(lun, sens_num) := s1]> (mc_sensors mc))) evs).
  - cbn [mbind option_bind]. intros [= <- <-] k'. cbn [emu_ipmb set_emu_ipmb].
    destruct (decide (k = k')) as [<-|Hne].
    + rewrite lookup_insert_eq, Hmc. reflexivity.
    + rewrite lookup_insert_ne by exact Hne. reflexivity.
  - cbn. apply lookup_insert_eq.
  - cbn [mc_event_receiver set_mc_sensors].
    destruct Hoff as [H|[H|H]]; [left; exact H|right; right; exact H|].
    right. left.
    assert (s1 = fst (sensor_set_value s value)) as -> by (rewrite Hv; reflexivity).
    unfold sensor_set_value. rewrite check_thresholds_enabled. cbn. apply H. reflexivity.
Qed.

(** The theorem at a threshold crossing with [gen_event] 0. *)
Lemma sensor_set_value_without_events_witness :
  ∃ emu',
    ipmi_mc_sensor_set_value (λ _, 0) 5000
      (demo_emu (set_mc_sensors bmc_sel (<[(0, 7) := demo_sensor]> ∅))) 0x10 0 7 85 0
      = Some (emu', E_OK) ∧
    ∀ k', mc_sel <$> (emu_ipmb emu' !! k')
          = mc_sel <$> (emu_ipmb (demo_emu (set_mc_sensors bmc_sel
                                              (<[(0, 7) := demo_sensor]> ∅))) !! k').
Proof.
  eexists. split; [vm_compute; reflexivity|].
  eapply (sensor_set_value_without_events (λ _, 0) 5000 _ _ 0x10 0 7 85 0 E_OK).
  - vm_compute; reflexivity.
  - right. left. reflexivity.
  - vm_compute; reflexivity.
Defined.

(** X25.  Set Sensor Hysteresis on a sensor whose hysteresis is settable,
    followed by Get Sensor Hysteresis: the bytes 2 and 3 of the request come
    back as positive and negative hysteresis, and no other sensor changes. *)
Theorem hysteresis_round_trip (SETTABLE READABLE : Z) (mc : lmc_data_t) (lun : Z)
    (set get : ipmi_msg_t) (r rg : rsp_t) (sensor : sensor_t) :
  4 <= msg_data_len set →
  byte_at (msg_data set) 0 < 255 →
  mc_sensors mc !! (lun, byte_at (msg_data set) 0) = Some sensor →
  s_hysteresis_support sensor = SETTABLE →
  1 <= msg_data_len get →
  byte_at (msg_data get) 0 = byte_at (msg_data set) 0 →
  3 <= Z.of_nat (length (rdata rg)) →
  let mc' := fst (handle_set_sensor_hysteresis SETTABLE mc lun set r) in
  let r' := snd (handle_set_sensor_hysteresis SETTABLE mc lun set r) in
  let rg' := handle_get_sensor_hysteresis SETTABLE READABLE mc' lun get rg in
  r' = rsp_cc 0 r ∧
  rdata_len rg' = 3 ∧
  read_bytes (rdata rg') 0 3 = [0; byte_at (msg_data set) 2; byte_at (msg_data set) 3] ∧
  ∀ key, key ≠ (lun, byte_at (msg_data set) 0) →
         mc_sensors mc' !! key = mc_sensors mc !! key.
Proof.
  intros Hlen Hnum Hs Hsup Hglen Hgnum Hbuf.
  unfold handle_set_sensor_hysteresis, handle_get_sensor_hysteresis, msg_sensor,
    check_msg_length.
  rewrite (bool_decide_eq_false_2 (msg_data_len set < 4)) by lia.
  rewrite (bool_decide_eq_false_2 (msg_data_len get < 1)) by lia.
  rewrite Hgnum.
  rewrite (bool_decide_eq_false_2 (byte_at (msg_data set) 0 >= 255)) by lia.
  rewrite Hs, Hsup, Z.eqb_refl. cbn [negb fst snd mc_sensors set_mc_sensors].
  rewrite lookup_insert_eq. cbn [s_hysteresis_support set_s_hysteresis].
  rewrite Z.eqb_refl. cbn [negb andb rdata rdata_len s_positive_hysteresis
                           s_negative_hysteresis].
  split; [reflexivity|]. split; [reflexivity|]. split.
  - rewrite read_bytes_0_3. rewrite !byte_at_set_byte, !set_byte_length.
    repeat (first [rewrite bool_decide_eq_true_2 by lia
                  |rewrite bool_decide_eq_false_2 by lia]).
    reflexivity.
  - intros key Hkey. apply lookup_insert_ne. intros Heq. apply Hkey. symmetry. exact Heq.
Qed.

(** The theorem at the sensor 7 and the hysteresis 3 and 4. *)
Lemma hysteresis_round_trip_witness :
  let mc := fst (ipmi_mc_sensor_set_hysteresis bmc_sensor 0 7 2 0 0) in
  let set := set_hysteresis_request 3 4 in
  let mc' := fst (handle_set_sensor_hysteresis 2 mc 0 set (rbuf 0)) in
  let r' := snd (handle_set_sensor_hysteresis 2 mc 0 set (rbuf 0)) in
  let rg' := handle_get_sensor_hysteresis 2 1 mc' 0 sensor_request (rbuf 0) in
  r' = rsp_cc 0 (rbuf 0) ∧
  rdata_len rg' = 3 ∧
  read_bytes (rdata rg') 0 3 = [0; byte_at (msg_data set) 2; byte_at (msg_data set) 3] ∧
  ∀ key, key ≠ (0, byte_at (msg_data set) 0) →
         mc_sensors mc' !! key = mc_sensors mc !! key.
Proof.
  intros mc set.
  eapply (hysteresis_round_trip 2 1 mc 0 set sensor_request (rbuf 0) (rbuf 0));
    by vm_compute.
Defined.

Lemma set_mc_sensors_id (mc : lmc_data_t) : set_mc_sensors mc (mc_sensors mc) = mc.
Proof. destruct mc. reflexivity. Qed.

Lemma set_emu_ipmb_id (emu : emu_data_t) : set_emu_ipmb emu (emu_ipmb emu) = emu.
Proof. destruct emu. reflexivity. Qed.

(** X26.  [ipmi_mc_sensor_set_bit] with the value the state bit has already
    changes nothing in the emulator and sends no event. *)
Theorem sensor_set_bit_unchanged (t_stack : nat → Z) (now : Z) (emu : emu_data_t)
    (k lun sens_num bit value gen_event : Z) (mc : lmc_data_t) (sensor : sensor_t) :
  emu_ipmb emu !! k = Some mc →
  lun < 4 → sens_num < 255 → bit < 15 →
  mc_sensors mc !! (lun, sens_num) = Some sensor →
  byte_at (s_event_status sensor) bit = value →
  ipmi_mc_sensor_set_bit t_stack now emu k lun sens_num bit value gen_event
    = Some (emu, E_OK).
Proof.
  intros Hmc Hlun Hnum Hbit Hs Hv. unfold ipmi_mc_sensor_set_bit.
  rewrite Hmc. cbn [mbind option_bind].
  rewrite (bool_decide_eq_false_2 (lun >= 4)) by lia.
  rewrite (bool_decide_eq_false_2 (sens_num >= 255)) by lia.
  cbn [orb]. rewrite Hs. rewrite (bool_decide_eq_false_2 (bit >= 15)) by lia.
  unfold set_bit. rewrite Hv, Z.eqb_refl. cbn [negb].
  rewrite (insert_id (mc_sensors mc) _ _ Hs). rewrite set_mc_sensors_id.
  rewrite (insert_id (emu_ipmb emu) _ _ Hmc). rewrite set_emu_ipmb_id.
  reflexivity.
Qed.

(** The theorem at the bit 3 of the sensor 7, which is 0. *)
Lemma sensor_set_bit_unchanged_witness :
  let emu := demo_emu (set_mc_sensors bmc_sel (<[(0, 7) := demo_sensor]> ∅)) in
  ipmi_mc_sensor_set_bit (λ _, 0) 5000 emu 0x10 0 7 3 0 1 = Some (emu, E_OK).
Proof.
  intros emu.
  apply (sensor_set_bit_unchanged (λ _, 0) 5000 emu 0x10 0 7 3 0 1
           (set_mc_sensors bmc_sel (<[(0, 7) := demo_sensor]> ∅)) demo_sensor);
    by vm_compute.
Defined.

(** The test [b & (1 << i)] of the threshold mask. *)
Lemma land_bit_test (a i : Z) :
  0 <= i → (Z.land a (Z.shiftl 1 i) =? 0) = negb (Z.testbit a i).
Proof.
  intros Hi.
  assert (Heq : Z.land a (Z.shiftl 1 i) = bit_if (Z.testbit a i) i).
  { apply Z.bits_inj'. intros n Hn. rewrite Z.land_spec.
    change (Z.shiftl 1 i) with (bit_if true i).
    rewrite !testbit_bit_if by lia. cbn [andb].
    destruct (Z.eqb_spec n i) as [->|Hne]; [rewrite andb_true_r; reflexivity|].
    rewrite !andb_false_r. reflexivity. }
  rewrite Heq. unfold bit_if. destruct (Z.testbit a i); [|reflexivity].
  cbn [negb]. apply Z.eqb_neq. rewrite Z.shiftl_1_l.
  pose proof (Z.pow_pos_nonneg 2 i). lia.
Qed.

Lemma byte_at_store_fold (d : list Z) (js : list Z) (ths : list Z) (i : Z) :
  0 <= i < Z.of_nat (length ths) →
  Forall (fun j => 0 <= j) js →
  byte_at (foldl (fun ths i => if negb (Z.land (byte_at d 1) (Z.shiftl 1 i) =? 0)
                               then set_byte ths i (byte_at d (i + 2)) else ths)
             ths js) i =
  if bool_decide (i ∈ js) && Z.testbit (byte_at d 1) i then byte_at d (i + 2)
  else byte_at ths i.
Proof.
  intros Hi Hjs. revert ths Hi.
  induction Hjs as [|j js Hj Hjs IH]; intros ths Hi; cbn [foldl].
  { rewrite bool_decide_eq_false_2 by (apply not_elem_of_nil). reflexivity. }
  rewrite land_bit_test by exact Hj. rewrite negb_involutive.
  destruct (Z.testbit (byte_at d 1) j) eqn:Hbit.
  - rewrite IH by (rewrite set_byte_length; exact Hi).
    rewrite byte_at_set_byte.
    destruct (decide (i = j)) as [->|Hne].
    + rewrite (bool_decide_eq_true_2 (j ∈ j :: js)) by (apply list_elem_of_here).
      rewrite Hbit. cbn [andb].
      rewrite (bool_decide_eq_true_2 (j = j ∧ _)) by lia.
      destruct (bool_decide (j ∈ js) && true); reflexivity.
    + rewrite (bool_decide_eq_false_2 (j = i ∧ _)) by lia.
      rewrite (bool_decide_ext (i ∈ j :: js) (i ∈ js)); [reflexivity|].
      rewrite elem_of_cons. tauto.
  - rewrite IH by exact Hi.
    destruct (decide (i = j)) as [->|Hne].
    + rewrite Hbit, !andb_false_r. reflexivity.
    + rewrite (bool_decide_ext (i ∈ j :: js) (i ∈ js)); [reflexivity|].
      rewrite elem_of_cons. tauto.
Qed.

Lemma seqZ_0_6 : seqZ 0 6 = [0; 1; 2; 3; 4; 5].
Proof. reflexivity. Qed.

(** The thresholds after the store loop of Set Sensor Thresholds. *)
Lemma byte_at_store_thresholds (d ths : list Z) (i : Z) :
  0 <= i < 6 → 6 <= Z.of_nat (length ths) →
  byte_at (store_thresholds d ths) i =
  if Z.testbit (byte_at d 1) i then byte_at d (i + 2) else byte_at ths i.
Proof.
  intros Hi Hl. unfold store_thresholds.
  rewrite byte_at_store_fold; [|lia|rewrite seqZ_0_6; repeat constructor; lia].
  rewrite bool_decide_eq_true_2; [reflexivity|].
  apply elem_of_seqZ. lia.
Qed.

(** The loop of Get Sensor Thresholds. *)
Lemma report_fold (s : sensor_t) (js : list Z) (rd : list Z) :
  8 <= Z.of_nat (length rd) →
  Forall (fun j => 0 <= j < 6) js →
  NoDup js →
  let rd' := foldl (fun rd i =>
                      if negb (byte_at (s_threshold_supported s) i =? 0) then
                        set_byte (set_byte rd 1 (u8 (Z.lor (byte_at rd 1) (Z.shiftl 1 i))))
                                 (2 + i) (byte_at (s_thresholds s) i)
                      else set_byte rd (2 + i) 0) rd js in
  length rd' = length rd ∧
  byte_at rd' 0 = byte_at rd 0 ∧
  (∀ i, 0 <= i < 6 →
        Z.testbit (byte_at rd' 1) i =
        Z.testbit (byte_at rd 1) i
        || (bool_decide (i ∈ js) && negb (byte_at (s_threshold_supported s) i =? 0))) ∧
  (∀ i, 0 <= i < 6 →
        byte_at rd' (2 + i) =
        if bool_decide (i ∈ js) then
          if byte_at (s_threshold_supported s) i =? 0 then 0 else byte_at (s_thresholds s) i
        else byte_at rd (2 + i)).
Proof.
  intros Hl Hjs Hnd. revert rd Hl.
  induction Hjs as [|j js Hj Hjs IH]; intros rd Hl; cbn [foldl].
  { cbn zeta. split; [reflexivity|]. split; [reflexivity|].
    split; intros i Hi; rewrite bool_decide_eq_false_2 by (apply not_elem_of_nil).
    - rewrite orb_false_r. reflexivity.
    - reflexivity. }
  apply NoDup_cons in Hnd as [Hnin Hnd].
  set (rd1 := if negb (byte_at (s_threshold_supported s) j =? 0) then _ else _).
  assert (Hl1 : length rd1 = length rd).
  { subst rd1. destruct (negb _); rewrite ?set_byte_length; reflexivity. }
  assert (H0 : byte_at rd1 0 = byte_at rd 0).
  { subst rd1. destruct (negb _); rewrite !byte_at_set_byte;
      rewrite !bool_decide_eq_false_2 by lia; reflexivity. }
  assert (Hbit : ∀ i, 0 <= i < 6 →
            Z.testbit (byte_at rd1 1) i =
            Z.testbit (byte_at rd 1) i
            || (bool_decide (i = j) && negb (byte_at (s_threshold_supported s) i =? 0))).
  { intros i Hi. subst rd1.
    destruct (negb (byte_at (s_threshold_supported s) j =? 0)) eqn:Hsup.
    - rewrite !byte_at_set_byte, !set_byte_length.
      rewrite bool_decide_eq_false_2 by lia. rewrite bool_decide_eq_true_2 by lia.
      unfold u8. change 256 with (2 ^ 8). rewrite Z.mod_pow2_bits_low by lia.
      rewrite Z.lor_spec. change (Z.shiftl 1 j) with (bit_if true j).
      rewrite testbit_bit_if by lia. cbn [andb].
      destruct (decide (i = j)) as [->|Hne].
      + rewrite Hsup, Z.eqb_refl, bool_decide_eq_true_2 by reflexivity. reflexivity.
      + rewrite bool_decide_eq_false_2 by exact Hne.
        destruct (Z.eqb_spec i j); [contradiction|]. reflexivity.
    - rewrite byte_at_set_byte. rewrite bool_decide_eq_false_2 by lia.
      destruct (decide (i = j)) as [->|Hne].
      + rewrite Hsup, andb_false_r, orb_false_r. reflexivity.
      + rewrite (bool_decide_eq_false_2 (i = j)) by exact Hne.
        rewrite orb_false_r. reflexivity. }
  assert (Hval : ∀ i, 0 <= i < 6 →
            byte_at rd1 (2 + i) =
            if bool_decide (i = j) then
              if byte_at (s_threshold_supported s) i =? 0 then 0
              else byte_at (s_thresholds s) i
            else byte_at rd (2 + i)).
  { intros i Hi. subst rd1.
    destruct (byte_at (s_threshold_supported s) j =? 0) eqn:Hsup; cbn [negb];
      rewrite !byte_at_set_byte, ?set_byte_length;
      (destruct (decide (i = j)) as [->|Hne];
       [rewrite Hsup; rewrite !bool_decide_eq_true_2 by lia; reflexivity
       |rewrite !bool_decide_eq_false_2 by lia; reflexivity]). }
  destruct (IH Hnd rd1 ltac:(lia)) as (IHl & IH0 & IHbit & IHval).
  cbn zeta in IHl, IH0, IHbit, IHval. cbn zeta.
  split; [rewrite IHl; exact Hl1|]. split; [rewrite IH0; exact H0|].
  split.
  - intros i Hi. rewrite (IHbit i Hi), (Hbit i Hi).
    destruct (decide (i = j)) as [->|Hne].
    + rewrite (bool_decide_eq_true_2 (j = j)) by reflexivity.
      rewrite (bool_decide_eq_false_2 (j ∈ js)) by exact Hnin.
      rewrite (bool_decide_eq_true_2 (j ∈ j :: js)) by (apply list_elem_of_here).
      cbn [andb]. rewrite orb_false_r. reflexivity.
    + rewrite (bool_decide_eq_false_2 (i = j)) by exact Hne.
      rewrite (bool_decide_ext (i ∈ j :: js) (i ∈ js))
        by (rewrite elem_of_cons; tauto).
      cbn [andb]. rewrite orb_false_r. reflexivity.
  - intros i Hi. rewrite (IHval i Hi), (Hval i Hi).
    destruct (decide (i = j)) as [->|Hne].
    + rewrite (bool_decide_eq_true_2 (j = j)) by reflexivity.
      rewrite (bool_decide_eq_false_2 (j ∈ js)) by exact Hnin.
      rewrite (bool_decide_eq_true_2 (j ∈ j :: js)) by (apply list_elem_of_here).
      reflexivity.
    + rewrite (bool_decide_eq_false_2 (i = j)) by exact Hne.
      rewrite (bool_decide_ext (i ∈ j :: js) (i ∈ js))
        by (rewrite elem_of_cons; tauto).
      reflexivity.
Qed.

Lemma report_thresholds_spec (s : sensor_t) (rd : list Z) :
  8 <= Z.of_nat (length rd) →
  byte_at rd 1 = 0 →
  let rd' := report_thresholds s rd in
  length rd' = length rd ∧
  byte_at rd' 0 = byte_at rd 0 ∧
  (∀ i, 0 <= i < 6 →
        Z.testbit (byte_at rd' 1) i = negb (byte_at (s_threshold_supported s) i =? 0)) ∧
  (∀ i, 0 <= i < 6 →
        byte_at rd' (2 + i) =
        if byte_at (s_threshold_supported s) i =? 0 then 0 else byte_at (s_thresholds s) i).
Proof.
  intros Hl Hb1. unfold report_thresholds. rewrite seqZ_0_6.
  destruct (report_fold s [0; 1; 2; 3; 4; 5] rd Hl) as (Hlen & H0 & Hbit & Hval).
  - repeat constructor; lia.
  - apply (bool_decide_unpack _). by vm_compute.
  - cbn zeta in *. split; [exact Hlen|]. split; [exact H0|]. split.
    + intros i Hi. rewrite (Hbit i Hi), Hb1, Z.bits_0. cbn [orb].
      rewrite bool_decide_eq_true_2; [reflexivity|].
      rewrite <- seqZ_0_6. apply elem_of_seqZ. lia.
    + intros i Hi. rewrite (Hval i Hi).
      rewrite bool_decide_eq_true_2; [reflexivity|].
      rewrite <- seqZ_0_6. apply elem_of_seqZ. lia.
Qed.

Lemma check_thresholds_fields (s : sensor_t) :
  s_thresholds (fst (check_thresholds s)) = s_thresholds s ∧
  s_threshold_supported (fst (check_thresholds s)) = s_threshold_supported s ∧
  s_threshold_support (fst (check_thresholds s)) = s_threshold_support s ∧
  s_event_reading_code (fst (check_thresholds s)) = s_event_reading_code s.
Proof. rewrite check_thresholds_frame. repeat split. Qed.

(** X27.  A successful Set Sensor Thresholds followed by Get Sensor
    Thresholds for the same sensor: the mask of the answer has the bits of
    the supported thresholds, and each supported threshold is reported with
    the byte of the request where the request selected it and with its old
    value where not; an unsupported one is reported as 0.  This holds
    whatever events the new thresholds caused. *)
Theorem set_thresholds_then_get (SETTABLE READABLE THRESHOLD : Z)
    (t_stack : nat → Z) (now : Z)
    (emu emu' : emu_data_t) (k lun : Z) (set get : ipmi_msg_t) (r r' rg : rsp_t)
    (mc : lmc_data_t) (sensor : sensor_t) :
  emu_ipmb emu !! k = Some mc →
  byte_at (msg_data set) 0 < 255 →
  mc_sensors mc !! (lun, byte_at (msg_data set) 0) = Some sensor →
  6 <= Z.of_nat (length (s_thresholds sensor)) →
  0 < Z.of_nat (length (rdata r)) →
  handle_set_sensor_thresholds SETTABLE THRESHOLD t_stack now emu k lun set r
    = Some (emu', r') →
  byte_at (rdata r') 0 = 0 →
  1 <= msg_data_len get →
  byte_at (msg_data get) 0 = byte_at (msg_data set) 0 →
  8 <= Z.of_nat (length (rdata rg)) →
  ∃ mc', emu_ipmb emu' !! k = Some mc' ∧
    let rg' := handle_get_sensor_thresholds SETTABLE READABLE THRESHOLD mc' lun get rg in
    byte_at (rdata rg') 0 = 0 ∧ rdata_len rg' = 8 ∧
    ∀ i, 0 <= i < 6 →
      Z.testbit (byte_at (rdata rg') 1) i
        = negb (byte_at (s_threshold_supported sensor) i =? 0) ∧
      byte_at (rdata rg') (2 + i) =
        if byte_at (s_threshold_supported sensor) i =? 0 then 0
        else if Z.testbit (byte_at (msg_data set) 1) i then byte_at (msg_data set) (i + 2)
        else byte_at (s_thresholds sensor) i.
Proof.
  intros Hmc Hnum Hs Hths Hbuf Hset Hcc Hglen Hgnum Hgbuf.
  unfold handle_set_sensor_thresholds in Hset. rewrite Hmc in Hset.
  cbn [mbind option_bind] in Hset.
  assert (Hfail : ∀ cc, cc ≠ 0 → byte_at (rdata (rsp_cc cc r)) 0 = 0 → False).
  { intros cc Hne. rewrite rsp_cc_byte0 by lia. exact Hne. }
  destruct (check_msg_length set 8);
    [injection Hset as <- <-; by apply Hfail in Hcc|].
  unfold msg_sensor in Hset.
  rewrite (bool_decide_eq_false_2 (byte_at (msg_data set) 0 >= 255)) in Hset by lia.
  rewrite Hs in Hset.
  destruct (Z.eqb_spec (s_event_reading_code sensor) THRESHOLD) as [Hcode|];
    [|injection Hset as <- <-; by apply Hfail in Hcc].
  destruct (Z.eqb_spec (s_threshold_support sensor) SETTABLE) as [Hsup|];
    [|injection Hset as <- <-; by apply Hfail in Hcc].
  cbn [negb orb] in Hset.
  destruct (threshold_refused _ _) eqn:Href;
    [injection Hset as <- <-; by apply Hfail in Hcc|].
  set (s0 := set_s_thresholds sensor (s_threshold_support sensor)
               (s_threshold_supported sensor)
               (store_thresholds (msg_data set) (s_thresholds sensor))) in Hset.
  destruct (check_thresholds s0) as [s1 evs] eqn:Hck.
  match type of Hset with
  | context [do_events ?a ?b ?c ?d ?e ?f ?g] =>
      destruct (do_events a b c d e f g) as [emu1|] eqn:Hd
  end; cbn [mbind option_bind] in Hset; [|discriminate].
  injection Hset as <- <-.
  pose proof (do_events_sensors _ _ _ _ _ _ _ _ k Hd) as Hsens.
  cbn [emu_ipmb set_emu_ipmb] in Hsens. rewrite lookup_insert_eq in Hsens.
  destruct (emu_ipmb emu1 !! k) as [mc'|]; [|discriminate].
  cbn in Hsens. injection Hsens as Hsens.
  exists mc'. split; [reflexivity|].
  assert (Hs1 : s1 = fst (check_thresholds s0)) by (rewrite Hck; reflexivity).
  destruct (check_thresholds_fields s0) as (Hf1 & Hf2 & Hf3 & Hf4).
  rewrite <- Hs1 in Hf1, Hf2, Hf3, Hf4. subst s0.
  cbn [s_thresholds s_threshold_supported s_threshold_support s_event_reading_code
       set_s_thresholds] in Hf1, Hf2, Hf3, Hf4.
  unfold handle_get_sensor_thresholds, msg_sensor, check_msg_length.
  rewrite (bool_decide_eq_false_2 (msg_data_len get < 1)) by lia.
  rewrite Hgnum.
  rewrite (bool_decide_eq_false_2 (byte_at (msg_data set) 0 >= 255)) by lia.
  rewrite Hsens, lookup_insert_eq.
  rewrite Hf3, Hf4, Hcode, Hsup, !Z.eqb_refl. cbn [negb orb andb].
  cbn zeta. cbn [rdata rdata_len].
  destruct (report_thresholds_spec s1 (set_byte (set_byte (rdata rg) 0 0) 1 0))
    as (Hlen & H0 & Hbit & Hval).
  { rewrite !set_byte_length. lia. }
  { rewrite byte_at_set_byte, set_byte_length.
    rewrite bool_decide_eq_true_2 by lia. reflexivity. }
  cbn zeta in Hlen, H0, Hbit, Hval.
  split.
  { rewrite H0. rewrite !byte_at_set_byte.
    rewrite bool_decide_eq_false_2 by lia. rewrite bool_decide_eq_true_2 by lia.
    reflexivity. }
  split; [reflexivity|].
  intros i Hi. rewrite (Hbit i Hi), (Hval i Hi), Hf1, Hf2.
  split; [reflexivity|].
  destruct (byte_at (s_threshold_supported sensor) i =? 0); [reflexivity|].
  apply byte_at_store_thresholds; lia.
Qed.

(** The theorem at the sensor 7, whose upper critical threshold becomes 60. *)
Lemma set_thresholds_then_get_witness :
  let mc := fst (ipmi_mc_sensor_set_threshold bmc_sensor 0 7 2
                   [1; 1; 1; 1; 1; 0] [30; 20; 10; 70; 80; 90]) in
  let mc := ipmi_mc_enable_sel mc 16 0xb in
  let sensor := set_s_thresholds demo_sensor 2 [1; 1; 1; 1; 1; 0] [30; 20; 10; 70; 80; 90] in
  ∃ emu' r',
    handle_set_sensor_thresholds 2 1 (λ _, 0) 5000 (demo_emu mc) 0x10 0
      set_thresholds_request
      (rbuf 0) = Some (emu', r') ∧
    ∃ mc', emu_ipmb emu' !! 0x10 = Some mc' ∧
      let rg' := handle_get_sensor_thresholds 2 1 1 mc' 0 sensor_request (rbuf 0) in
      byte_at (rdata rg') 0 = 0 ∧ rdata_len rg' = 8 ∧
      ∀ i, 0 <= i < 6 →
        Z.testbit (byte_at (rdata rg') 1) i
          = negb (byte_at (s_threshold_supported sensor) i =? 0) ∧
        byte_at (rdata rg') (2 + i) =
          if byte_at (s_threshold_supported sensor) i =? 0 then 0
          else if Z.testbit (byte_at (msg_data set_thresholds_request) 1) i
               then byte_at (msg_data set_thresholds_request) (i + 2)
               else byte_at (s_thresholds sensor) i.
Proof.
  intros mc0 mc sensor. do 2 eexists. split; [vm_compute; reflexivity|].
  eapply (set_thresholds_then_get 2 1 1 (λ _, 0) 5000 (demo_emu mc) _ 0x10 0
            set_thresholds_request sensor_request (rbuf 0) _ (rbuf 0) mc sensor);
    by vm_compute.
Defined.

(** ** Configuring the emulator *)

(** X28.  [ipmi_mc_add_sensor] at a free place of the sensor table adds a
    sensor with the LUN, number, type and event reading code given and
    everything else zero, and leaves the other sensors alone; adding at the
    same place again is refused with EINVAL and changes nothing. *)
Theorem add_sensor_once (mc : lmc_data_t) (lun sens_num type code type' code' : Z) :
  lun < 4 → sens_num < 255 →
  mc_sensors mc !! (lun, sens_num) = None →
  let mc1 := fst (ipmi_mc_add_sensor mc lun sens_num type code) in
  snd (ipmi_mc_add_sensor mc lun sens_num type code) = E_OK ∧
  (∃ s, mc_sensors mc1 !! (lun, sens_num) = Some s ∧
        s_lun s = lun ∧ s_num s = sens_num ∧ s_sensor_type s = type ∧
        s_event_reading_code s = code ∧ s_value s = 0 ∧ s_events_enabled s = 0 ∧
        s_thresholds s = replicate 6 0 ∧ s_event_status s = replicate 15 0) ∧
  (∀ key, key ≠ (lun, sens_num) → mc_sensors mc1 !! key = mc_sensors mc !! key) ∧
  ipmi_mc_add_sensor mc1 lun sens_num type' code' = (mc1, EINVAL).
Proof.
  intros Hlun Hnum Hnone. unfold ipmi_mc_add_sensor.
  rewrite (bool_decide_eq_false_2 (lun >= 4)) by lia.
  rewrite (bool_decide_eq_false_2 (sens_num >= 255)) by lia.
  rewrite (bool_decide_eq_false_2 (is_Some (mc_sensors mc !! (lun, sens_num))))
    by (rewrite Hnone; intros [? ?]; discriminate).
  cbn [orb fst snd mc_sensors set_mc_sensors].
  split; [reflexivity|]. split.
  { eexists. split; [apply lookup_insert_eq|]. repeat split. }
  split.
  { intros key Hkey. apply lookup_insert_ne. intros Heq. apply Hkey. symmetry. exact Heq. }
  rewrite (bool_decide_eq_true_2 (is_Some _))
    by (rewrite lookup_insert_eq; eexists; reflexivity).
  rewrite ?orb_true_r. reflexivity.
Qed.

(** The theorem at the sensor 9 of LUN 1. *)
Lemma add_sensor_once_witness :
  let mc1 := fst (ipmi_mc_add_sensor bmc 1 9 2 1) in
  snd (ipmi_mc_add_sensor bmc 1 9 2 1) = E_OK ∧
  (∃ s, mc_sensors mc1 !! (1, 9) = Some s ∧
        s_lun s = 1 ∧ s_num s = 9 ∧ s_sensor_type s = 2 ∧
        s_event_reading_code s = 1 ∧ s_value s = 0 ∧ s_events_enabled s = 0 ∧
        s_thresholds s = replicate 6 0 ∧ s_event_status s = replicate 15 0) ∧
  (∀ key, key ≠ (1, 9) → mc_sensors mc1 !! key = mc_sensors bmc !! key) ∧
  ipmi_mc_add_sensor mc1 1 9 5 6 = (mc1, EINVAL).
Proof.
  apply (add_sensor_once bmc 1 9 2 1 5 6); by vm_compute.
Defined.

(** X29.  [ipmi_emu_add_mc] refuses an odd address with EINVAL and changes
    nothing; at an even address it installs an MC that
    [ipmi_emu_get_mc_by_addr] finds at that address, with the event
    receiver 0x20, a SEL without entries and without room, no SDRs, no
    sensors and power 0, and leaves the MCs of the other slots and the BMC
    address alone. *)
Theorem add_mc_then_get_mc_by_addr (now : Z) (emu : emu_data_t)
    (ipmb device_id has_device_sdrs device_revision major_fw_rev minor_fw_rev
     device_support : Z) (mfg_id product_id : list Z) (dynamic_sensor_population : Z) :
  let res := ipmi_emu_add_mc now emu ipmb device_id has_device_sdrs device_revision
               major_fw_rev minor_fw_rev device_support mfg_id product_id
               dynamic_sensor_population in
  (Z.land ipmb 1 ≠ 0 → res = (emu, EINVAL)) ∧
  (Z.land ipmb 1 = 0 →
   snd res = E_OK ∧
   ipmi_emu_get_mc_by_addr (fst res) ipmb = inl (Z.shiftr ipmb 1) ∧
   (∃ mc, emu_ipmb (fst res) !! Z.shiftr ipmb 1 = Some mc ∧
          mc_ipmb mc = ipmb ∧ mc_device_support mc = device_support ∧
          mc_event_receiver mc = 0x20 ∧
          sel_entries (mc_sel mc) = Live [] ∧ sel_max_count (mc_sel mc) = 0 ∧
          sel_time_offset (mc_sel mc) = now ∧
          sdrs_sdrs (mc_main_sdrs mc) = Live [] ∧ mc_sensors mc = ∅ ∧
          mc_power_value mc = 0) ∧
   (∀ other, Z.shiftr other 1 ≠ Z.shiftr ipmb 1 →
             ipmi_emu_get_mc_by_addr (fst res) other = ipmi_emu_get_mc_by_addr emu other) ∧
   emu_bmc_mc (fst res) = emu_bmc_mc emu).
Proof.
  cbn zeta. unfold ipmi_emu_add_mc. split.
  - intros Hodd. destruct (Z.eqb_spec (Z.land ipmb 1) 0) as [?|_]; [contradiction|].
    reflexivity.
  - intros Heven. rewrite Heven. cbn [Z.eqb negb fst snd].
    split; [reflexivity|]. split.
    { eapply get_mc_by_addr_even; [exact Heven|]. cbn. apply lookup_insert_eq. }
    split.
    { eexists. split; [cbn; apply lookup_insert_eq|]. repeat split. }
    split; [|reflexivity].
    intros other Hother. unfold ipmi_emu_get_mc_by_addr. cbn [emu_ipmb set_emu_ipmb].
    rewrite lookup_insert_ne by (intros Heq; apply Hother; symmetry; exact Heq).
    reflexivity.
Qed.

(** X30.  [ipmi_emu_add_mc] followed by Get Device ID on the new MC: the 12
    bytes are 0, the device id, the device SDR flag in bit 7 over the low
    four bits of the revision, the low seven bits of the major firmware
    revision, the minor one, 0x51, the device support byte, and the
    manufacturer and product ids as given. *)
Theorem add_mc_then_get_device_id (now : Z) (emu : emu_data_t)
    (ipmb device_id has_device_sdrs device_revision major_fw_rev minor_fw_rev
     device_support : Z) (mfg_id product_id : list Z) (dynamic_sensor_population : Z)
    (msg : ipmi_msg_t) (r : rsp_t) :
  Z.land ipmb 1 = 0 →
  12 <= Z.of_nat (length (rdata r)) →
  let emu' := fst (ipmi_emu_add_mc now emu ipmb device_id has_device_sdrs device_revision
                     major_fw_rev minor_fw_rev device_support mfg_id product_id
                     dynamic_sensor_population) in
  ∃ mc, emu_ipmb emu' !! Z.shiftr ipmb 1 = Some mc ∧
        rdata_len (handle_get_device_id mc msg r) = 12 ∧
        read_bytes (rdata (handle_get_device_id mc msg r)) 0 12 =
          [0; device_id;
           u8 (Z.lor (Z.shiftl has_device_sdrs 7) (Z.land device_revision 0xf));
           Z.land major_fw_rev 0x7f; minor_fw_rev; 0x51; device_support;
           byte_at mfg_id 0; byte_at mfg_id 1; byte_at mfg_id 2;
           byte_at product_id 0; byte_at product_id 1].
Proof.
  intros Heven Hbuf. cbn zeta. unfold ipmi_emu_add_mc. rewrite Heven.
  cbn [Z.eqb negb fst emu_ipmb set_emu_ipmb].
  eexists. split; [apply lookup_insert_eq|].
  unfold handle_get_device_id, new_mc.
  cbn [rdata rdata_len mc_device_id mc_has_device_sdrs mc_device_revision
       mc_major_fw_rev mc_minor_fw_rev mc_device_support mc_mfg_id mc_product_id].
  split; [reflexivity|].
  rewrite read_bytes_0_12.
  repeat (f_equal;
    [rewrite !byte_at_memcpy by lia;
     rewrite ?set_byte_length, ?memcpy_length, ?memset_length;
     repeat (first [rewrite bool_decide_eq_true_2 by lia
     |rewrite bool_decide_eq_false_2 by lia]);
     rewrite ?byte_at_read_bytes by lia;
     rewrite ?byte_at_set_byte;
     rewrite ?set_byte_length, ?memcpy_length, ?memset_length;
     repeat (first [rewrite bool_decide_eq_true_2 by lia
     |rewrite bool_decide_eq_false_2 by lia]);
     rewrite ?byte_at_memset by lia;
     repeat (first [rewrite bool_decide_eq_true_2 by lia
     |rewrite bool_decide_eq_false_2 by lia]);
     reflexivity|]).
  f_equal.
  rewrite !byte_at_memcpy by lia;
  rewrite ?set_byte_length, ?memcpy_length, ?memset_length;
  repeat (first [rewrite bool_decide_eq_true_2 by lia
  |rewrite bool_decide_eq_false_2 by lia]);
  rewrite ?byte_at_read_bytes by lia;
  rewrite ?byte_at_set_byte;
  rewrite ?set_byte_length, ?memcpy_length, ?memset_length;
  repeat (first [rewrite bool_decide_eq_true_2 by lia
  |rewrite bool_decide_eq_false_2 by lia]);
  rewrite ?byte_at_memset by lia;
  repeat (first [rewrite bool_decide_eq_true_2 by lia
  |rewrite bool_decide_eq_false_2 by lia]);
  reflexivity.
Qed.

(** The theorem at the BMC of the scenarios. *)
Lemma add_mc_then_get_device_id_witness :
  let emu' := fst (ipmi_emu_add_mc 1000 ipmi_emu_alloc 0x20 0x20 1 1 2 0 0xBF
                     [0x12; 0x34; 0x56] [0x78; 0x9A] 0) in
  ∃ mc, emu_ipmb emu' !! Z.shiftr 0x20 1 = Some mc ∧
        rdata_len (handle_get_device_id mc empty_request (rbuf 0)) = 12 ∧
        read_bytes (rdata (handle_get_device_id mc empty_request (rbuf 0))) 0 12 =
          [0; 0x20;
           u8 (Z.lor (Z.shiftl 1 7) (Z.land 1 0xf));
           Z.land 2 0x7f; 0; 0x51; 0xBF;
           byte_at [0x12; 0x34; 0x56] 0; byte_at [0x12; 0x34; 0x56] 1;
           byte_at [0x12; 0x34; 0x56] 2;
           byte_at [0x78; 0x9A] 0; byte_at [0x78; 0x9A] 1].
Proof.
  apply (add_mc_then_get_device_id 1000 ipmi_emu_alloc 0x20 0x20 1 1 2 0 0xBF
           [0x12; 0x34; 0x56] [0x78; 0x9A] 0 empty_request (rbuf 0)); by vm_compute.
Defined.
